(** * Free-tier usage tracking: ledger, classification, alerts, breach prediction

    A shallow embedding of [src/database.py] ([DatabaseManager]),
    [src/alerts.py] ([FreeTierAlertManager]) and the functions of
    [src/dashboard.py] ([FreeTierDashboard]) that compute what the dashboard
    shows.

    Conventions of the embedding.
    - Python floats and SQLite REAL values are exact rationals ([Q]); the
      comparisons, [round], [int] and [max] of the source are the exact ones.
      Equalities between computed numbers are stated with [==] ([Qeq]).
    - The SQLite database is an explicit state [db]: the tables with a UNIQUE
      key are finite maps from the key to the remaining columns, the alert
      table (no key) is a list in insertion order.  The columns the engine
      fills on its own ([id], [created_at]) are not part of the state, so
      the state of a keyed table does not tell in which order its rows were
      inserted.
    - [datetime.now()] is an argument [now], read once per call.
    - Python exceptions are the [Raise] results of the [result] type.
    - [reachable] collects the states the methods produce from the empty
      database; in them every stored allowance is positive. *)

From Stdlib Require Import ZArith QArith Qround Qminmax Qabs Lqa Lia String Ascii List.
From stdpp Require Import gmap strings list fin_maps pretty sorting.

Set Default Proof Using "Type".
Local Open Scope Z_scope.

(** ** Exceptions and results *)

Inductive exn : Set :=
  | ZeroDivisionError   (* float division by zero *)
  | IntegrityError      (* sqlite3.IntegrityError: NOT NULL constraint failed *)
  | ValueError          (* datetime.replace: day is out of range for month *)
  | TypeError.          (* comparison of None with a number *)

Inductive result (A : Type) : Type :=
  | Ok (a : A)
  | Raise (e : exn).
Arguments Ok {A} a.
Arguments Raise {A} e.

Definition result_bind {A B} (m : result A) (k : A → result B) : result B :=
  match m with
  | Ok a => k a
  | Raise e => Raise e
  end.

#[global] Instance result_ret : MRet result := λ A a, Ok a.
#[global] Instance result_mbind : MBind result := λ A B k m, result_bind m k.

(** ** Numbers *)

Module Py.

(** Truth value of a number ([if x:]): zero is false. *)
Definition truthy (x : Q) : bool := negb (Qeq_bool x 0).

(** Truth value of a nullable number: [None] and zero are false. *)
Definition truthy_opt (x : option Q) : bool :=
  match x with
  | Some q => truthy q
  | None => false
  end.

(** [a / b] on floats: raises on a zero divisor. *)
Definition truediv (a b : Q) : result Q :=
  if Qeq_bool b 0 then Raise ZeroDivisionError else Ok (a / b)%Q.

(** [a >= b] and [a > b]. *)
Definition ge (a b : Q) : bool := Qle_bool b a.
Definition gt (a b : Q) : bool := negb (Qle_bool a b).

(** [max(a, b)]: the first argument unless the second is strictly larger. *)
Definition max (a b : Q) : Q := if gt b a then b else a.

(** Nearest integer, ties to the even one. *)
Definition round_half_even (x : Q) : Z :=
  let f := Qfloor x in
  match (x - inject_Z f ?= 1 # 2)%Q with
  | Lt => f
  | Gt => f + 1
  | Eq => if Z.even f then f else f + 1
  end.

(** [round(x, ndigits)]. *)
Definition round (x : Q) (ndigits : nat) : Q :=
  let scale := inject_Z (10 ^ Z.of_nat ndigits) in
  (inject_Z (round_half_even (x * scale)) / scale)%Q.

(** [int(x)]: truncation toward zero. *)
Definition int (x : Q) : Z := Z.quot (Qnum x) (Z.pos (Qden x)).

(** [f"{x:.1f}"] for [x >= 0] (the only use in the source is on
    percentages of at least 75). *)
Definition format_1f (x : Q) : string :=
  let n := round_half_even (x * 10) in
  pretty (n / 10) +:+ "." +:+ pretty (n mod 10).

End Py.

(** ** Calendar: [datetime] and SQLite's [strftime] *)

Record datetime : Type := {
  year : Z;
  month : Z;
  day : Z;
  clock : string   (* time of day as [isoformat] prints it *)
}.

Definition is_leap (y : Z) : bool :=
  ((y mod 4 =? 0) && negb (y mod 100 =? 0)) || (y mod 400 =? 0).

Definition days_in (y m : Z) : Z :=
  if m =? 2 then (if is_leap y then 29 else 28)
  else if (m =? 4) || (m =? 6) || (m =? 9) || (m =? 11) then 30
  else 31.

(** What [datetime.now()] can return: a calendar date with a year of four
    digits. *)
Definition valid_datetime (d : datetime) : Prop :=
  1000 ≤ year d ≤ 9999 ∧ 1 ≤ month d ≤ 12 ∧ 1 ≤ day d ≤ days_in (year d) (month d).

Definition pad2 (n : Z) : string :=
  if n <? 10 then "0" +:+ pretty n else pretty n.

Definition pad4 (n : Z) : string :=
  if n <? 10 then "000" +:+ pretty n
  else if n <? 100 then "00" +:+ pretty n
  else if n <? 1000 then "0" +:+ pretty n
  else pretty n.

(** [d.strftime('%Y-%m')], [d.strftime('%Y-%m-%d')], [d.isoformat()]. *)
Definition strftime_Ym (d : datetime) : string :=
  pad4 (year d) +:+ "-" +:+ pad2 (month d).

Definition strftime_Ymd (d : datetime) : string :=
  strftime_Ym d +:+ "-" +:+ pad2 (day d).

Definition isoformat (d : datetime) : string :=
  strftime_Ymd d +:+ "T" +:+ clock d.

(** [d.replace(day=n)]: raises when the month has no such day. *)
Definition replace_day (d : datetime) (n : Z) : result datetime :=
  if (1 <=? n) && (n <=? days_in (year d) (month d))
  then Ok {| year := year d; month := month d; day := n; clock := clock d |}
  else Raise ValueError.

Module Sql.

(** SQLite's reading of a date text ([date.c] of SQLite 3.40, the functions
    [parseYyyyMmDd], [parseHhMmSs], [parseTimezone], [computeJD] and
    [computeYMD]), for the texts that hold a calendar date or a time of
    day.  The two other inputs of the date functions, the text ['now'] and
    Julian day numbers, need the clock of the database and SQLite's number
    reader; they are not dates of this model, which answers NULL for
    them. *)

Definition digit_value (c : ascii) : option Z :=
  let n := Z.of_N (N_of_ascii c) in
  if (48 <=? n) && (n <=? 57) then Some (n - 48) else None.

Fixpoint digits_value (acc : Z) (s : string) : option Z :=
  match s with
  | EmptyString => Some acc
  | String c s' =>
      match digit_value c with
      | Some v => digits_value (10 * acc + v) s'
      | None => None
      end
  end.

(** [getDigits]: exactly [n] digits with a value in [lo..hi]; the rest of
    the text is returned. *)
Definition get_digits (n : nat) (lo hi : Z) (s : string) : option (Z * string) :=
  if (n <=? String.length s)%nat then
    match digits_value 0 (substring 0 n s) with
    | Some v =>
        if (lo <=? v) && (v <=? hi)
        then Some (v, substring n (String.length s - n) s) else None
    | None => None
    end
  else None.

(** The text behind a character that has to be there. *)
Definition expect (c : ascii) (s : string) : option string :=
  match s with
  | String c' s' => if Ascii.eqb c c' then Some s' else None
  | EmptyString => None
  end.

(** [sqlite3Isspace]. *)
Definition is_space (c : ascii) : bool :=
  let n := N_of_ascii c in ((9 <=? n) && (n <=? 13) || (n =? 32))%N.

Fixpoint skip (p : ascii → bool) (s : string) : string :=
  match s with
  | String c s' => if p c then skip p s' else s
  | EmptyString => s
  end.

(** [parseTimezone]: nothing, [Z] or [(+|-)HH:MM], then only white space;
    the offset in minutes. *)
Definition parse_timezone (s : string) : option Z :=
  let at_end (tz : Z) (rest : string) :=
    match skip is_space rest with
    | EmptyString => Some tz
    | _ => None
    end in
  let offset (sgn : Z) (rest : string) :=
    '(hr, rest) ← get_digits 2 0 14 rest;
    rest ← expect ":" rest;
    '(mn, rest) ← get_digits 2 0 59 rest;
    at_end (sgn * (mn + hr * 60)) rest in
  match skip is_space s with
  | EmptyString => Some 0
  | String c rest =>
      if Ascii.eqb c "-" then offset (-1) rest
      else if Ascii.eqb c "+" then offset 1 rest
      else if Ascii.eqb c "Z" || Ascii.eqb c "z" then at_end 0 rest
      else None
  end.

(** The digits after the point of the seconds, as a fraction. *)
Fixpoint fraction (value scale : Z) (s : string) : Q * string :=
  match s with
  | String c s' =>
      match digit_value c with
      | Some v => fraction (value * 10 + v) (scale * 10) s'
      | None => (inject_Z value / inject_Z scale, s)%Q
      end
  | EmptyString => (inject_Z value / inject_Z scale, s)%Q
  end.

Definition starts_with_digit (s : string) : bool :=
  match s with
  | String c _ => bool_decide (is_Some (digit_value c))
  | EmptyString => false
  end.

(** Truncation toward zero, the conversion of a double to an integer. *)
Definition trunc (x : Q) : Z := Z.quot (Qnum x) (Z.pos (Qden x)).

(** The seconds of [parseHhMmSs]: nothing, [:SS] or [:SS.FFF]. *)
Definition parse_seconds (s : string) : option (Q * string) :=
  match expect ":" s with
  | Some rest =>
      '(sec, rest) ← get_digits 2 0 59 rest;
      match expect "." rest with
      | Some rest' =>
          if starts_with_digit rest'
          then Some (inject_Z sec + (fraction 0 1 rest').1, (fraction 0 1 rest').2)%Q
          else Some (inject_Z sec, rest)
      | None => Some (inject_Z sec, rest)
      end
  | None => Some (0%Q, s)
  end.

(** [parseHhMmSs]: [HH:MM], [HH:MM:SS] or [HH:MM:SS.FFF] and a time zone;
    the milliseconds since midnight as [computeJD] counts them, and the
    offset of the zone in minutes. *)
Definition parse_hh_mm_ss (s : string) : option (Z * Z) :=
  '(h, rest) ← get_digits 2 0 24 s;
  rest ← expect ":" rest;
  '(m, rest) ← get_digits 2 0 59 rest;
  '(sec, rest) ← parse_seconds rest;
  tz ← parse_timezone rest;
  Some (h * 3600000 + m * 60000 + trunc (sec * 1000 + (1 # 2)), tz).

(** [computeJD] for a calendar date: the Julian day of its midnight in
    milliseconds; no result for a year outside -4713..9999. *)
Definition julian_ms (Y M D : Z) : option Z :=
  if (Y <? -4713) || (9999 <? Y) then None
  else
    let '(Y, M) := if M <=? 2 then (Y - 1, M + 12) else (Y, M) in
    let A := Z.quot Y 100 in
    let B := 2 - A + Z.quot A 4 in
    let X1 := Z.quot (36525 * (Y + 4716)) 100 in
    let X2 := Z.quot (306001 * (M + 1)) 10000 in
    Some (trunc ((inject_Z (X1 + X2 + D + B) - (15245 # 10)) * 86400000)).

(** [validJulianDay]. *)
Definition valid_julian (iJD : Z) : bool :=
  (0 <=? iJD) && (iJD <=? 464269060799999).

(** [computeYMD]: the calendar date of a Julian day. *)
Definition ymd_of_julian (iJD : Z) : Z * Z * Z :=
  let Z0 := Z.quot (iJD + 43200000) 86400000 in
  let A := trunc ((inject_Z Z0 - (186721625 # 100)) / (3652425 # 100)) in
  let A := Z0 + 1 + A - Z.quot A 4 in
  let B := A + 1524 in
  let C := trunc ((inject_Z B - (1221 # 10)) / (36525 # 100)) in
  let D := Z.quot (36525 * Z.land C 32767) 100 in
  let E := trunc (inject_Z (B - D) / (306001 # 10000)) in
  let X1 := trunc ((306001 # 10000) * inject_Z E) in
  let M := if E <? 14 then E - 1 else E - 13 in
  (if 2 <? M then C - 4716 else C - 4715, M, B - D - X1).

(** The date a text stands for, as [strftime] prints it.  A calendar date
    that is written out keeps its year, month and day as written, also a
    day past the end of its month; a zone offset other than zero, or a time
    of day without a date (which counts from 2000-01-01), goes through the
    Julian day. *)
Definition parse_date (s : string) : option (Z * Z * Z) :=
  let calendar :=
    let neg := bool_decide (is_Some (expect "-" s)) in
    let rest := default s (expect "-" s) in
    '(Y, rest) ← get_digits 4 0 9999 rest;
    rest ← expect "-" rest;
    '(M, rest) ← get_digits 2 1 12 rest;
    rest ← expect "-" rest;
    '(D, rest) ← get_digits 2 1 31 rest;
    let Y := if neg then - Y else Y in
    let rest := skip (λ c, is_space c || Ascii.eqb c "T") rest in
    match parse_hh_mm_ss rest with
    | Some (ms, tz) => Some (Y, M, D, ms, tz)
    | None =>
        match rest with
        | EmptyString => Some (Y, M, D, 0, 0)
        | _ => None
        end
    end in
  match calendar with
  | Some (Y, M, D, ms, tz) =>
      midnight ← julian_ms Y M D;
      if tz =? 0 then
        if valid_julian (midnight + ms) then Some (Y, M, D) else None
      else
        let iJD := midnight + ms - tz * 60000 in
        if valid_julian iJD then Some (ymd_of_julian iJD) else None
  | None =>
      '(ms, tz) ← parse_hh_mm_ss s;
      midnight ← julian_ms 2000 1 1;
      let iJD := midnight + ms - tz * 60000 in
      if valid_julian iJD then Some (ymd_of_julian iJD) else None
  end.

(** [%04d] and [%02d]. *)
Definition fmt04 (n : Z) : string :=
  if n <? 0 then
    let m := - n in
    "-" +:+ (if m <? 10 then "00" +:+ pretty m
             else if m <? 100 then "0" +:+ pretty m
             else pretty m)
  else pad4 n.

(** [strftime('%Y-%m', date)]: NULL for a text that is no date. *)
Definition strftime_Ym (s : string) : option string :=
  '(Y, M, _) ← parse_date s;
  Some (fmt04 Y +:+ "-" +:+ pad2 M).

End Sql.

(** ** The database *)

(** A row of [free_tier_limits] without its key [(service, usage_type)]. *)
Record limit_row : Type := {
  monthly_limit : Q;
  unit_ : string;
  description : string
}.

(** A row of [aws_free_tier_usage] without its key
    [(date, service, usage_type)]. *)
Record usage_row : Type := {
  usage_amount : Q;
  usage_unit : string;
  free_tier_limit : option Q;
  limit_unit : string;
  cost : Q;
  is_free_tier : bool
}.

(** A row of [free_tier_alerts]. *)
Record alert_row : Type := {
  al_service : string;
  al_usage_type : string;
  al_current_usage : Q;
  al_limit_value : Q;
  al_usage_percentage : Q;
  al_alert_level : string;
  al_message : string;
  al_date : string;
  al_acknowledged : bool
}.

Abbreviation usage_key := (string * string * string)%type.
Abbreviation limit_key := (string * string)%type.

Record db : Type := {
  usage : gmap usage_key usage_row;
  limits : gmap limit_key limit_row;
  alerts : list alert_row
}.

Definition empty_db : db := {| usage := ∅; limits := ∅; alerts := [] |}.

Definition with_usage (conn : db) (u : gmap usage_key usage_row) : db :=
  {| usage := u; limits := limits conn; alerts := alerts conn |}.

Definition with_limits (conn : db) (l : gmap limit_key limit_row) : db :=
  {| usage := usage conn; limits := l; alerts := alerts conn |}.

Definition with_alerts (conn : db) (a : list alert_row) : db :=
  {| usage := usage conn; limits := limits conn; alerts := a |}.

(** *** [_populate_free_tier_limits] *)

Definition free_tier_limits : list (string * string * Q * string * string) :=
  [ ("Amazon Elastic Compute Cloud - Compute", "t2.micro", 750 # 1, "hours", "t2.micro instance hours per month");
    ("Amazon Simple Storage Service", "Standard Storage", 5 # 1, "GB", "5 GB of Standard Storage");
    ("Amazon Simple Storage Service", "Requests", 20000 # 1, "requests", "GET Requests");
    ("Amazon Simple Storage Service", "Requests", 2000 # 1, "requests", "PUT, COPY, POST, LIST requests");
    ("AWS Lambda", "Requests", 1000000 # 1, "requests", "Free requests per month");
    ("AWS Lambda", "Duration", 400000 # 1, "GB-seconds", "Compute time per month");
    ("Amazon Relational Database Service", "db.t2.micro", 750 # 1, "hours", "db.t2.micro database hours");
    ("Amazon Relational Database Service", "Storage", 20 # 1, "GB", "General Purpose SSD storage");
    ("Amazon CloudWatch", "Metrics", 10 # 1, "metrics", "Custom metrics");
    ("Amazon CloudWatch", "Alarms", 10 # 1, "alarms", "Alarms");
    ("Amazon CloudWatch", "API Requests", 1000000 # 1, "requests", "API requests");
    ("Amazon DynamoDB", "Storage", 25 # 1, "GB", "Storage");
    ("Amazon DynamoDB", "Read Capacity", 25 # 1, "RCU", "Read Capacity Units");
    ("Amazon DynamoDB", "Write Capacity", 25 # 1, "WCU", "Write Capacity Units");
    ("Amazon Simple Notification Service", "Notifications", 1000000 # 1, "notifications", "Published notifications");
    ("Amazon Simple Queue Service", "Requests", 1000000 # 1, "requests", "Requests per month")
  ]%string.

(** [INSERT OR IGNORE INTO free_tier_limits]: a row whose key is taken is
    dropped. *)
Definition insert_or_ignore_limit (conn : db)
    (row : string * string * Q * string * string) : db :=
  let '(service, usage_type, limit, unit, descr) := row in
  match limits conn !! (service, usage_type) with
  | Some _ => conn
  | None =>
      with_limits conn
        (<[(service, usage_type) :=
             {| monthly_limit := limit; unit_ := unit; description := descr |}]>
           (limits conn))
  end.

Definition _populate_free_tier_limits (conn : db) : db :=
  foldl insert_or_ignore_limit conn free_tier_limits.

(** [initialize_tables]: the tables exist from the start in this model, so
    only the seeding of the limits is left. *)
Definition initialize_tables (self : db) : db :=
  _populate_free_tier_limits self.

(** *** [insert_usage_data] *)

(** A usage record as the collector hands it over: a dict read with
    [record.get]; a field is [None] when its key is missing. *)
Record usage_record : Type := {
  rec_date : option string;
  rec_service : option string;
  rec_usage_type : option string;
  rec_usage_amount : option Q;
  rec_usage_unit : option string;
  rec_cost : option Q
}.

(** [SELECT monthly_limit, unit FROM free_tier_limits WHERE service = ? AND
    usage_type = ?] followed by [fetchone]; a NULL parameter matches no row. *)
Definition select_limit (conn : db) (service usage_type : option string)
  : option limit_row :=
  match service, usage_type with
  | Some s, Some u => limits conn !! (s, u)
  | _, _ => None
  end.

(** The values bound to the [INSERT OR REPLACE] statement. *)
Definition usage_row_of (conn : db) (record : usage_record) : usage_row :=
  let limit_row := select_limit conn (rec_service record) (rec_usage_type record) in
  {| usage_amount := default 0%Q (rec_usage_amount record);
     usage_unit := default ""%string (rec_usage_unit record);
     free_tier_limit := monthly_limit <$> limit_row;
     limit_unit :=
       match limit_row with
       | Some l => unit_ l
       | None => default ""%string (rec_usage_unit record)
       end;
     cost := default 0%Q (rec_cost record);
     is_free_tier := Qeq_bool (default 0%Q (rec_cost record)) 0 |}.

(** One turn of the loop: the limit lookup and the [INSERT OR REPLACE].  The
    columns [date], [service] and [usage_type] are NOT NULL without a default,
    so a NULL there aborts the statement; otherwise the row with the same key,
    if any, is replaced. *)
Definition insert_or_replace_usage (conn : db) (record : usage_record)
  : result db :=
  match rec_date record, rec_service record, rec_usage_type record with
  | Some d, Some s, Some u =>
      Ok (with_usage conn (<[(d, s, u) := usage_row_of conn record]> (usage conn)))
  | _, _, _ => Raise IntegrityError
  end.

Fixpoint insert_usage_loop (conn : db) (usage_records : list usage_record)
  : result db :=
  match usage_records with
  | [] => Ok conn
  | record :: rest =>
      conn' ← insert_or_replace_usage conn record;
      insert_usage_loop conn' rest
  end.

(** The whole method runs in one transaction ([with self.get_connection()]):
    committed at the end, rolled back when an exception leaves the block. *)
Definition insert_usage_data (self : db) (usage_records : list usage_record)
  : result () * db :=
  match insert_usage_loop self usage_records with
  | Ok conn => (Ok (), conn)
  | Raise e => (Raise e, self)
  end.

(** *** [check_free_tier_usage] *)

(** A row of the GROUP BY query of [check_free_tier_usage]. *)
Record usage_group : Type := {
  g_service : string;
  g_usage_type : string;
  total_usage : Q;                 (* SUM(u.usage_amount) *)
  g_usage_unit : string;           (* u.usage_unit *)
  g_free_tier_limit : option Q;    (* u.free_tier_limit *)
  g_limit_unit : string;           (* u.limit_unit *)
  avg_cost : Q;                    (* AVG(u.cost) *)
  days_tracked : Z                 (* COUNT( * ) *)
}.

(** The value stored under ['remaining']: a number or the text
    ['unlimited']. *)
Inductive remaining_value : Type :=
  | RemainingAmount (q : Q)
  | RemainingText (s : string).

(** [row_dict] after the loop body: the columns of the query and the three
    keys the loop adds.  [usage_percentage] is a nullable number so that a
    Python [None] could be told from a number. *)
Record usage_status : Type := {
  st_group : usage_group;
  usage_percentage : option Q;
  remaining : remaining_value;
  alert_level : string
}.

Definition Qsum (l : list Q) : Q := foldr Qplus 0%Q l.

(** The rows of [aws_free_tier_usage] with
    [strftime('%Y-%m', date) = month]. *)
Definition rows_of_month (conn : db) (month : string)
  : list (usage_key * usage_row) :=
  filter (λ kr, Sql.strftime_Ym (kr.1.1.1) = Some month) (map_to_list (usage conn)).

Definition group_of (kr : usage_key * usage_row) : limit_key :=
  (kr.1.1.2, kr.1.2).

(** ORDER BY service, usage_type under the BINARY collation. *)
Definition group_leb (a b : limit_key) : bool :=
  match String.compare a.1 b.1 with
  | Lt => true
  | Gt => false
  | Eq => String.leb a.2 b.2
  end.

(** One group of the query.  The columns that are neither grouped nor
    aggregated are read from one row of the group, here the first; SQLite
    reads them from a row that depends on the order of insertion, which the
    state does not hold, so that nothing is stated about which row it is. *)
Definition aggregate_group (rows : list (usage_key * usage_row)) (g : limit_key)
  : option usage_group :=
  let members := filter (λ kr, group_of kr = g) rows in
  match members with
  | [] => None
  | kr :: _ =>
      Some {| g_service := g.1;
              g_usage_type := g.2;
              total_usage := Qsum (usage_amount ∘ snd <$> members);
              g_usage_unit := usage_unit kr.2;
              g_free_tier_limit := free_tier_limit kr.2;
              g_limit_unit := limit_unit kr.2;
              avg_cost := (Qsum (cost ∘ snd <$> members)
                           / inject_Z (Z.of_nat (length members)))%Q;
              days_tracked := Z.of_nat (length members) |}
  end.

Definition select_usage_by_group (conn : db) (month : string) : list usage_group :=
  let rows := rows_of_month conn month in
  let groups := merge_sort (λ a b, Is_true (group_leb a b))
                  (remove_dups (group_of <$> rows)) in
  omap (aggregate_group rows) groups.

(** The body of the loop over [cursor.fetchall()] (lines 206 to 226). *)
Definition classify_row (row : usage_group) : result usage_status :=
  if Py.truthy_opt (g_free_tier_limit row) then
    let limit := default 0%Q (g_free_tier_limit row) in
    q ← Py.truediv (total_usage row) limit;
    let usage_percentage := (q * 100)%Q in
    Ok {| st_group := row;
          usage_percentage := Some (Py.round usage_percentage 2);
          remaining := RemainingAmount (Py.max 0 (limit - total_usage row));
          alert_level :=
            if Py.ge usage_percentage 90 then "critical"
            else if Py.ge usage_percentage 75 then "warning"
            else if Py.ge usage_percentage 50 then "info"
            else "ok" |}
  else
    Ok {| st_group := row;
          usage_percentage := Some 0%Q;
          remaining := RemainingText "unlimited";
          alert_level := "unknown" |}.

(** The loop building the list [usage_status]. *)
Fixpoint classify_rows (rows : list usage_group) : result (list usage_status) :=
  match rows with
  | [] => Ok []
  | row :: rest =>
      row_dict ← classify_row row;
      usage_status ← classify_rows rest;
      Ok (row_dict :: usage_status)
  end.

(** [month] is [None] when the caller leaves it out; an empty text counts as
    left out as well ([if not month]). *)
Definition check_free_tier_usage (self : db) (now : datetime)
    (month : option string) : result (list usage_status) :=
  let month :=
    match month with
    | Some m => if bool_decide (m = ""%string) then strftime_Ym now else m
    | None => strftime_Ym now
    end in
  classify_rows (select_usage_by_group self month).

(** *** [create_free_tier_alert] *)

Definition create_free_tier_alert (self : db) (now : datetime)
    (service usage_type : string) (current_usage limit_value : Q)
  : result () * db :=
  match Py.truediv current_usage limit_value with
  | Raise e => (Raise e, self)
  | Ok q =>
      let usage_percentage := (q * 100)%Q in
      let insert (alert_level message : string) :=
        (Ok (),
         with_alerts self
           (alerts self ++
            [{| al_service := service;
                al_usage_type := usage_type;
                al_current_usage := current_usage;
                al_limit_value := limit_value;
                al_usage_percentage := usage_percentage;
                al_alert_level := alert_level;
                al_message := message;
                al_date := strftime_Ymd now;
                al_acknowledged := false |}])) in
      if Py.ge usage_percentage 90 then
        insert "critical"
          ("CRITICAL: " +:+ service +:+ " " +:+ usage_type +:+ " usage at "
           +:+ Py.format_1f usage_percentage +:+ "% of free tier limit")
      else if Py.ge usage_percentage 75 then
        insert "warning"
          ("WARNING: " +:+ service +:+ " " +:+ usage_type +:+ " usage at "
           +:+ Py.format_1f usage_percentage +:+ "% of free tier limit")
      else (Ok (), self)
  end.

(** ** The alert manager ([src/alerts.py]) *)

(** The alert dict that [_create_alert] returns. *)
Record alert : Type := {
  a_service : string;
  a_usage_type : string;
  a_severity : string;
  a_usage_percentage : Q;
  a_current_usage : Q;
  a_limit : Q;
  a_remaining : Q;
  a_message : string;
  a_timestamp : string;
  a_month : string
}.

Definition alert_message (service usage_type severity : string)
    (usage_percentage : Q) : string :=
  if bool_decide (severity = "warning") then
    "⚠️  WARNING: " +:+ service +:+ " (" +:+ usage_type +:+ ") is at "
    +:+ Py.format_1f usage_percentage +:+ "% of free tier limit"
  else if bool_decide (severity = "critical") then
    "🚨 CRITICAL: " +:+ service +:+ " (" +:+ usage_type +:+ ") is at "
    +:+ Py.format_1f usage_percentage
    +:+ "% of free tier limit - charges may apply soon!"
  else if bool_decide (severity = "breach") then
    "💰 BREACH: " +:+ service +:+ " (" +:+ usage_type
    +:+ ") has exceeded free tier limit - charges are being incurred!"
  else "Alert for " +:+ service.

(** [_create_alert]: builds the dict, then stores an alert row through
    [create_free_tier_alert], which decides again from the usage and the
    limit whether and at which level a row is written. *)
Definition _create_alert (self : db) (now : datetime)
    (service usage_type severity : string)
    (usage_percentage current_usage limit : Q) : result alert * db :=
  let alert :=
    {| a_service := service;
       a_usage_type := usage_type;
       a_severity := severity;
       a_usage_percentage := usage_percentage;
       a_current_usage := current_usage;
       a_limit := limit;
       a_remaining := Py.max 0 (limit - current_usage);
       a_message := alert_message service usage_type severity usage_percentage;
       a_timestamp := isoformat now;
       a_month := strftime_Ym now |} in
  match create_free_tier_alert self now service usage_type current_usage limit with
  | (Ok _, self') => (Ok alert, self')
  | (Raise e, self') => (Raise e, self')
  end.

(** The loop of [check_free_tier_alerts] over the usage status; [alerts] is
    the list built so far. *)
Fixpoint check_alerts_loop (self : db) (now : datetime)
    (usage_status : list usage_status) (alerts : list alert)
  : result (list alert) * db :=
  match usage_status with
  | [] => (Ok alerts, self)
  | service_usage :: rest =>
      let row := st_group service_usage in
      if Py.truthy_opt (g_free_tier_limit row) then
        match usage_percentage service_usage with
        | None => (Raise TypeError, self)
        | Some usage_percentage =>
            let limit := default 0%Q (g_free_tier_limit row) in
            if Py.ge usage_percentage 90 then
              match _create_alert self now (g_service row) (g_usage_type row)
                      "critical" usage_percentage (total_usage row) limit with
              | (Ok alert, self') => check_alerts_loop self' now rest (alerts ++ [alert])
              | (Raise e, self') => (Raise e, self')
              end
            else if Py.ge usage_percentage 75 then
              match _create_alert self now (g_service row) (g_usage_type row)
                      "warning" usage_percentage (total_usage row) limit with
              | (Ok alert, self') => check_alerts_loop self' now rest (alerts ++ [alert])
              | (Raise e, self') => (Raise e, self')
              end
            else check_alerts_loop self now rest alerts
        end
      else check_alerts_loop self now rest alerts
  end.

(** [check_free_tier_alerts]; the argument [usage_data] is not read. *)
Definition check_free_tier_alerts (self : db) (now : datetime)
    (usage_data : list usage_record) : result (list alert) * db :=
  match check_free_tier_usage self now (Some (strftime_Ym now)) with
  | Raise e => (Raise e, self)
  | Ok usage_status => check_alerts_loop self now usage_status []
  end.

(** *** [predict_free_tier_breach] *)

(** The row of the month-to-date query. *)
Record month_to_date_row : Type := {
  month_to_date_usage : Q;         (* SUM(usage_amount) *)
  m_free_tier_limit : option Q;    (* free_tier_limit *)
  m_usage_unit : string            (* usage_unit *)
}.

(** The query of [predict_free_tier_breach] followed by [fetchone]: one group
    at most, absent when no row matches. *)
Definition select_month_to_date (conn : db) (service usage_type month : string)
  : option month_to_date_row :=
  let members :=
    filter (λ kr, kr.1.1.2 = service ∧ kr.1.2 = usage_type
                  ∧ Sql.strftime_Ym (kr.1.1.1) = Some month)
           (map_to_list (usage conn)) in
  match members with
  | [] => None
  | kr :: _ =>
      Some {| month_to_date_usage := Qsum (usage_amount ∘ snd <$> members);
              m_free_tier_limit := free_tier_limit kr.2;
              m_usage_unit := usage_unit kr.2 |}
  end.

Record prediction : Type := {
  p_service : string;
  p_usage_type : string;
  p_current_usage : Q;
  p_projected_usage : Q;
  p_limit : Q;
  p_unit : string;
  p_daily_average : Q;
  p_days_to_breach : Z;
  p_projected_breach_date : string;
  p_confidence : string
}.

Definition days_in_month : Z := 31.

Definition predict_free_tier_breach (self : db) (now : datetime)
    (service usage_type : string) : result (option prediction) :=
  let current_month := strftime_Ym now in
  let current_day := day now in
  match select_month_to_date self service usage_type current_month with
  | None => Ok None
  | Some row =>
      if negb (Py.truthy_opt (m_free_tier_limit row)) then Ok None
      else
        let month_to_date := month_to_date_usage row in
        let limit := default 0%Q (m_free_tier_limit row) in
        let unit := m_usage_unit row in
        daily_average ← Py.truediv month_to_date (inject_Z current_day);
        let projected_monthly_usage := (daily_average * inject_Z days_in_month)%Q in
        if Py.gt projected_monthly_usage limit then
          q ← Py.truediv (limit - month_to_date) daily_average;
          let days_to_breach := Z.max 1 (Py.int q) in
          breach_date ← replace_day now (Z.min days_in_month (current_day + days_to_breach));
          Ok (Some {| p_service := service;
                      p_usage_type := usage_type;
                      p_current_usage := month_to_date;
                      p_projected_usage := projected_monthly_usage;
                      p_limit := limit;
                      p_unit := unit;
                      p_daily_average := daily_average;
                      p_days_to_breach := days_to_breach;
                      p_projected_breach_date := strftime_Ymd breach_date;
                      p_confidence := if 7 <=? current_day then "medium" else "low" |})
        else Ok None
  end.

(** ** Shorthands for the statements *)

(** The status of a row whose allowance counts as present. *)
Definition tracked_status (row : usage_group) (limit : Q) : usage_status :=
  let p := (total_usage row / limit * 100)%Q in
  {| st_group := row;
     usage_percentage := Some (Py.round p 2);
     remaining := RemainingAmount (Py.max 0 (limit - total_usage row));
     alert_level :=
       if Py.ge p 90 then "critical"
       else if Py.ge p 75 then "warning"
       else if Py.ge p 50 then "info"
       else "ok" |}.

(** The status of a row whose allowance counts as absent. *)
Definition untracked_status (row : usage_group) : usage_status :=
  {| st_group := row;
     usage_percentage := Some 0%Q;
     remaining := RemainingText "unlimited";
     alert_level := "unknown" |}.

(** The identity key of a record, when all three of its parts are there. *)
Definition record_key (record : usage_record) : option usage_key :=
  match rec_date record, rec_service record, rec_usage_type record with
  | Some d, Some s, Some u => Some (d, s, u)
  | _, _, _ => None
  end.

(** The last record of a batch with the given identity key. *)
Definition last_record_for (k : usage_key) (records : list usage_record)
  : option usage_record :=
  last (filter (λ r, record_key r = Some k) records).

(** The alert row that one run of the alert check stores for a status, if
    any: the row [create_free_tier_alert] writes when it is reached with the
    total usage and the allowance of the status. *)
Definition persisted_alert (now : datetime) (s : usage_status) : option alert_row :=
  let row := st_group s in
  match g_free_tier_limit row with
  | Some limit =>
      let p := (total_usage row / limit * 100)%Q in
      let stored (alert_level message : string) :=
        {| al_service := g_service row;
           al_usage_type := g_usage_type row;
           al_current_usage := total_usage row;
           al_limit_value := limit;
           al_usage_percentage := p;
           al_alert_level := alert_level;
           al_message := message;
           al_date := strftime_Ymd now;
           al_acknowledged := false |} in
      if negb (Py.truthy limit) then None
      else if Py.ge p 90 then
        Some (stored "critical"
                ("CRITICAL: " +:+ g_service row +:+ " " +:+ g_usage_type row
                 +:+ " usage at " +:+ Py.format_1f p +:+ "% of free tier limit"))
      else if Py.ge p 75 then
        Some (stored "warning"
                ("WARNING: " +:+ g_service row +:+ " " +:+ g_usage_type row
                 +:+ " usage at " +:+ Py.format_1f p +:+ "% of free tier limit"))
      else None
  | None => None
  end.

(** ** The states the program reaches *)

(** The database after any sequence of the state-changing methods, the first
    being [initialize_tables] on the empty database. *)
Inductive reachable : db → Prop :=
  | reachable_init :
      reachable (initialize_tables empty_db)
  | reachable_reinit conn :
      reachable conn → reachable (initialize_tables conn)
  | reachable_insert conn usage_records :
      reachable conn → reachable (insert_usage_data conn usage_records).2
  | reachable_alerts conn now usage_data :
      reachable conn → reachable (check_free_tier_alerts conn now usage_data).2.

(** Every usage row carries the allowance that [free_tier_limits] holds for
    its service and usage type. *)
Definition consistent (conn : db) : Prop :=
  ∀ d s u row, usage conn !! (d, s, u) = Some row →
    free_tier_limit row = monthly_limit <$> limits conn !! (s, u).

(** Every allowance of [free_tier_limits] is positive. *)
Definition limits_positive (conn : db) : Prop :=
  ∀ k l, limits conn !! k = Some l → (0 < monthly_limit l)%Q.

(** Every row of the seed list has its key in [free_tier_limits]. *)
Definition seeded (conn : db) : Prop :=
  ∀ service usage_type limit unit descr,
    (service, usage_type, limit, unit, descr) ∈ free_tier_limits →
    is_Some (limits conn !! (service, usage_type)).

(** ** Sample data for the examples *)

Module Sample.

Definition ec2 : string := "Amazon Elastic Compute Cloud - Compute".

(** An aggregated row of EC2 [t2.micro] hours. *)
Definition group (total : Q) (limit : option Q) : usage_group :=
  {| g_service := ec2;
     g_usage_type := "t2.micro";
     total_usage := total;
     g_usage_unit := "hours";
     g_free_tier_limit := limit;
     g_limit_unit := "hours";
     avg_cost := 0;
     days_tracked := 1 |}.

(** A complete usage record of EC2 [t2.micro] hours. *)
Definition record (date : string) (amount : Q) : usage_record :=
  {| rec_date := Some date;
     rec_service := Some ec2;
     rec_usage_type := Some "t2.micro"%string;
     rec_usage_amount := Some amount;
     rec_usage_unit := Some "hours"%string;
     rec_cost := Some 0%Q |}.

(** 10 March 2024, and the first ten days of that month. *)
Definition now : datetime :=
  {| year := 2024; month := 3; day := 10; clock := "12:00:00" |}.

Definition first_ten_days : list string :=
  [ "2024-03-01"; "2024-03-02"; "2024-03-03"; "2024-03-04"; "2024-03-05";
    "2024-03-06"; "2024-03-07"; "2024-03-08"; "2024-03-09"; "2024-03-10" ]%string.

(** A freshly initialised database. *)
Definition fresh : db := initialize_tables empty_db.

(** The database after the same amount was recorded on each of the first
    ten days. *)
Definition ten_days_of (amount : Q) : db :=
  (insert_usage_data fresh ((λ d, record d amount) <$> first_ten_days)).2.

End Sample.

Module SampleRecords.

(** A record without ['date']. *)
Definition no_date : usage_record :=
  {| rec_date := None;
     rec_service := Some Sample.ec2;
     rec_usage_type := Some "t2.micro"%string;
     rec_usage_amount := Some 24%Q;
     rec_usage_unit := Some "hours"%string;
     rec_cost := Some 0%Q |}.

(** A record without ['usage_amount']. *)
Definition no_amount : usage_record :=
  {| rec_date := Some "2024-03-02"%string;
     rec_service := Some Sample.ec2;
     rec_usage_type := Some "t2.micro"%string;
     rec_usage_amount := None;
     rec_usage_unit := Some "hours"%string;
     rec_cost := Some 0%Q |}.

End SampleRecords.

Module SampleFebruary.

(** 20 February 2023, with 500 hours recorded on that day. *)
Definition now : datetime :=
  {| year := 2023; month := 2; day := 20; clock := "12:00:00" |}.

Definition ledger : db :=
  (insert_usage_data Sample.fresh [Sample.record "2023-02-20" 500]).2.

End SampleFebruary.

(** * Further methods *)

(** ** More of Python's built-ins *)

Module PyStr.

(** [f"{x:.<digits>f}"]: the sign, the integer part and [digits] decimals of
    the nearest multiple of [10^-digits], ties to even. *)
Definition pad_zeros (width : nat) (s : string) : string :=
  string_of_list_ascii (replicate (width - String.length s) "0"%char) +:+ s.

Definition format_f (digits : nat) (x : Q) : string :=
  let scale := 10 ^ Z.of_nat digits in
  let n := Py.round_half_even (Qabs x * inject_Z scale) in
  (if Py.gt 0 x then "-" else "")
  +:+ pretty (n / scale)
  +:+ (if (digits =? 0)%nat then ""
       else "." +:+ pad_zeros digits (pretty (n mod scale))).

(** [str(x)] of a text that may be [None]. *)
Definition str_opt (x : option string) : string := default "None" x.

(** [sub in s]. *)
Fixpoint contains (sub s : string) : bool :=
  String.prefix sub s
  || match s with
     | EmptyString => false
     | String _ s' => contains sub s'
     end.

Definition is_lower (c : ascii) : bool :=
  let n := N_of_ascii c in ((97 <=? n) && (n <=? 122))%N.

Definition is_upper (c : ascii) : bool :=
  let n := N_of_ascii c in ((65 <=? n) && (n <=? 90))%N.

Definition to_upper (c : ascii) : ascii :=
  if is_lower c then ascii_of_N (N_of_ascii c - 32) else c.

Definition to_lower (c : ascii) : ascii :=
  if is_upper c then ascii_of_N (N_of_ascii c + 32) else c.

(** [s.title()] on ASCII text: a letter after a non-letter is put in upper
    case, a letter after a letter in lower case. *)
Fixpoint title_from (after_letter : bool) (s : string) : string :=
  match s with
  | EmptyString => EmptyString
  | String c s' =>
      if is_lower c || is_upper c
      then String (if after_letter then to_lower c else to_upper c) (title_from true s')
      else String c (title_from false s')
  end.

Definition title (s : string) : string := title_from false s.

End PyStr.

(** ** SQLite's [date('now', '-N days')] *)

Module SqlDate.

(** ['now']: the Julian day, in milliseconds, that the clock of the database
    shows.  A clock text that is no time of day counts as midnight. *)
Definition julian_now (utc : datetime) : option Z :=
  midnight ← Sql.julian_ms (year utc) (month utc) (day utc);
  Some (midnight + default 0 (fst <$> Sql.parse_hh_mm_ss (clock utc))).

(** The text [date()] returns: the year with four digits behind its sign. *)
Definition date_text (d : Z * Z * Z) : string :=
  (if d.1.1 <? 0 then "-" else "")
  +:+ pad4 (Z.abs d.1.1) +:+ "-" +:+ pad2 d.1.2 +:+ "-" +:+ pad2 d.2.

(** [date('now', '-<days> days')] with the number written by Python's
    [format]: NULL when the number is negative (the modifier then reads
    [--N days], which is none) or out of range (5373485 days or more), and
    when the day lies before the first Julian day. *)
Definition now_minus_days (utc : datetime) (days : Z) : option string :=
  if (days <? 0) || (5373485 <=? days) then None
  else
    now ← julian_now utc;
    let iJD := now - days * 86400000 in
    if Sql.valid_julian iJD then Some (date_text (Sql.ymd_of_julian iJD)) else None.

(** [a >= b] on TEXT values (BINARY collation). *)
Definition text_ge (a b : string) : bool := String.leb b a.

End SqlDate.

(** ** [check_cost_anomalies] *)

(** A cost record as [check_cost_anomalies] reads it with [record.get]. *)
Record cost_record : Type := {
  c_date : option string;
  c_service : option string;
  c_usage_type : option string;
  c_cost : option Q;
  c_currency : option string
}.

Record anomaly : Type := {
  an_type : string;
  an_date : option string;
  an_service : option string;
  an_usage_type : option string;
  an_cost : Q;
  an_currency : string;
  an_message : string;
  an_severity : string
}.

Fixpoint check_cost_anomalies (cost_data : list cost_record) : list anomaly :=
  match cost_data with
  | [] => []
  | record :: rest =>
      let cost := default 0%Q (c_cost record) in
      if Py.gt cost (1 # 100) then
        {| an_type := "cost_anomaly";
           an_date := c_date record;
           an_service := c_service record;
           an_usage_type := c_usage_type record;
           an_cost := cost;
           an_currency := default "USD"%string (c_currency record);
           an_message :=
             "Unexpected cost of $" +:+ PyStr.format_f 2 cost +:+ " detected for "
             +:+ PyStr.str_opt (c_service record) +:+ " - free tier may be exceeded";
           an_severity := if Py.gt cost 1 then "critical" else "warning" |}
        :: check_cost_anomalies rest
      else check_cost_anomalies rest
  end.

(** ** [get_service_recommendations] *)

Record recommendation : Type := {
  rc_service : string;
  rc_type : string;
  rc_priority : string;
  rc_title : string;
  rc_description : string;
  rc_action : string
}.

(** The two recommendations appended to every answer. *)
Definition always_on_recommendations : list recommendation :=
  [ {| rc_service := "General";
       rc_type := "monitoring";
       rc_priority := "high";
       rc_title := "Set up AWS Budgets";
       rc_description := "Create zero-spend budget to get alerts before charges occur";
       rc_action := "Go to AWS Budgets console and create a $0.01 budget with email alerts" |};
    {| rc_service := "General";
       rc_type := "security";
       rc_priority := "high";
       rc_title := "Enable Cost Anomaly Detection";
       rc_description := "AWS service to detect unusual spending patterns";
       rc_action := "Enable in AWS Cost Management console (free service)" |} ].

(** The loop over the usage status; [recommendations] is the list built so
    far. *)
Fixpoint recommendations_loop (usage_status : list usage_status)
    (recommendations : list recommendation) : result (list recommendation) :=
  match usage_status with
  | [] => Ok recommendations
  | service_usage :: rest =>
      let service := g_service (st_group service_usage) in
      let usage_type := g_usage_type (st_group service_usage) in
      match usage_percentage service_usage with
      | None => Raise TypeError
      | Some usage_percentage =>
          if Py.ge usage_percentage 80 then
            if PyStr.contains "Elastic Compute Cloud" service
               && PyStr.contains "t2.micro" usage_type then
              recommendations_loop rest
                (recommendations ++
                 [{| rc_service := service;
                     rc_type := "optimization";
                     rc_priority := "high";
                     rc_title := "EC2 t2.micro Usage Optimization";
                     rc_description := "Consider stopping instances when not needed to stay within 750 hours/month limit";
                     rc_action := "Schedule automatic stop/start or use spot instances" |}])
            else if PyStr.contains "Simple Storage Service" service then
              recommendations_loop rest
                (recommendations ++
                 [{| rc_service := service;
                     rc_type := "optimization";
                     rc_priority := "medium";
                     rc_title := "S3 Storage Optimization";
                     rc_description := "Review stored data and consider lifecycle policies";
                     rc_action := "Delete unnecessary files or move to cheaper storage classes" |}])
            else if PyStr.contains "Lambda" service then
              recommendations_loop rest
                (recommendations ++
                 [{| rc_service := service;
                     rc_type := "optimization";
                     rc_priority := "medium";
                     rc_title := "Lambda Usage Optimization";
                     rc_description := "Optimize function memory allocation and execution time";
                     rc_action := "Review function performance and reduce memory/duration if possible" |}])
            else recommendations_loop rest recommendations
          else recommendations_loop rest recommendations
      end
  end.

(** [get_service_recommendations]; the argument [usage_data] is not read. *)
Definition get_service_recommendations (self : db) (now : datetime)
    (usage_data : list usage_record) : result (list recommendation) :=
  usage_status ← check_free_tier_usage self now (Some (strftime_Ym now));
  recommendations ← recommendations_loop usage_status [];
  Ok (recommendations ++ always_on_recommendations).

(** ** [get_cost_trend] *)

Record cost_trend_row : Type := {
  ct_date : string;
  daily_cost : Q;          (* SUM(cost) *)
  active_services : Z;     (* COUNT(DISTINCT service) *)
  paid_cost : Q            (* SUM(CASE WHEN cost > 0 THEN cost ELSE 0 END) *)
}.

(** The rows of [aws_free_tier_usage] with [date >= date('now', '-N days')];
    none when the cut-off is NULL.  The dates are compared as texts. *)
Definition rows_since (conn : db) (cutoff : option string)
  : list (usage_key * usage_row) :=
  match cutoff with
  | Some cutoff =>
      filter (λ kr, Is_true (SqlDate.text_ge kr.1.1.1 cutoff)) (map_to_list (usage conn))
  | None => []
  end.

Definition date_of (kr : usage_key * usage_row) : string := kr.1.1.1.

(** One group of [GROUP BY date]. *)
Definition cost_of_day (rows : list (usage_key * usage_row)) (d : string)
  : cost_trend_row :=
  let members := filter (λ kr, date_of kr = d) rows in
  {| ct_date := d;
     daily_cost := Qsum (cost ∘ snd <$> members);
     active_services :=
       Z.of_nat (length (remove_dups ((λ kr, kr.1.1.2) <$> members)));
     paid_cost :=
       Qsum ((λ kr, if Py.gt (cost kr.2) 0 then cost kr.2 else 0%Q) <$> members) |}.

(** [get_cost_trend(days)] for an integer [days]; [utc] is the clock of the
    database. *)
Definition get_cost_trend (self : db) (utc : datetime) (days : Z)
  : list cost_trend_row :=
  let rows := rows_since self (SqlDate.now_minus_days utc days) in
  let dates := merge_sort (λ a b, Is_true (String.leb a b))
                 (remove_dups (date_of <$> rows)) in
  cost_of_day rows <$> dates.

(** ** The summary of [export_free_tier_report] *)

Record report_summary : Type := {
  total_services_tracked : Z;
  at_risk_services : Z;
  critical_services : Z;
  total_monthly_cost : Q
}.

(** [len([s for s in usage_status if s['usage_percentage'] >= bound])]. *)
Fixpoint count_at_least (bound : Q) (usage_status : list usage_status) : result Z :=
  match usage_status with
  | [] => Ok 0
  | s :: rest =>
      match usage_percentage s with
      | None => Raise TypeError
      | Some p =>
          n ← count_at_least bound rest;
          Ok (if Py.ge p bound then 1 + n else n)
      end
  end.

(** The entry ['summary'] of the report (lines 278 to 283 and 309 to 314);
    the entries read from [created_at] are outside this model. *)
Definition export_summary (self : db) (now : datetime) : result report_summary :=
  usage_status ← check_free_tier_usage self now (Some (strftime_Ym now));
  at_risk ← count_at_least 75 usage_status;
  critical ← count_at_least 90 usage_status;
  Ok {| total_services_tracked := Z.of_nat (length usage_status);
        at_risk_services := at_risk;
        critical_services := critical;
        total_monthly_cost :=
          foldl Qplus 0%Q ((λ s, avg_cost (st_group s) * 30)%Q <$> usage_status) |}.

(** ** The dashboard ([src/dashboard.py]) *)

(** The values of the pie of [create_usage_overview_chart]. *)
Record category_counts : Type := {
  cat_safe : Z;        (* 'Safe (0-50%)' *)
  cat_moderate : Z;    (* 'Moderate (50-75%)' *)
  cat_warning : Z;     (* 'Warning (75-90%)' *)
  cat_critical : Z     (* 'Critical (90%+)' *)
}.

Fixpoint categorize (usage_status : list usage_status) (categories : category_counts)
  : result category_counts :=
  match usage_status with
  | [] => Ok categories
  | service :: rest =>
      match usage_percentage service with
      | None => Raise TypeError
      | Some usage_pct =>
          categorize rest
            (if Py.ge usage_pct 90 then
               {| cat_safe := cat_safe categories;
                  cat_moderate := cat_moderate categories;
                  cat_warning := cat_warning categories;
                  cat_critical := cat_critical categories + 1 |}
             else if Py.ge usage_pct 75 then
               {| cat_safe := cat_safe categories;
                  cat_moderate := cat_moderate categories;
                  cat_warning := cat_warning categories + 1;
                  cat_critical := cat_critical categories |}
             else if Py.ge usage_pct 50 then
               {| cat_safe := cat_safe categories;
                  cat_moderate := cat_moderate categories + 1;
                  cat_warning := cat_warning categories;
                  cat_critical := cat_critical categories |}
             else
               {| cat_safe := cat_safe categories + 1;
                  cat_moderate := cat_moderate categories;
                  cat_warning := cat_warning categories;
                  cat_critical := cat_critical categories |})
      end
  end.

(** [create_usage_overview_chart]: the figure is given by the values of its
    pie; [None] is the figure that says "No data available". *)
Definition create_usage_overview_chart (usage_status : list usage_status)
  : result (option category_counts) :=
  match usage_status with
  | [] => Ok None
  | _ =>
      c ← categorize usage_status
             {| cat_safe := 0; cat_moderate := 0; cat_warning := 0; cat_critical := 0 |};
      Ok (Some c)
  end.

(** A row of [table_data] in [create_usage_table]. *)
Record table_row : Type := {
  tr_service : string;         (* 'Service' *)
  tr_usage_type : string;      (* 'Usage Type' *)
  tr_current_usage : string;   (* 'Current Usage' *)
  tr_free_tier_limit : string; (* 'Free Tier Limit' *)
  tr_usage_pct : string;       (* 'Usage %' *)
  tr_remaining : string;       (* 'Remaining' *)
  tr_status : string           (* 'Status' *)
}.

(** The dict of one status, its values formatted in the order of the
    source: a [None] cannot be formatted with [.2f] (TypeError), a text
    neither (ValueError). *)
Definition table_row_of (service : usage_status) : result table_row :=
  let row := st_group service in
  let current_usage := PyStr.format_f 2 (total_usage row) +:+ " " +:+ g_usage_unit row in
  match g_free_tier_limit row with
  | None => Raise TypeError
  | Some limit =>
      let free_tier_limit := PyStr.format_f 2 limit +:+ " " +:+ g_limit_unit row in
      match usage_percentage service with
      | None => Raise TypeError
      | Some pct =>
          let usage_pct := PyStr.format_f 1 pct +:+ "%" in
          match remaining service with
          | RemainingText _ => Raise ValueError
          | RemainingAmount r =>
              Ok {| tr_service := g_service row;
                    tr_usage_type := g_usage_type row;
                    tr_current_usage := current_usage;
                    tr_free_tier_limit := free_tier_limit;
                    tr_usage_pct := usage_pct;
                    tr_remaining := PyStr.format_f 2 r +:+ " " +:+ g_usage_unit row;
                    tr_status := PyStr.title (alert_level service) |}
          end
      end
  end.

Fixpoint table_rows (usage_status : list usage_status) : result (list table_row) :=
  match usage_status with
  | [] => Ok []
  | service :: rest =>
      r ← table_row_of service;
      table_data ← table_rows rest;
      Ok (r :: table_data)
  end.

(** [create_usage_table]: the table is given by its [data]; [None] is the
    text "No usage data available". *)
Definition create_usage_table (usage_status : list usage_status)
  : result (option (list table_row)) :=
  match usage_status with
  | [] => Ok None
  | _ => table_data ← table_rows usage_status; Ok (Some table_data)
  end.

(** A recommendation of the dashboard. *)
Record dashboard_recommendation : Type := {
  dr_icon : string;
  dr_title : string;
  dr_desc : string;
  dr_priority : string
}.

Fixpoint dashboard_recommendations_loop (usage_status : list usage_status)
    (recommendations : list dashboard_recommendation)
  : result (list dashboard_recommendation) :=
  match usage_status with
  | [] => Ok recommendations
  | service :: rest =>
      match usage_percentage service with
      | None => Raise TypeError
      | Some usage_pct =>
          let service_name := g_service (st_group service) in
          if Py.ge usage_pct 80 then
            if PyStr.contains "Compute Cloud" service_name then
              dashboard_recommendations_loop rest
                (recommendations ++
                 [{| dr_icon := "🖥️";
                     dr_title := "EC2 Optimization";
                     dr_desc := "Stop instances when not needed to stay within 750 hours/month";
                     dr_priority := "High" |}])
            else if PyStr.contains "Storage Service" service_name then
              dashboard_recommendations_loop rest
                (recommendations ++
                 [{| dr_icon := "💾";
                     dr_title := "S3 Storage Review";
                     dr_desc := "Consider lifecycle policies or delete unused files";
                     dr_priority := "Medium" |}])
            else if PyStr.contains "Lambda" service_name then
              dashboard_recommendations_loop rest
                (recommendations ++
                 [{| dr_icon := "⚡";
                     dr_title := "Lambda Optimization";
                     dr_desc := "Optimize memory allocation and execution time";
                     dr_priority := "Medium" |}])
            else dashboard_recommendations_loop rest recommendations
          else dashboard_recommendations_loop rest recommendations
      end
  end.

Definition general_recommendations : list dashboard_recommendation :=
  [ {| dr_icon := "💰";
       dr_title := "Set up AWS Budgets";
       dr_desc := "Create a $0.01 budget with email alerts";
       dr_priority := "High" |};
    {| dr_icon := "📊";
       dr_title := "Enable Cost Anomaly Detection";
       dr_desc := "Free AWS service to detect unusual spending";
       dr_priority := "Medium" |} ].

(** [create_recommendations_section]: the section is given by the list
    [recommendations] it renders, one element for each. *)
Definition create_recommendations_section (usage_status : list usage_status)
  : result (list dashboard_recommendation) :=
  recommendations ← dashboard_recommendations_loop usage_status [];
  Ok (match recommendations with
      | [] => general_recommendations
      | _ => recommendations
      end).

(** ** Shorthands for the further properties *)

(** The alert dict that one run of the alert check returns for a status, if
    any: the dict [_create_alert] builds when the loop of
    [check_free_tier_alerts] reaches it with the reported percentage. *)
Definition returned_alert (now : datetime) (s : usage_status) : option alert :=
  let row := st_group s in
  match g_free_tier_limit row, usage_percentage s with
  | Some limit, Some p =>
      let built (severity : string) :=
        {| a_service := g_service row;
           a_usage_type := g_usage_type row;
           a_severity := severity;
           a_usage_percentage := p;
           a_current_usage := total_usage row;
           a_limit := limit;
           a_remaining := Py.max 0 (limit - total_usage row);
           a_message := alert_message (g_service row) (g_usage_type row) severity p;
           a_timestamp := isoformat now;
           a_month := strftime_Ym now |} in
      if negb (Py.truthy limit) then None
      else if Py.ge p 90 then Some (built "critical")
      else if Py.ge p 75 then Some (built "warning")
      else None
  | _, _ => None
  end.


(** Every stored usage row has a date that SQLite's date functions read: a
    calendar date, with or without a time of day, or a time of day (it
    stays a TEXT value in the DATE column). *)
Definition date_texts (conn : db) : Prop :=
  map_Forall (λ (k : usage_key) (_ : usage_row), is_Some (Sql.strftime_Ym k.1.1))
    (usage conn).

Module SampleUntracked.

(** One day of EC2 hours under a usage type as the cost explorer names it,
    for which [free_tier_limits] has no row. *)
Definition ledger : db :=
  (insert_usage_data Sample.fresh
     [ {| rec_date := Some "2024-03-01"%string;
          rec_service := Some Sample.ec2;
          rec_usage_type := Some "BoxUsage:t2.micro"%string;
          rec_usage_amount := Some 24%Q;
          rec_usage_unit := Some "Hrs"%string;
          rec_cost := Some 0%Q |} ]).2.

End SampleUntracked.

(** * Properties *)

(** ** Examples of the number and date functions *)

Example strftime_in_month : Sql.strftime_Ym "2024-01-15" = Some "2024-01"%string.
Proof. vm_compute. reflexivity. Qed.

(** A day past the end of its month stays in the month it is written in;
    a time of day does not change the month, a zone offset can. *)
Example strftime_day_past_month : Sql.strftime_Ym "2023-02-30" = Some "2023-02"%string.
Proof. vm_compute. reflexivity. Qed.

Example strftime_time_of_day :
  Sql.strftime_Ym "2024-03-01 12:00:00" = Some "2024-03"%string
  ∧ Sql.strftime_Ym "2024-03-01T00:30+01:00" = Some "2024-02"%string.
Proof. split; vm_compute; reflexivity. Qed.

Example strftime_not_a_date : Sql.strftime_Ym "yesterday" = None.
Proof. vm_compute. reflexivity. Qed.

Example round_two_places : (Py.round (280 # 3) 2 == 9333 # 100)%Q.
Proof. reflexivity. Qed.

Example format_one_place : Py.format_1f (280 # 3) = "93.3"%string.
Proof. reflexivity. Qed.

Example int_truncates : Py.int (46 # 3) = 15 ∧ Py.int (- 46 # 3) = -15.
Proof. split; reflexivity. Qed.

(** ** Numbers *)

Section numbers.
Local Open Scope Q_scope.

Lemma truthy_true (x : Q) : Py.truthy x = true ↔ ¬ x == 0.
Proof.
  unfold Py.truthy. rewrite negb_true_iff, <- not_true_iff_false, Qeq_bool_iff.
  reflexivity.
Qed.

Lemma truthy_false (x : Q) : Py.truthy x = false ↔ x == 0.
Proof.
  unfold Py.truthy. rewrite negb_false_iff, Qeq_bool_iff. reflexivity.
Qed.

Lemma truthy_opt_true (o : option Q) :
  Py.truthy_opt o = true ↔ ∃ l, o = Some l ∧ ¬ l == 0.
Proof.
  destruct o as [l|]; simpl.
  - rewrite truthy_true. split; [eauto | intros (? & [= <-] & ?); done].
  - split; [done | intros (? & ? & _); done].
Qed.

Lemma truthy_opt_false (o : option Q) :
  Py.truthy_opt o = false ↔ o = None ∨ ∃ l, o = Some l ∧ l == 0.
Proof.
  destruct o as [l|]; simpl.
  - rewrite truthy_false. split; [eauto | intros [? | (? & [= <-] & ?)]; done].
  - split; [eauto | done].
Qed.

Lemma truediv_nonzero (a b : Q) : ¬ b == 0 → Py.truediv a b = Ok (a / b).
Proof.
  intros Hb. unfold Py.truediv.
  destruct (Qeq_bool b 0) eqn:E; [| done].
  apply Qeq_bool_iff in E. contradiction.
Qed.

Lemma truediv_zero (a b : Q) : b == 0 → Py.truediv a b = Raise ZeroDivisionError.
Proof.
  intros Hb. unfold Py.truediv. apply Qeq_bool_iff in Hb. by rewrite Hb.
Qed.

Lemma ge_true (a b : Q) : Py.ge a b = true ↔ b <= a.
Proof. apply Qle_bool_iff. Qed.

Lemma ge_false (a b : Q) : Py.ge a b = false ↔ a < b.
Proof.
  unfold Py.ge. rewrite <- not_true_iff_false, Qle_bool_iff.
  split; [apply Qnot_le_lt | apply Qlt_not_le].
Qed.

Lemma gt_true (a b : Q) : Py.gt a b = true ↔ b < a.
Proof.
  unfold Py.gt. rewrite negb_true_iff. apply ge_false.
Qed.

Lemma gt_false (a b : Q) : Py.gt a b = false ↔ a <= b.
Proof.
  unfold Py.gt. rewrite negb_false_iff. apply ge_true.
Qed.

Lemma max_zero (x : Q) : Py.max 0 x == Qmax 0 x.
Proof.
  unfold Py.max. destruct (Py.gt x 0) eqn:E.
  - apply gt_true in E. symmetry. apply Q.max_r. lra.
  - apply gt_false in E. symmetry. apply Q.max_l. lra.
Qed.

(** The nearest integer is within one half. *)
Lemma round_half_even_near (x : Q) :
  x - (1 # 2) <= inject_Z (Py.round_half_even x) <= x + (1 # 2).
Proof.
  unfold Py.round_half_even.
  pose proof (Qfloor_le x) as Hlo. pose proof (Qlt_floor x) as Hhi.
  rewrite inject_Z_plus in Hhi. change (inject_Z 1) with 1 in Hhi.
  destruct (x - inject_Z (Qfloor x) ?= 1 # 2) eqn:E.
  - apply Qeq_alt in E.
    destruct (Z.even (Qfloor x)); [| rewrite inject_Z_plus; change (inject_Z 1) with 1]; lra.
  - apply Qlt_alt in E. lra.
  - apply Qgt_alt in E. rewrite inject_Z_plus. change (inject_Z 1) with 1. lra.
Qed.

(** Rounding does not move a number across an integer. *)
Lemma round_half_even_ge (x : Q) (n : Z) :
  inject_Z n <= x → (n ≤ Py.round_half_even x)%Z.
Proof.
  intros Hn. unfold Py.round_half_even.
  assert (n ≤ Qfloor x)%Z as Hfl.
  { rewrite <- (Qfloor_Z n). by apply Qfloor_resp_le. }
  destruct (x - inject_Z (Qfloor x) ?= 1 # 2); [destruct (Z.even _) |..]; lia.
Qed.

Lemma round_near (x : Q) :
  x - (1 # 200) <= Py.round x 2 <= x + (1 # 200).
Proof.
  unfold Py.round. change (inject_Z (10 ^ Z.of_nat 2)) with 100.
  pose proof (round_half_even_near (x * 100)) as H.
  set (r := inject_Z (Py.round_half_even (x * 100))) in *.
  split.
  - apply Qle_shift_div_l; lra.
  - apply Qle_shift_div_r; lra.
Qed.

Lemma round_ge (x : Q) (n : Z) : inject_Z n <= x → inject_Z n <= Py.round x 2.
Proof.
  intros Hn. unfold Py.round. change (inject_Z (10 ^ Z.of_nat 2)) with 100.
  assert (n * 100 ≤ Py.round_half_even (x * 100))%Z as H.
  { apply round_half_even_ge. rewrite inject_Z_mult. change (inject_Z 100) with 100. nra. }
  apply Qle_shift_div_l; [lra |].
  rewrite (Zle_Qle _ _) in H. rewrite inject_Z_mult in H.
  change (inject_Z 100) with 100 in H. lra.
Qed.

End numbers.

(** ** Classification of an aggregated row *)

Section classification.
Local Open Scope Q_scope.

Lemma classify_row_tracked (row : usage_group) (l : Q) :
  g_free_tier_limit row = Some l → ¬ l == 0 →
  classify_row row = Ok (tracked_status row l).
Proof.
  intros Hl Hnz. unfold classify_row.
  rewrite (proj2 (truthy_opt_true _)) by eauto.
  rewrite Hl; simpl. by rewrite truediv_nonzero.
Qed.

Lemma classify_row_untracked (row : usage_group) :
  Py.truthy_opt (g_free_tier_limit row) = false →
  classify_row row = Ok (untracked_status row).
Proof. intros H. unfold classify_row. by rewrite H. Qed.

Lemma classify_row_cases (row : usage_group) :
  (∃ l, g_free_tier_limit row = Some l ∧ ¬ l == 0
        ∧ classify_row row = Ok (tracked_status row l))
  ∨ (Py.truthy_opt (g_free_tier_limit row) = false
     ∧ classify_row row = Ok (untracked_status row)).
Proof.
  destruct (Py.truthy_opt (g_free_tier_limit row)) eqn:E.
  - apply truthy_opt_true in E as (l & Hl & Hnz).
    left. exists l. eauto using classify_row_tracked.
  - right. eauto using classify_row_untracked.
Qed.

Lemma classify_row_total (row : usage_group) : ∃ s, classify_row row = Ok s.
Proof.
  destruct (classify_row_cases row) as [(l & _ & _ & ->) | [_ ->]]; eauto.
Qed.

Lemma classify_row_group (row : usage_group) (s : usage_status) :
  classify_row row = Ok s → st_group s = row.
Proof.
  destruct (classify_row_cases row) as [(l & _ & _ & ->) | [_ ->]];
    by intros [= <-].
Qed.

Local Ltac case_ge :=
  repeat match goal with
  | |- context [Py.ge ?a ?b] =>
      let E := fresh "E" in
      destruct (Py.ge a b) eqn:E; [apply ge_true in E | apply ge_false in E]
  end.

Lemma tracked_status_level (row : usage_group) (l : Q) :
  let p := total_usage row / l * 100 in
  (90 <= p → alert_level (tracked_status row l) = "critical"%string)
  ∧ (75 <= p → p < 90 → alert_level (tracked_status row l) = "warning"%string)
  ∧ (50 <= p → p < 75 → alert_level (tracked_status row l) = "info"%string)
  ∧ (p < 50 → alert_level (tracked_status row l) = "ok"%string).
Proof.
  intros p. unfold tracked_status; simpl. fold p.
  case_ge;
    repeat split; intros; (reflexivity || lra).
Qed.

Lemma classify_rows_total (rows : list usage_group) :
  ∃ statuses, classify_rows rows = Ok statuses.
Proof.
  induction rows as [|row rows [statuses IH]]; simpl; [by eexists |].
  destruct (classify_row_total row) as [s Hs].
  exists (s :: statuses). by rewrite Hs; simpl; rewrite IH.
Qed.

Lemma classify_rows_member (rows : list usage_group) statuses s :
  classify_rows rows = Ok statuses → s ∈ statuses →
  ∃ row, row ∈ rows ∧ classify_row row = Ok s.
Proof.
  revert statuses. induction rows as [|row rows IH]; intros statuses; simpl.
  - intros [= <-] Hs. by apply elem_of_nil in Hs.
  - destruct (classify_row row) as [s0|] eqn:H0; simpl; [| done].
    destruct (classify_rows rows) as [k|]; simpl; [| done].
    intros [= <-] [-> | Hs]%elem_of_cons.
    + exists row. split; [left | done].
    + destruct (IH k eq_refl Hs) as (r & ? & ?). exists r. split; [by right | done].
Qed.

End classification.

(** ** The usage check as a whole *)

Section usage_check.

Lemma aggregate_group_member rows g grp :
  aggregate_group rows g = Some grp →
  g_service grp = g.1 ∧ g_usage_type grp = g.2 ∧
  ∃ kr, kr ∈ rows ∧ group_of kr = g
        ∧ g_free_tier_limit grp = free_tier_limit kr.2
        ∧ g_usage_unit grp = usage_unit kr.2.
Proof.
  unfold aggregate_group.
  destruct (filter _ rows) as [|kr members] eqn:E; [done |].
  intros [= <-]; simpl. do 2 (split; [done |]).
  assert (kr ∈ filter (λ kr, group_of kr = g) rows) as Hin by (rewrite E; left).
  apply list_elem_of_filter in Hin as [Hg Hin]. eauto.
Qed.

(** Every row of the query stands for at least one stored row of the month,
    from which its allowance is read. *)
Lemma select_usage_by_group_member conn month grp :
  grp ∈ select_usage_by_group conn month →
  ∃ d row, usage conn !! (d, g_service grp, g_usage_type grp) = Some row
           ∧ Sql.strftime_Ym d = Some month
           ∧ g_free_tier_limit grp = free_tier_limit row.
Proof.
  unfold select_usage_by_group. intros Hin.
  apply list_elem_of_omap in Hin as (g & _ & Hagg).
  apply aggregate_group_member in Hagg
    as (Hs & Hu & [[[d s] u] row] & Hkr & Hg & Hlim & _).
  unfold rows_of_month in Hkr. apply list_elem_of_filter in Hkr as [Hm Hkr].
  apply elem_of_map_to_list in Hkr. simpl in *.
  unfold group_of in Hg; simpl in Hg. subst g; simpl in *.
  exists d, row. by rewrite Hs, Hu.
Qed.

Lemma check_free_tier_usage_total self now month :
  ∃ statuses, check_free_tier_usage self now month = Ok statuses.
Proof.
  unfold check_free_tier_usage. apply classify_rows_total.
Qed.

Lemma check_free_tier_usage_member self now month statuses s :
  check_free_tier_usage self now month = Ok statuses → s ∈ statuses →
  classify_row (st_group s) = Ok s
  ∧ ∃ d row, usage self !! (d, g_service (st_group s), g_usage_type (st_group s)) = Some row
             ∧ g_free_tier_limit (st_group s) = free_tier_limit row.
Proof.
  unfold check_free_tier_usage. intros Hm Hs.
  apply (classify_rows_member _ _ s) in Hm as (row & Hrow & Hc); [| done].
  rewrite (classify_row_group _ _ Hc). split; [done |].
  apply select_usage_by_group_member in Hrow as (d & r & ? & _ & ?). eauto.
Qed.

End usage_check.

(** ** Claims on the classification *)

Section classification_claims.
Local Open Scope Q_scope.

(** C2 (as stated, refuted): 700 of 750 is 93.333..., the row reports
    93.33. *)
Lemma percentage_rounded_counterexample :
  ∃ s u, classify_row (Sample.group 700 (Some 750)) = Ok s
         ∧ usage_percentage s = Some u
         ∧ u == 9333 # 100
         ∧ ¬ u == 700 / 750 * 100.
Proof. do 2 eexists. repeat split; discriminate. Qed.

(** C2 (amended): for every aggregated row whose allowance is present and
    nonzero, [remaining] is [max(0, allowance - total_usage)] exactly, and
    [usage_percentage] is the quotient [total_usage / allowance * 100]
    rounded to two decimal places: a whole number of hundredths within
    0.005 of the quotient. *)
Theorem percentage_and_remaining (row : usage_group) (l : Q) :
  g_free_tier_limit row = Some l → ¬ l == 0 →
  ∃ s u r, classify_row row = Ok s
    ∧ usage_percentage s = Some u
    ∧ remaining s = RemainingAmount r
    ∧ r == Qmax 0 (l - total_usage row)
    ∧ u = Py.round (total_usage row / l * 100) 2
    ∧ (∃ n : Z, u == inject_Z n / 100)
    ∧ Qabs (u - total_usage row / l * 100) <= 1 # 200.
Proof.
  intros Hl Hnz. eexists (tracked_status row l), _, _.
  split; [by apply classify_row_tracked |].
  do 2 (split; [reflexivity |]).
  split; [apply max_zero |]. split; [reflexivity |]. split.
  - by eexists.
  - apply Qabs_Qle_condition. pose proof (round_near (total_usage row / l * 100)). lra.
Qed.

Lemma percentage_and_remaining_witness :
  ∃ s u r, classify_row (Sample.group 600 (Some 750)) = Ok s
    ∧ usage_percentage s = Some u ∧ remaining s = RemainingAmount r
    ∧ r == 150 ∧ u == 80.
Proof.
  destruct (percentage_and_remaining (Sample.group 600 (Some 750)) 750)
    as (s & u & r & Hs & Hu & Hr & Hr' & Hu' & _); [reflexivity | discriminate |].
  exists s, u, r. split; [exact Hs |]. split; [exact Hu |]. split; [exact Hr |].
  split.
  - eapply Qeq_trans; [exact Hr' | reflexivity].
  - subst u. reflexivity.
Defined.

(** C10: an aggregated row whose stored allowance is exactly 0 is
    classified like a row without allowance (level ['unknown'], remaining
    ['unlimited']) instead of being divided by; no row and no stored
    allowance makes the usage check raise. *)
Theorem zero_allowance_untracked (row : usage_group) (l : Q) :
  g_free_tier_limit row = Some l → l == 0 →
  (∃ s, classify_row row = Ok s
        ∧ alert_level s = "unknown"%string
        ∧ remaining s = RemainingText "unlimited"
        ∧ usage_percentage s = Some 0)
  ∧ (∀ row' : usage_group, ∃ s', classify_row row' = Ok s')
  ∧ (∀ self now month, ∃ statuses,
       check_free_tier_usage self now month = Ok statuses).
Proof.
  intros Hl Hz. split; [| split].
  - exists (untracked_status row). split; [| done].
    apply classify_row_untracked, truthy_opt_false. eauto.
  - apply classify_row_total.
  - apply check_free_tier_usage_total.
Qed.

Lemma zero_allowance_untracked_witness :
  ∃ s, classify_row (Sample.group 10 (Some 0)) = Ok s
       ∧ alert_level s = "unknown"%string
       ∧ remaining s = RemainingText "unlimited"
       ∧ usage_percentage s = Some 0.
Proof.
  exact (proj1 (zero_allowance_untracked (Sample.group 10 (Some 0)) 0
                  eq_refl (Qeq_refl 0))).
Defined.

End classification_claims.

(** ** The usage ledger *)

Section ledger.

Lemma usage_row_of_limits (conn conn' : db) (record : usage_record) :
  limits conn' = limits conn → usage_row_of conn' record = usage_row_of conn record.
Proof.
  intros H. unfold usage_row_of, select_limit. by rewrite H.
Qed.

Lemma insert_or_replace_complete conn record k :
  record_key record = Some k →
  insert_or_replace_usage conn record
  = Ok (with_usage conn (<[k := usage_row_of conn record]> (usage conn))).
Proof.
  unfold record_key, insert_or_replace_usage.
  destruct (rec_date record), (rec_service record), (rec_usage_type record);
    try done. by intros [= <-].
Qed.

Lemma insert_or_replace_incomplete conn record :
  record_key record = None →
  insert_or_replace_usage conn record = Raise IntegrityError.
Proof.
  unfold record_key, insert_or_replace_usage.
  by destruct (rec_date record), (rec_service record), (rec_usage_type record).
Qed.

Lemma record_key_None record :
  record_key record = None ↔
  rec_date record = None ∨ rec_service record = None ∨ rec_usage_type record = None.
Proof.
  unfold record_key.
  destruct (rec_date record), (rec_service record), (rec_usage_type record);
    split; try done; try (intros [? | [? | ?]]; done); auto.
Qed.

Lemma insert_usage_loop_app conn records1 records2 :
  insert_usage_loop conn (records1 ++ records2)
  = conn' ← insert_usage_loop conn records1; insert_usage_loop conn' records2.
Proof.
  revert conn. induction records1 as [|r records1 IH]; intros conn; simpl; [done |].
  destruct (insert_or_replace_usage conn r) as [conn1|]; simpl; [apply IH | done].
Qed.

(** A batch in which a record lacks a part of its key fails as a whole. *)
Lemma insert_usage_loop_incomplete conn records :
  (∃ r, r ∈ records ∧ record_key r = None) →
  insert_usage_loop conn records = Raise IntegrityError.
Proof.
  revert conn. induction records as [|r0 records IH]; intros conn (r & Hin & Hr).
  - by apply elem_of_nil in Hin.
  - simpl. destruct (record_key r0) as [k0|] eqn:Hk0.
    + rewrite (insert_or_replace_complete _ _ _ Hk0); simpl.
      apply IH. apply elem_of_cons in Hin as [-> | Hin]; [congruence | eauto].
    + by rewrite insert_or_replace_incomplete.
Qed.

Lemma last_record_for_snoc k records r :
  last_record_for k (records ++ [r])
  = if decide (record_key r = Some k) then Some r else last_record_for k records.
Proof.
  unfold last_record_for. rewrite filter_app, filter_cons, filter_nil.
  destruct (decide (record_key r = Some k)); [apply last_snoc | by rewrite app_nil_r].
Qed.

(** A batch of records with complete keys is stored as a whole: under each
    key stands the row of the last record of the batch with that key, and
    the other rows are as before. *)
Lemma insert_usage_loop_complete conn records :
  (∀ r, r ∈ records → is_Some (record_key r)) →
  ∃ conn', insert_usage_loop conn records = Ok conn'
    ∧ limits conn' = limits conn ∧ alerts conn' = alerts conn
    ∧ ∀ k, usage conn' !! k =
           match last_record_for k records with
           | Some r => Some (usage_row_of conn r)
           | None => usage conn !! k
           end.
Proof.
  induction records as [|r records IH] using rev_ind; intros Hall.
  - exists conn. by repeat split.
  - destruct IH as (conn1 & Hloop & Hlim & Hal & Hus).
    { intros r' Hr'. apply Hall, elem_of_app. by left. }
    destruct (Hall r) as [k0 Hk0]; [apply elem_of_app; right; left |].
    rewrite insert_usage_loop_app, Hloop; simpl.
    rewrite (insert_or_replace_complete _ _ _ Hk0); simpl.
    eexists. split; [reflexivity |]. simpl. do 2 (split; [done |]).
    intros k. rewrite last_record_for_snoc.
    rewrite (usage_row_of_limits conn conn1) by done.
    destruct (decide (record_key r = Some k)) as [Hk | Hk].
    + assert (k0 = k) as -> by congruence. apply lookup_insert_eq.
    + rewrite lookup_insert_ne by congruence. apply Hus.
Qed.

Lemma records_complete_or_not (records : list usage_record) :
  (∀ r, r ∈ records → is_Some (record_key r))
  ∨ (∃ r, r ∈ records ∧ record_key r = None).
Proof.
  induction records as [|r0 records [IH | (r & Hin & Hr)]].
  - left. intros r Hr. by apply elem_of_nil in Hr.
  - destruct (record_key r0) as [k|] eqn:Hk.
    + left. intros r [-> | Hr]%elem_of_cons; [by rewrite Hk | by apply IH].
    + right. exists r0. split; [left | done].
  - right. exists r. split; [by right | done].
Qed.

Lemma db_eq (a b : db) :
  usage a = usage b → limits a = limits b → alerts a = alerts b → a = b.
Proof. destruct a, b; simpl; by intros -> -> ->. Qed.

(** Replaying a batch leaves the state it produced. *)
Lemma insert_usage_data_replay self records :
  let once := (insert_usage_data self records).2 in
  (insert_usage_data once records).2 = once.
Proof.
  unfold insert_usage_data.
  destruct (records_complete_or_not records) as [Hall | Hex].
  - destruct (insert_usage_loop_complete self records Hall)
      as (c1 & -> & Hl1 & Ha1 & Hu1); simpl.
    destruct (insert_usage_loop_complete c1 records Hall)
      as (c2 & -> & Hl2 & Ha2 & Hu2); simpl.
    apply db_eq; [| congruence ..].
    apply map_eq. intros k. rewrite Hu2, Hu1.
    destruct (last_record_for k records); [| done].
    by rewrite (usage_row_of_limits self c1).
  - rewrite (insert_usage_loop_incomplete self) by done; simpl.
    by rewrite (insert_usage_loop_incomplete self) by done.
Qed.

End ledger.

(** ** Claims on the ledger *)

Section ledger_claims.
Local Open Scope Q_scope.

(** C4: the upsert is idempotent and replaces.  Inserting an observation a
    second time, in a call of its own or twice in one call, leaves the
    state the first insertion produced (and so does replaying any batch);
    a second observation with the same (date, service, usage_type) key
    leaves the state that inserting it alone produces: the row under the
    key carries the second amount, not the sum. *)
Theorem upsert_idempotent_and_replaces :
  (∀ (self : db) (r : usage_record),
     let once := (insert_usage_data self [r]).2 in
     (insert_usage_data once [r]).2 = once
     ∧ (insert_usage_data self [r; r]).2 = once)
  ∧ (∀ (self : db) (records : list usage_record),
       let once := (insert_usage_data self records).2 in
       (insert_usage_data once records).2 = once)
  ∧ (∀ (self : db) (r1 r2 : usage_record) (k : usage_key),
       record_key r1 = Some k → record_key r2 = Some k →
       let both := (insert_usage_data (insert_usage_data self [r1]).2 [r2]).2 in
       both = (insert_usage_data self [r2]).2
       ∧ (insert_usage_data self [r1; r2]).2 = both
       ∧ usage both !! k = Some (usage_row_of self r2)
       ∧ usage_amount <$> usage both !! k = Some (default 0 (rec_usage_amount r2))).
Proof.
  split; [| split].
  - intros self r once. split; [apply insert_usage_data_replay |].
    subst once. unfold insert_usage_data; simpl.
    destruct (record_key r) as [k|] eqn:Hk.
    + rewrite (insert_or_replace_complete _ _ _ Hk); simpl.
      rewrite (insert_or_replace_complete _ _ _ Hk); simpl.
      apply db_eq; simpl; [| done ..].
      rewrite (usage_row_of_limits self (with_usage self _)) by done. apply insert_insert_eq.
    + by rewrite insert_or_replace_incomplete.
  - apply insert_usage_data_replay.
  - intros self r1 r2 k H1 H2 both. subst both.
    unfold insert_usage_data; simpl.
    rewrite (insert_or_replace_complete self _ _ H1); simpl.
    rewrite (insert_or_replace_complete _ _ _ H2); simpl.
    rewrite (insert_or_replace_complete self _ _ H2); simpl.
    rewrite (usage_row_of_limits self (with_usage self _)) by done.
    rewrite insert_insert_eq, lookup_insert_eq. by repeat split.
Qed.

Lemma upsert_idempotent_and_replaces_witness :
  let r1 := Sample.record "2024-03-01" 10 in
  let r2 := Sample.record "2024-03-01" 20 in
  let both := (insert_usage_data (insert_usage_data Sample.fresh [r1]).2 [r2]).2 in
  usage_amount <$> usage both !! ("2024-03-01", Sample.ec2, "t2.micro")%string
  = Some 20.
Proof.
  intros r1 r2 both.
  exact (proj2 (proj2 (proj2 (proj2 (proj2 upsert_idempotent_and_replaces)
           Sample.fresh r1 r2 _ eq_refl eq_refl)))).
Defined.

(** The usage check after the two insertions of the example sums one row
    of 20, not 10 + 20. *)
Example replaced_amount_is_not_summed :
  let r1 := Sample.record "2024-03-01" 10 in
  let r2 := Sample.record "2024-03-01" 20 in
  let both := (insert_usage_data (insert_usage_data Sample.fresh [r1]).2 [r2]).2 in
  ∃ s, check_free_tier_usage both Sample.now None = Ok [s]
       ∧ total_usage (st_group s) == 20.
Proof. eexists. split; [vm_compute; reflexivity | reflexivity]. Qed.

(** C9 (as stated, refuted): a record without a date fails the call with
    the store's integrity error and takes the well-formed records of its
    batch with it, those before it and those after it; a record without an
    amount is not rejected but stored with the amount 0. *)
Lemma missing_field_counterexample :
  let good := Sample.record "2024-03-01" 24 in
  insert_usage_data Sample.fresh [SampleRecords.no_date; good]
  = (Raise IntegrityError, Sample.fresh)
  ∧ insert_usage_data Sample.fresh [good; SampleRecords.no_date]
    = (Raise IntegrityError, Sample.fresh)
  ∧ usage Sample.fresh !! ("2024-03-01", Sample.ec2, "t2.micro")%string = None
  ∧ ∃ conn row,
      insert_usage_data Sample.fresh [SampleRecords.no_amount] = (Ok (), conn)
      ∧ usage conn !! ("2024-03-02", Sample.ec2, "t2.micro")%string = Some row
      ∧ usage_amount row = 0.
Proof.
  intros good. repeat split.
  do 2 eexists. split; [reflexivity |]. split; [vm_compute; reflexivity | reflexivity].
Qed.

(** C9 (amended): a batch with a record that lacks its date, service or
    usage type makes the call fail with the integrity error of the store
    and leaves the stored state as it was before the call, for every record
    of the batch; a batch whose records all have these three fields is
    stored as a whole, each key holding the row of its last record, and a
    record without an amount is stored with the amount 0. *)
Theorem incomplete_records (self : db) (records : list usage_record) :
  ((∃ r, r ∈ records
         ∧ (rec_date r = None ∨ rec_service r = None ∨ rec_usage_type r = None)) →
     insert_usage_data self records = (Raise IntegrityError, self))
  ∧ ((∀ r, r ∈ records → is_Some (record_key r)) →
     ∃ conn', insert_usage_data self records = (Ok (), conn')
       ∧ limits conn' = limits self ∧ alerts conn' = alerts self
       ∧ (∀ k, usage conn' !! k =
               match last_record_for k records with
               | Some r => Some (usage_row_of self r)
               | None => usage self !! k
               end)
       ∧ (∀ r, rec_usage_amount r = None → usage_amount (usage_row_of self r) = 0)).
Proof.
  split.
  - intros (r & Hin & Hr). unfold insert_usage_data.
    rewrite insert_usage_loop_incomplete; [done |].
    exists r. by rewrite record_key_None.
  - intros Hall. unfold insert_usage_data.
    destruct (insert_usage_loop_complete self records Hall)
      as (conn' & -> & Hl & Ha & Hu).
    exists conn'. repeat split; try done.
    intros r Hr. unfold usage_row_of; simpl. by rewrite Hr.
Qed.

Lemma incomplete_records_witness :
  insert_usage_data Sample.fresh [SampleRecords.no_date]
  = (Raise IntegrityError, Sample.fresh)
  ∧ ∃ conn', insert_usage_data Sample.fresh [SampleRecords.no_amount] = (Ok (), conn')
      ∧ usage_amount <$> usage conn' !! ("2024-03-02", Sample.ec2, "t2.micro")%string
        = Some 0.
Proof.
  split.
  - apply (proj1 (incomplete_records Sample.fresh [SampleRecords.no_date])).
    exists SampleRecords.no_date. split; [left | left; reflexivity].
  - destruct (proj2 (incomplete_records Sample.fresh [SampleRecords.no_amount]))
      as (conn' & Hc & _ & _ & Hu & _).
    + intros r Hr. apply list_elem_of_singleton in Hr as ->. by eexists.
    + exists conn'. split; [exact Hc |]. rewrite Hu. reflexivity.
Defined.

End ledger_claims.

(** ** The alert check *)

Section alert_check.
Local Open Scope Q_scope.

Lemma with_alerts_with_alerts self a b :
  with_alerts (with_alerts self a) b = with_alerts self b.
Proof. done. Qed.

Lemma div_by_zero (a l : Q) : l == 0 → a / l * 100 == 0.
Proof. intros ->. unfold Qdiv. change (/ 0) with 0. lra. Qed.

(** What [create_free_tier_alert] does on a status of the usage check whose
    allowance counts as present. *)
Lemma create_free_tier_alert_tracked self now row l :
  g_free_tier_limit row = Some l → ¬ l == 0 →
  create_free_tier_alert self now (g_service row) (g_usage_type row)
    (total_usage row) l
  = (Ok (), with_alerts self
              (alerts self ++ option_list (persisted_alert now (tracked_status row l)))).
Proof.
  intros Hl Hnz. unfold create_free_tier_alert, persisted_alert; simpl.
  rewrite Hl, truediv_nonzero by done.
  rewrite (proj2 (truthy_true l)) by done; simpl.
  destruct (Py.ge _ 90); [done |]. destruct (Py.ge _ 75); [done |].
  simpl. rewrite app_nil_r. by destruct self.
Qed.

Lemma persisted_alert_below now row l :
  g_free_tier_limit row = Some l → total_usage row / l * 100 < 75 →
  persisted_alert now (tracked_status row l) = None.
Proof.
  intros Hl Hp. unfold persisted_alert; simpl. rewrite Hl.
  destruct (negb (Py.truthy l)); [done |].
  rewrite (proj2 (ge_false _ 90)) by lra. by rewrite (proj2 (ge_false _ 75)).
Qed.

(** The loop stores, in the order of the statuses, exactly the rows
    [persisted_alert] names. *)
Lemma check_alerts_loop_stores self now statuses acc :
  Forall (λ s, classify_row (st_group s) = Ok s) statuses →
  ∃ returned,
    check_alerts_loop self now statuses acc
    = (Ok returned,
       with_alerts self (alerts self ++ omap (persisted_alert now) statuses)).
Proof.
  intros Hwf. revert self acc.
  induction Hwf as [|s statuses Hs _ IH]; intros self acc; simpl.
  - exists acc. rewrite app_nil_r. by destruct self.
  - destruct (classify_row_cases (st_group s))
      as [(l & Hl & Hnz & Hc) | [Hf Hc]]; rewrite Hc in Hs; injection Hs as Hs.
    + rewrite (proj2 (truthy_opt_true _)) by eauto.
      set (p := total_usage (st_group s) / l * 100).
      assert (usage_percentage s = Some (Py.round p 2)) as -> by (by rewrite <- Hs).
      rewrite Hl; simpl.
      assert (persisted_alert now s = persisted_alert now (tracked_status (st_group s) l))
        as Hpa by (by rewrite Hs).
      assert (∀ sev,
        _create_alert self now (g_service (st_group s)) (g_usage_type (st_group s))
          sev (Py.round p 2) (total_usage (st_group s)) l
        = (Ok {| a_service := g_service (st_group s);
                 a_usage_type := g_usage_type (st_group s);
                 a_severity := sev;
                 a_usage_percentage := Py.round p 2;
                 a_current_usage := total_usage (st_group s);
                 a_limit := l;
                 a_remaining := Py.max 0 (l - total_usage (st_group s));
                 a_message := alert_message (g_service (st_group s))
                                (g_usage_type (st_group s)) sev (Py.round p 2);
                 a_timestamp := isoformat now;
                 a_month := strftime_Ym now |},
           with_alerts self (alerts self ++ option_list (persisted_alert now s))))
        as Hcreate.
      { intros sev. unfold _create_alert.
        by rewrite (create_free_tier_alert_tracked _ _ _ _ Hl Hnz), Hpa. }
      assert (∀ acc',
        ∃ returned,
          check_alerts_loop
            (with_alerts self (alerts self ++ option_list (persisted_alert now s)))
            now statuses acc'
          = (Ok returned,
             with_alerts self
               (alerts self ++
                match persisted_alert now s with
                | Some a => a :: omap (persisted_alert now) statuses
                | None => omap (persisted_alert now) statuses
                end))) as Hrest.
      { intros acc'. destruct (IH (with_alerts self
          (alerts self ++ option_list (persisted_alert now s))) acc') as [ret ->].
        exists ret. f_equal. rewrite with_alerts_with_alerts. simpl.
        rewrite <- app_assoc. by destruct (persisted_alert now s). }
      destruct (Py.ge (Py.round p 2) 90) eqn:E90.
      { rewrite Hcreate. apply Hrest. }
      destruct (Py.ge (Py.round p 2) 75) eqn:E75.
      { rewrite Hcreate. apply Hrest. }
      apply ge_false in E75.
      assert (p < 75) as Hp.
      { apply Qnot_le_lt. intros Hp. apply (round_ge p 75) in Hp.
        change (inject_Z 75) with 75 in Hp. lra. }
      rewrite Hpa, (persisted_alert_below now (st_group s) l Hl Hp). apply IH.
    + rewrite Hf.
      assert (persisted_alert now s = None) as ->; [| apply IH].
      unfold persisted_alert.
      apply truthy_opt_false in Hf as [-> | (l & -> & Hz)]; [done |].
      by rewrite (proj2 (truthy_false l)).
Qed.

Lemma select_usage_by_group_key conn month grp grp' :
  grp ∈ select_usage_by_group conn month →
  grp' ∈ select_usage_by_group conn month →
  g_service grp = g_service grp' → g_usage_type grp = g_usage_type grp' →
  grp = grp'.
Proof.
  unfold select_usage_by_group. intros Hin Hin' Hs Hu.
  apply list_elem_of_omap in Hin as (g & _ & Hagg).
  apply list_elem_of_omap in Hin' as (g' & _ & Hagg').
  destruct (aggregate_group_member _ _ _ Hagg) as (H1 & H2 & _).
  destruct (aggregate_group_member _ _ _ Hagg') as (H1' & H2' & _).
  assert (g = g') as <-.
  { destruct g, g'; simpl in *. congruence. }
  congruence.
Qed.

Lemma check_free_tier_usage_key self now month statuses s s' :
  check_free_tier_usage self now month = Ok statuses →
  s ∈ statuses → s' ∈ statuses →
  g_service (st_group s) = g_service (st_group s') →
  g_usage_type (st_group s) = g_usage_type (st_group s') →
  s = s'.
Proof.
  unfold check_free_tier_usage. intros Hst Hs Hs' Hsv Hu.
  destruct (classify_rows_member _ _ _ Hst Hs) as (row & Hrow & Hc).
  destruct (classify_rows_member _ _ _ Hst Hs') as (row' & Hrow' & Hc').
  pose proof (classify_row_group _ _ Hc) as Hg.
  pose proof (classify_row_group _ _ Hc') as Hg'.
  rewrite Hg, Hg' in Hsv, Hu.
  assert (row = row') as <- by eauto using select_usage_by_group_key.
  congruence.
Qed.

Lemma check_free_tier_usage_wf self now month statuses :
  check_free_tier_usage self now month = Ok statuses →
  Forall (λ s, classify_row (st_group s) = Ok s) statuses.
Proof.
  intros Hst. apply Forall_forall. intros s Hs.
  by destruct (check_free_tier_usage_member _ _ _ _ _ Hst Hs).
Qed.

End alert_check.

(** ** Invariants of the reachable states *)

Section invariants.
Local Open Scope Q_scope.

Lemma insert_or_ignore_limit_usage conn row :
  usage (insert_or_ignore_limit conn row) = usage conn
  ∧ alerts (insert_or_ignore_limit conn row) = alerts conn.
Proof.
  destruct row as [[[[s u] l] un] de]. unfold insert_or_ignore_limit.
  by destruct (limits conn !! (s, u)).
Qed.

Lemma insert_or_ignore_limit_keeps conn row k l :
  limits conn !! k = Some l → limits (insert_or_ignore_limit conn row) !! k = Some l.
Proof.
  destruct row as [[[[s u] lim] un] de]. unfold insert_or_ignore_limit. intros Hk.
  destruct (limits conn !! (s, u)) eqn:E; [done |]. simpl.
  rewrite lookup_insert_ne; [done | congruence].
Qed.

Lemma insert_or_ignore_limit_present conn s u lim un de :
  limits conn !! (s, u) ≠ None →
  insert_or_ignore_limit conn (s, u, lim, un, de) = conn.
Proof.
  unfold insert_or_ignore_limit. by destruct (limits conn !! (s, u)).
Qed.

(** Seeding a seeded registry changes nothing. *)
Lemma populate_seeded_id conn seeds :
  (∀ s u lim un de, (s, u, lim, un, de) ∈ seeds → is_Some (limits conn !! (s, u))) →
  foldl insert_or_ignore_limit conn seeds = conn.
Proof.
  induction seeds as [|[[[[s u] lim] un] de] seeds IH]; intros Hall; [done |].
  change (foldl insert_or_ignore_limit
            (insert_or_ignore_limit conn (s, u, lim, un, de)) seeds = conn).
  rewrite insert_or_ignore_limit_present.
  - apply IH. intros. eapply Hall. by right.
  - destruct (Hall s u lim un de) as [l ->]; [left | done].
Qed.

Lemma populate_keeps conn seeds k l :
  limits conn !! k = Some l →
  limits (foldl insert_or_ignore_limit conn seeds) !! k = Some l.
Proof.
  revert conn. induction seeds as [|row seeds IH]; intros conn Hk; [done |].
  change (limits (foldl insert_or_ignore_limit
                    (insert_or_ignore_limit conn row) seeds) !! k = Some l).
  by apply IH, insert_or_ignore_limit_keeps.
Qed.

Lemma populate_covers conn seeds s u lim un de :
  (s, u, lim, un, de) ∈ seeds →
  is_Some (limits (foldl insert_or_ignore_limit conn seeds) !! (s, u)).
Proof.
  revert conn. induction seeds as [|row seeds IH]; intros conn Hin.
  - by apply elem_of_nil in Hin.
  - change (is_Some (limits (foldl insert_or_ignore_limit
                               (insert_or_ignore_limit conn row) seeds) !! (s, u))).
    apply elem_of_cons in Hin as [<- | Hin]; [| by apply IH].
    destruct (limits conn !! (s, u)) as [l|] eqn:E.
    + exists l. by apply populate_keeps, insert_or_ignore_limit_keeps.
    + eexists. apply populate_keeps. unfold insert_or_ignore_limit. rewrite E.
      simpl. apply lookup_insert_eq.
Qed.

Lemma populate_positive conn seeds :
  Forall (λ row, 0 < row.1.1.2) seeds →
  limits_positive conn → limits_positive (foldl insert_or_ignore_limit conn seeds).
Proof.
  intros Hseeds. revert conn.
  induction Hseeds as [|[[[[s u] lim] un] de] seeds Hpos _ IH]; intros conn Hc;
    [done |].
  change (limits_positive (foldl insert_or_ignore_limit
            (insert_or_ignore_limit conn (s, u, lim, un, de)) seeds)).
  apply IH. unfold insert_or_ignore_limit.
  destruct (limits conn !! (s, u)) eqn:E; [done |].
  intros k l. simpl. destruct (decide ((s, u) = k)) as [<- | Hne].
  - rewrite lookup_insert_eq. by intros [= <-].
  - rewrite lookup_insert_ne by done. apply Hc.
Qed.

Lemma free_tier_limits_positive : Forall (λ row, 0 < row.1.1.2) free_tier_limits.
Proof. repeat constructor. Qed.

Lemma populate_usage conn seeds :
  usage (foldl insert_or_ignore_limit conn seeds) = usage conn
  ∧ alerts (foldl insert_or_ignore_limit conn seeds) = alerts conn.
Proof.
  revert conn. induction seeds as [|row seeds IH]; intros conn; [done |].
  change (foldl insert_or_ignore_limit conn (row :: seeds))
    with (foldl insert_or_ignore_limit (insert_or_ignore_limit conn row) seeds).
  destruct (IH (insert_or_ignore_limit conn row)) as [-> ->].
  apply insert_or_ignore_limit_usage.
Qed.

(** Seeding is idempotent: a second initialisation neither overwrites nor
    adds a limit. *)
Lemma initialize_tables_idempotent self :
  initialize_tables (initialize_tables self) = initialize_tables self.
Proof.
  unfold initialize_tables, _populate_free_tier_limits.
  apply populate_seeded_id. intros. by eapply populate_covers.
Qed.

Lemma insert_usage_data_limits self records :
  limits (insert_usage_data self records).2 = limits self
  ∧ alerts (insert_usage_data self records).2 = alerts self.
Proof.
  unfold insert_usage_data.
  destruct (records_complete_or_not records) as [Hall | Hex].
  - by destruct (insert_usage_loop_complete self records Hall) as (c & -> & ? & ? & _).
  - by rewrite insert_usage_loop_incomplete.
Qed.

Lemma insert_usage_data_consistent self records :
  consistent self → consistent (insert_usage_data self records).2.
Proof.
  intros Hc. unfold insert_usage_data.
  destruct (records_complete_or_not records) as [Hall | Hex].
  - destruct (insert_usage_loop_complete self records Hall) as (c & -> & Hl & _ & Hu).
    simpl. intros d s u row. rewrite Hu, Hl.
    destruct (last_record_for (d, s, u) records) as [r|] eqn:Hr; [| apply Hc].
    intros [= <-].
    unfold last_record_for in Hr. apply last_Some_elem_of, list_elem_of_filter in Hr as [Hk _].
    unfold record_key in Hk. unfold usage_row_of, select_limit; simpl.
    by destruct (rec_date r), (rec_service r), (rec_usage_type r); simplify_eq.
  - by rewrite insert_usage_loop_incomplete.
Qed.

Lemma check_free_tier_alerts_tables self now usage_data :
  usage (check_free_tier_alerts self now usage_data).2 = usage self
  ∧ limits (check_free_tier_alerts self now usage_data).2 = limits self.
Proof.
  unfold check_free_tier_alerts.
  destruct (check_free_tier_usage_total self now (Some (strftime_Ym now)))
    as [statuses Hst]. rewrite Hst.
  by destruct (check_alerts_loop_stores self now statuses []
                 (check_free_tier_usage_wf _ _ _ _ Hst)) as [returned ->].
Qed.

(** In every reachable state the registry is seeded, its allowances are
    positive, and the usage rows carry the allowances of the registry. *)
Lemma reachable_invariant conn :
  reachable conn → seeded conn ∧ limits_positive conn ∧ consistent conn.
Proof.
  induction 1 as [| conn _ (Hs & Hp & Hc) | conn records _ (Hs & Hp & Hc)
                  | conn now usage_data _ (Hs & Hp & Hc)].
  - unfold initialize_tables, _populate_free_tier_limits. split; [| split].
    + intros s u lim un de Hin. by eapply populate_covers.
    + apply populate_positive; [apply free_tier_limits_positive | done].
    + intros d s u row. by rewrite (proj1 (populate_usage _ _)).
  - unfold initialize_tables, _populate_free_tier_limits.
    by rewrite populate_seeded_id.
  - destruct (insert_usage_data_limits conn records) as [Hl _].
    split; [| split].
    + intros s u lim un de Hin. rewrite Hl. by eapply Hs.
    + intros k l. rewrite Hl. apply Hp.
    + by apply insert_usage_data_consistent.
  - destruct (check_free_tier_alerts_tables conn now usage_data) as [Hu Hl].
    split; [| split].
    + intros s u lim un de Hin. rewrite Hl. by eapply Hs.
    + intros k l. rewrite Hl. apply Hp.
    + intros d s u row. rewrite Hu, Hl. apply Hc.
Qed.

(** A stored allowance of a reachable state is positive. *)
Lemma reachable_allowance_positive conn d s u row l :
  reachable conn → usage conn !! (d, s, u) = Some row →
  free_tier_limit row = Some l → 0 < l.
Proof.
  intros (_ & Hp & Hc)%reachable_invariant Hrow Hl.
  rewrite (Hc _ _ _ _ Hrow) in Hl.
  destruct (limits conn !! (s, u)) as [lr|] eqn:E; [| done].
  injection Hl as <-. by eapply Hp.
Qed.

Lemma select_month_to_date_member conn service usage_type month row :
  select_month_to_date conn service usage_type month = Some row →
  ∃ d r, usage conn !! (d, service, usage_type) = Some r
         ∧ Sql.strftime_Ym d = Some month
         ∧ m_free_tier_limit row = free_tier_limit r.
Proof.
  unfold select_month_to_date.
  destruct (filter _ (map_to_list (usage conn))) as [|[[[d s] u] r] members] eqn:E;
    [done |].
  intros [= <-]; simpl.
  assert (((d, s, u), r) ∈ filter
            (λ kr : usage_key * usage_row,
               kr.1.1.2 = service ∧ kr.1.2 = usage_type
               ∧ Sql.strftime_Ym kr.1.1.1 = Some month)
            (map_to_list (usage conn))) as Hin by (rewrite E; left).
  apply list_elem_of_filter in Hin as [(Hs & Hu & Hm) Hin]. simpl in *. subst.
  apply elem_of_map_to_list in Hin. eauto.
Qed.

(** In a reachable state the allowance the queries read does not depend on
    the row of the group it is read from: it is the allowance of the
    registry, and it is positive. *)
Lemma reachable_group_allowance conn month grp :
  reachable conn → grp ∈ select_usage_by_group conn month →
  g_free_tier_limit grp
  = monthly_limit <$> limits conn !! (g_service grp, g_usage_type grp)
  ∧ ∀ l, g_free_tier_limit grp = Some l → 0 < l.
Proof.
  intros Hr Hin.
  destruct (select_usage_by_group_member _ _ _ Hin) as (d & row & Hrow & _ & Hl).
  pose proof (reachable_invariant _ Hr) as (_ & _ & Hc).
  split.
  - rewrite Hl. by eapply Hc.
  - intros l Hgl. rewrite Hl in Hgl. by eapply reachable_allowance_positive.
Qed.

Lemma reachable_month_to_date_allowance conn service usage_type month row :
  reachable conn →
  select_month_to_date conn service usage_type month = Some row →
  m_free_tier_limit row = monthly_limit <$> limits conn !! (service, usage_type)
  ∧ ∀ l, m_free_tier_limit row = Some l → 0 < l.
Proof.
  intros Hr Hsel.
  destruct (select_month_to_date_member _ _ _ _ _ Hsel) as (d & r & Hrow & _ & Hl).
  pose proof (reachable_invariant _ Hr) as (_ & _ & Hc).
  split.
  - rewrite Hl. by eapply Hc.
  - intros l Hgl. rewrite Hl in Hgl. by eapply reachable_allowance_positive.
Qed.

End invariants.

(** ** Claims that rest on the registry *)

Section registry_claims.
Local Open Scope Q_scope.

(** C1: for every aggregated row with an allowance present, the level follows
    the percentage [p = total_usage / allowance * 100], thresholds tried from
    high to low with inclusive lower ends: critical from 90, warning from 75,
    info from 50, ok below; so 50 and 74.999 give info, 75 and 89.999 give
    warning, 90 gives critical.  This holds for every row whose allowance is
    not zero, and the allowances of the rows the program stores are never
    zero: in every reachable state it holds for every row of the usage check
    that has an allowance. *)
Theorem severity_thresholds :
  let thresholds (p : Q) (level : string) :=
    (90 <= p → level = "critical"%string)
    ∧ (75 <= p → p < 90 → level = "warning"%string)
    ∧ (50 <= p → p < 75 → level = "info"%string)
    ∧ (p < 50 → level = "ok"%string)
    ∧ (p == 50 → level = "info"%string)
    ∧ (p == 74999 # 1000 → level = "info"%string)
    ∧ (p == 75 → level = "warning"%string)
    ∧ (p == 89999 # 1000 → level = "warning"%string)
    ∧ (p == 90 → level = "critical"%string) in
  (∀ (row : usage_group) (l : Q),
     g_free_tier_limit row = Some l → ¬ l == 0 →
     ∃ s, classify_row row = Ok s
          ∧ thresholds (total_usage row / l * 100) (alert_level s))
  ∧ (∀ (conn : db) (now : datetime) (month : option string)
       (statuses : list usage_status) (s : usage_status) (l : Q),
       reachable conn →
       check_free_tier_usage conn now month = Ok statuses → s ∈ statuses →
       g_free_tier_limit (st_group s) = Some l →
       thresholds (total_usage (st_group s) / l * 100) (alert_level s)).
Proof.
  intros thresholds.
  assert (∀ row l, thresholds (total_usage row / l * 100)
                     (alert_level (tracked_status row l))) as Hth.
  { intros row l. destruct (tracked_status_level row l) as (Hc & Hw & Hi & Ho).
    unfold thresholds.
    repeat split; try assumption; intros Hp;
      (apply Hc || apply Hw || apply Hi); lra. }
  split.
  - intros row l Hl Hnz. exists (tracked_status row l).
    split; [by apply classify_row_tracked | apply Hth].
  - intros conn now month statuses s l Hr Hst Hs Hl.
    destruct (check_free_tier_usage_member _ _ _ _ _ Hst Hs)
      as (Hc & d & row & Hrow & Hlim).
    assert (0 < l) as Hpos.
    { eapply reachable_allowance_positive; [done.. |]. by rewrite <- Hlim. }
    rewrite (classify_row_tracked _ l Hl) in Hc by lra.
    injection Hc as <-. apply Hth.
Qed.

Lemma severity_thresholds_witness :
  (∃ s, classify_row (Sample.group 600 (Some 750)) = Ok s
        ∧ alert_level s = "warning"%string)
  ∧ ∀ statuses s l,
      check_free_tier_usage (Sample.ten_days_of 60) Sample.now None = Ok statuses →
      s ∈ statuses → g_free_tier_limit (st_group s) = Some l →
      90 <= total_usage (st_group s) / l * 100 → alert_level s = "critical"%string.
Proof.
  split.
  - destruct (proj1 severity_thresholds (Sample.group 600 (Some 750)) 750)
      as (s & Hs & _ & Hw & _); [reflexivity | discriminate |].
    exists s. split; [exact Hs |]. apply Hw; reflexivity || discriminate.
  - intros statuses s l Hst Hs Hl.
    exact (proj1 (proj2 severity_thresholds (Sample.ten_days_of 60) Sample.now None
                    statuses s l (reachable_insert _ _ reachable_init) Hst Hs Hl)).
Defined.

(** C3 (as stated, refuted): without an allowance the row reports the
    number 0 as its percentage, not [None]. *)
Lemma untracked_percentage_counterexample :
  ∃ s, classify_row (Sample.group 10 None) = Ok s
       ∧ usage_percentage s = Some 0
       ∧ usage_percentage s ≠ None.
Proof. eexists. repeat split; discriminate. Qed.

(** C3 (amended): a record whose (service, usage_type) has no row in
    [free_tier_limits] is stored without an allowance; every aggregated row
    without an allowance is classified, without an exception, with
    percentage 0 (a number), remaining ['unlimited'] and level ['unknown'];
    and so is, in every reachable state, every row of the usage check whose
    (service, usage_type) has no row in [free_tier_limits]. *)
Theorem untracked_classification :
  (∀ (conn : db) (record : usage_record),
     select_limit conn (rec_service record) (rec_usage_type record) = None →
     free_tier_limit (usage_row_of conn record) = None)
  ∧ (∀ row : usage_group,
       g_free_tier_limit row = None →
       ∃ s, classify_row row = Ok s
            ∧ usage_percentage s = Some 0
            ∧ remaining s = RemainingText "unlimited"
            ∧ alert_level s = "unknown"%string)
  ∧ (∀ self now month, ∃ statuses,
       check_free_tier_usage self now month = Ok statuses)
  ∧ (∀ self now month statuses s,
       reachable self →
       check_free_tier_usage self now month = Ok statuses → s ∈ statuses →
       limits self !! (g_service (st_group s), g_usage_type (st_group s)) = None →
       usage_percentage s = Some 0
       ∧ remaining s = RemainingText "unlimited"
       ∧ alert_level s = "unknown"%string).
Proof.
  split; [| split; [| split]].
  - intros conn record H. unfold usage_row_of. by rewrite H.
  - intros row H. exists (untracked_status row).
    split; [| done]. apply classify_row_untracked. by rewrite H.
  - apply check_free_tier_usage_total.
  - intros self now month statuses s Hr Hst Hs Hnone.
    destruct (check_free_tier_usage_member _ _ _ _ _ Hst Hs)
      as (Hc & d & row & Hrow & Hlim).
    pose proof (reachable_invariant _ Hr) as (_ & _ & Hcons).
    rewrite (Hcons _ _ _ _ Hrow), Hnone in Hlim.
    rewrite classify_row_untracked in Hc by (by rewrite Hlim).
    by injection Hc as <-.
Qed.

Lemma untracked_classification_witness :
  ∃ s, classify_row (Sample.group 10 None) = Ok s
       ∧ usage_percentage s = Some 0
       ∧ remaining s = RemainingText "unlimited"
       ∧ alert_level s = "unknown"%string.
Proof.
  exact (proj1 (proj2 untracked_classification) (Sample.group 10 None) eq_refl).
Defined.

(** The level is decided on the unrounded percentage: 674.97 of 750 hours
    are 89.996 per cent, reported as 90.0 with the level warning. *)
Example level_of_unrounded_percentage :
  ∃ s, classify_row (Sample.group (67497 # 100) (Some 750)) = Ok s
       ∧ usage_percentage s = Some (9000 # 100)
       ∧ alert_level s = "warning"%string.
Proof. eexists. split; [reflexivity |]. split; reflexivity. Qed.

End registry_claims.

(** ** Claims on the alert check *)

Section alert_claims.
Local Open Scope Q_scope.

Lemma persisted_alert_iff now s :
  is_Some (persisted_alert now s) ↔
  ∃ l, g_free_tier_limit (st_group s) = Some l
       ∧ 75 <= total_usage (st_group s) / l * 100.
Proof.
  unfold persisted_alert.
  destruct (g_free_tier_limit (st_group s)) as [l|]; simpl.
  - set (p := total_usage (st_group s) / l * 100).
    destruct (Py.truthy l) eqn:Ht; simpl.
    + destruct (Py.ge p 90) eqn:E90; [apply ge_true in E90 | apply ge_false in E90].
      { split; [intros _; exists l; split; [done | fold p; lra] | by eexists]. }
      destruct (Py.ge p 75) eqn:E75; [apply ge_true in E75 | apply ge_false in E75].
      { split; [intros _; exists l; split; [done | by fold p] | by eexists]. }
      split; [by intros [? ?] |]. intros (l' & [= <-] & Hp). fold p in Hp. lra.
    + apply truthy_false in Ht.
      split; [by intros [? ?] |]. intros (l' & [= <-] & Hp).
      rewrite (div_by_zero _ _ Ht) in Hp. lra.
  - split; [by intros [? ?] | by intros (? & ? & _)].
Qed.

Lemma persisted_alert_fields now s a :
  persisted_alert now s = Some a →
  ∃ l, g_free_tier_limit (st_group s) = Some l ∧ ¬ l == 0
    ∧ al_service a = g_service (st_group s)
    ∧ al_usage_type a = g_usage_type (st_group s)
    ∧ al_current_usage a = total_usage (st_group s)
    ∧ al_limit_value a = l
    ∧ al_date a = strftime_Ymd now
    ∧ al_acknowledged a = false
    ∧ let p := total_usage (st_group s) / l * 100 in
      al_usage_percentage a = p
      ∧ 75 <= p
      ∧ (90 <= p →
         al_alert_level a = "critical"%string
         ∧ al_message a
           = ("CRITICAL: " +:+ al_service a +:+ " " +:+ al_usage_type a
              +:+ " usage at " +:+ Py.format_1f p +:+ "% of free tier limit")%string)
      ∧ (p < 90 →
         al_alert_level a = "warning"%string
         ∧ al_message a
           = ("WARNING: " +:+ al_service a +:+ " " +:+ al_usage_type a
              +:+ " usage at " +:+ Py.format_1f p +:+ "% of free tier limit")%string).
Proof.
  unfold persisted_alert.
  destruct (g_free_tier_limit (st_group s)) as [l|]; simpl; [| done].
  set (p := total_usage (st_group s) / l * 100).
  destruct (Py.truthy l) eqn:Ht; simpl; [| done].
  apply truthy_true in Ht.
  destruct (Py.ge p 90) eqn:E90; [apply ge_true in E90 | apply ge_false in E90].
  { intros [= <-]. exists l; simpl. fold p.
    repeat split; try done; try lra; intros; lra. }
  destruct (Py.ge p 75) eqn:E75; [apply ge_true in E75 | apply ge_false in E75].
  { intros [= <-]. exists l; simpl. fold p.
    repeat split; try done; try lra; intros; lra. }
  done.
Qed.

(** What a run of the alert check stores, stated on the quotient
    [total_usage / allowance * 100] that [create_free_tier_alert] computes
    again, not on the percentage the standing reports (that quotient rounded
    to two places, which is what the loop tests).  The run appends alert
    rows to the alert table, at most one for each standing of the month and
    in their order, and changes nothing else.  A standing gets a row if and
    only if its allowance is present and the quotient is at least 75 (a zero
    allowance gets none); the row has level critical from 90 on and warning
    from 75 to below 90, and its message names the service, the usage type
    and the quotient with one decimal place. *)
Theorem alert_persisted_iff (self : db) (now : datetime)
    (usage_data : list usage_record) (statuses : list usage_status) :
  check_free_tier_usage self now (Some (strftime_Ym now)) = Ok statuses →
  ∃ returned new,
    check_free_tier_alerts self now usage_data
    = (Ok returned, with_alerts self (alerts self ++ new))
    ∧ new = omap (persisted_alert now) statuses
    ∧ (∀ s, s ∈ statuses →
         (∃ a, a ∈ new ∧ al_service a = g_service (st_group s)
               ∧ al_usage_type a = g_usage_type (st_group s))
         ↔ (∃ l, g_free_tier_limit (st_group s) = Some l
                 ∧ 75 <= total_usage (st_group s) / l * 100))
    ∧ (∀ a, a ∈ new →
         ∃ s l, s ∈ statuses
           ∧ g_free_tier_limit (st_group s) = Some l ∧ ¬ l == 0
           ∧ al_service a = g_service (st_group s)
           ∧ al_usage_type a = g_usage_type (st_group s)
           ∧ al_current_usage a = total_usage (st_group s)
           ∧ al_limit_value a = l
           ∧ let p := total_usage (st_group s) / l * 100 in
             al_usage_percentage a = p
             ∧ 75 <= p
             ∧ (90 <= p →
                al_alert_level a = "critical"%string
                ∧ al_message a
                  = ("CRITICAL: " +:+ al_service a +:+ " " +:+ al_usage_type a
                     +:+ " usage at " +:+ Py.format_1f p
                     +:+ "% of free tier limit")%string)
             ∧ (p < 90 →
                al_alert_level a = "warning"%string
                ∧ al_message a
                  = ("WARNING: " +:+ al_service a +:+ " " +:+ al_usage_type a
                     +:+ " usage at " +:+ Py.format_1f p
                     +:+ "% of free tier limit")%string)).
Proof.
  intros Hst. unfold check_free_tier_alerts. rewrite Hst.
  destruct (check_alerts_loop_stores self now statuses []
              (check_free_tier_usage_wf _ _ _ _ Hst)) as [returned ->].
  exists returned, (omap (persisted_alert now) statuses).
  split; [done |]. split; [done |]. split.
  - intros s Hs. rewrite <- persisted_alert_iff. split.
    + intros (a & Ha & Hsv & Hu).
      apply list_elem_of_omap in Ha as (s' & Hs' & Ha).
      destruct (persisted_alert_fields _ _ _ Ha) as (l & _ & _ & Hsv' & Hu' & _).
      assert (s' = s) as <-; [| by eexists].
      eapply check_free_tier_usage_key; eauto; congruence.
    + intros [a Ha].
      destruct (persisted_alert_fields _ _ _ Ha) as (l & _ & _ & Hsv' & Hu' & _).
      exists a. split; [| done]. apply list_elem_of_omap. eauto.
  - intros a Ha.
    apply list_elem_of_omap in Ha as (s & Hs & Ha).
    destruct (persisted_alert_fields _ _ _ Ha)
      as (l & Hl & Hnz & Hsv & Hu & Hcu & Hlv & _ & _ & Hp).
    exists s, l. by repeat (split; [done |]).
Qed.

Lemma alert_persisted_iff_witness :
  ∃ returned new,
    check_free_tier_alerts (Sample.ten_days_of 70) Sample.now []
    = (Ok returned,
       with_alerts (Sample.ten_days_of 70) (alerts (Sample.ten_days_of 70) ++ new)).
Proof.
  assert { statuses |
           check_free_tier_usage (Sample.ten_days_of 70) Sample.now
             (Some (strftime_Ym Sample.now)) = Ok statuses } as [statuses Hst].
  { eexists. vm_compute. reflexivity. }
  destruct (alert_persisted_iff (Sample.ten_days_of 70) Sample.now [] statuses Hst)
    as (returned & new & Hc & _).
  exists returned, new. exact Hc.
Defined.

(** The alert row of the sample month: 700 of 750 hours. *)
Example sample_alert_row :
  let after := (check_free_tier_alerts (Sample.ten_days_of 70) Sample.now []).2 in
  al_alert_level <$> alerts after = ["critical"%string]
  ∧ al_message <$> alerts after
    = ["CRITICAL: Amazon Elastic Compute Cloud - Compute t2.micro usage at 93.3% of free tier limit"%string].
Proof. split; vm_compute; reflexivity. Qed.

(** A percentage just below 75 that rounds to 75.00 is returned to the
    caller as a warning but is not stored: 562.47 of 750 hours are 74.996
    per cent. *)
Example rounded_up_alert_not_stored :
  let run := check_free_tier_alerts (Sample.ten_days_of (56247 # 1000)) Sample.now [] in
  alerts run.2 = []
  ∧ match run.1 with
    | Ok returned =>
        a_severity <$> returned = ["warning"%string]
        ∧ a_usage_percentage <$> returned = [7500 # 100]
    | Raise _ => False
    end.
Proof. split; vm_compute; [reflexivity | split; reflexivity]. Qed.

(** C5 (defect of the code): the alert check tests the percentage the
    standing reports, and [create_free_tier_alert] decides once more on the
    quotient it computes itself; the two disagree where rounding to two
    places crosses a threshold.  At 562.47 of 750 hours (74.996 per cent)
    the standing has its allowance and reports 75.00, a warning is returned
    to the caller, and no alert row is persisted.  At 674.97 of 750 hours
    (89.996 per cent) the standing reports 90.00, the returned alert is
    critical, and the persisted row is a warning whose message reads
    90.0 per cent. *)
Theorem alert_lost_at_reported_threshold :
  let at_75 := Sample.ten_days_of (56247 # 1000) in
  let at_90 := Sample.ten_days_of (67497 # 1000) in
  let reported (self : db) :=
    match check_free_tier_usage self Sample.now (Some "2024-03"%string) with
    | Ok statuses =>
        (λ s, (g_free_tier_limit (st_group s), usage_percentage s)) <$> statuses
    | Raise _ => []
    end in
  let returned (self : db) :=
    match (check_free_tier_alerts self Sample.now []).1 with
    | Ok returned => a_severity <$> returned
    | Raise _ => []
    end in
  let persisted (self : db) :=
    (λ a, (al_alert_level a, al_message a))
    <$> alerts (check_free_tier_alerts self Sample.now []).2 in
  reported at_75 = [(Some 750, Some (7500 # 100))]
  ∧ returned at_75 = ["warning"%string]
  ∧ persisted at_75 = []
  ∧ reported at_90 = [(Some 750, Some (9000 # 100))]
  ∧ returned at_90 = ["critical"%string]
  ∧ persisted at_90
    = [("warning",
        "WARNING: Amazon Elastic Compute Cloud - Compute t2.micro usage at 90.0% of free tier limit")%string].
Proof. repeat split; vm_compute; reflexivity. Qed.

End alert_claims.

(** ** The breach predictor *)

Section breach_predictor.
Local Open Scope Q_scope.

Lemma valid_day_nonzero (now : datetime) :
  valid_datetime now → 0 < inject_Z (day now).
Proof.
  intros (_ & _ & Hd & _). change 0 with (inject_Z 0). rewrite <- Zlt_Qlt. lia.
Qed.

(** The prediction the method returns when it returns one. *)
Lemma predict_tracked self now service usage_type row l :
  valid_datetime now →
  select_month_to_date self service usage_type (strftime_Ym now) = Some row →
  m_free_tier_limit row = Some l → ¬ l == 0 →
  let mtd := month_to_date_usage row in
  let avg := mtd / inject_Z (day now) in
  let projected := avg * 31 in
  predict_free_tier_breach self now service usage_type
  = if Py.gt projected l then
      q ← Py.truediv (l - mtd) avg;
      let days_to_breach := Z.max 1 (Py.int q) in
      breach_date ← replace_day now (Z.min 31 (day now + days_to_breach));
      Ok (Some {| p_service := service;
                  p_usage_type := usage_type;
                  p_current_usage := mtd;
                  p_projected_usage := projected;
                  p_limit := l;
                  p_unit := m_usage_unit row;
                  p_daily_average := avg;
                  p_days_to_breach := days_to_breach;
                  p_projected_breach_date := strftime_Ymd breach_date;
                  p_confidence := if (7 <=? day now)%Z then "medium" else "low" |})
    else Ok None.
Proof.
  intros Hnow Hrow Hl Hnz mtd avg projected.
  unfold predict_free_tier_breach. rewrite Hrow.
  rewrite (proj2 (truthy_opt_true _)) by eauto; simpl.
  rewrite truediv_nonzero by (pose proof (valid_day_nonzero now Hnow); lra).
  simpl. by rewrite Hl.
Qed.

Lemma predict_untracked self now service usage_type row :
  select_month_to_date self service usage_type (strftime_Ym now) = Some row →
  Py.truthy_opt (m_free_tier_limit row) = false →
  predict_free_tier_breach self now service usage_type = Ok None.
Proof.
  intros Hrow Hf. unfold predict_free_tier_breach. by rewrite Hrow, Hf.
Qed.

Lemma predict_no_data self now service usage_type :
  select_month_to_date self service usage_type (strftime_Ym now) = None →
  predict_free_tier_breach self now service usage_type = Ok None.
Proof. intros Hrow. unfold predict_free_tier_breach. by rewrite Hrow. Qed.

(** C6 (defect of the code): ten days at 10 hours project to 310 of 750
    hours; the allowance and the usage data are there, and the predictor
    returns [None], the answer its docstring keeps for insufficient data,
    where the claim asks for a prediction with an empty [days_to_breach]. *)
Lemma on_track_counterexample :
  (monthly_limit <$> limits (Sample.ten_days_of 10) !! (Sample.ec2, "t2.micro"%string))
  = Some 750
  ∧ (∃ row, select_month_to_date (Sample.ten_days_of 10) Sample.ec2 "t2.micro" "2024-03"
            = Some row
            ∧ month_to_date_usage row == 100
            ∧ m_free_tier_limit row = Some 750
            ∧ month_to_date_usage row / 10 * 31 <= 750)
  ∧ predict_free_tier_breach (Sample.ten_days_of 10) Sample.now Sample.ec2 "t2.micro"
    = Ok None.
Proof.
  split; [vm_compute; reflexivity |]. split; [| vm_compute; reflexivity].
  eexists. split; [vm_compute; reflexivity |]. repeat split; discriminate.
Qed.

(** The same at every input: with an allowance and month-to-date usage,
    when the projected usage does not exceed the allowance the predictor
    returns [None], the result it also returns without usage data, so that
    a caller cannot tell the two apart.  In a reachable state the allowance
    is the one [free_tier_limits] holds for the service and usage type. *)
Theorem on_track_is_absent (self : db) (now : datetime)
    (service usage_type : string) (row : month_to_date_row) :
  valid_datetime now →
  select_month_to_date self service usage_type (strftime_Ym now) = Some row →
  (∀ l, m_free_tier_limit row = Some l → ¬ l == 0 →
        month_to_date_usage row / inject_Z (day now) * 31 <= l →
        predict_free_tier_breach self now service usage_type = Ok None)
  ∧ (∀ quota, reachable self →
        limits self !! (service, usage_type) = Some quota →
        month_to_date_usage row / inject_Z (day now) * 31 <= monthly_limit quota →
        predict_free_tier_breach self now service usage_type = Ok None)
  ∧ (∀ self', select_month_to_date self' service usage_type (strftime_Ym now) = None →
       predict_free_tier_breach self' now service usage_type = Ok None).
Proof.
  intros Hnow Hrow.
  assert (∀ l, m_free_tier_limit row = Some l → ¬ l == 0 →
               month_to_date_usage row / inject_Z (day now) * 31 <= l →
               predict_free_tier_breach self now service usage_type = Ok None) as Hon.
  { intros l Hl Hnz Hp. rewrite (predict_tracked _ _ _ _ _ _ Hnow Hrow Hl Hnz).
    by rewrite (proj2 (gt_false _ _)). }
  split; [exact Hon |]. split.
  - intros quota Hr Hq Hp.
    destruct (reachable_month_to_date_allowance _ _ _ _ _ Hr Hrow) as [Hl Hpos].
    rewrite Hq in Hl. simpl in Hl.
    apply (Hon _ Hl); [| done]. specialize (Hpos _ Hl). lra.
  - intros self'. apply predict_no_data.
Qed.

Lemma sample_now_valid : valid_datetime Sample.now.
Proof. vm_compute. intuition discriminate. Defined.

Lemma on_track_is_absent_witness :
  predict_free_tier_breach (Sample.ten_days_of 10) Sample.now Sample.ec2 "t2.micro"
  = Ok None.
Proof.
  assert { row | select_month_to_date (Sample.ten_days_of 10) Sample.ec2 "t2.micro"
                   (strftime_Ym Sample.now) = Some row
                 ∧ m_free_tier_limit row = Some 750
                 ∧ month_to_date_usage row / inject_Z (day Sample.now) * 31 <= 750 }
    as (row & Hrow & Hl & Hp).
  { eexists. split; [vm_compute; reflexivity |]. split; [reflexivity | discriminate]. }
  apply (proj1 (on_track_is_absent (Sample.ten_days_of 10) Sample.now Sample.ec2
                  "t2.micro" row sample_now_valid Hrow) 750 Hl);
    [discriminate | exact Hp].
Defined.

End breach_predictor.

Section breach_claims.
Local Open Scope Q_scope.

Lemma int_nonneg (q : Q) : 0 <= q → Py.int q = Qfloor q.
Proof.
  destruct q as [n d]. unfold Qle, Py.int, Qfloor; simpl. intros Hn.
  apply Z.quot_div_nonneg; lia.
Qed.




(** In a month of fewer than 31 days the projected day may not exist: on 20
    February 2023, 500 hours project the breach 10 days ahead. *)
Example breach_date_out_of_month :
  predict_free_tier_breach SampleFebruary.ledger SampleFebruary.now Sample.ec2 "t2.micro"
  = Raise ValueError.
Proof. vm_compute. reflexivity. Qed.

(** C8 (as stated, refuted): alert creation divides by the limit it is
    given without a test; a zero limit raises [ZeroDivisionError]. *)
Lemma zero_divisor_counterexample :
  create_free_tier_alert Sample.fresh Sample.now Sample.ec2 "t2.micro" 10 0
  = (Raise ZeroDivisionError, Sample.fresh).
Proof. reflexivity. Qed.

(** C8 (amended): in the usage check, the alert check and the breach
    predictor a stored allowance that is zero or absent counts as no
    allowance (status unknown, no alert, no prediction) and is never
    divided by: the usage check and the alert check complete without an
    exception whatever the stored allowances are; the predictor returns an
    absent result for a zero or absent allowance, divides the month-to-date
    usage by the day of the month, which is at least 1, and raises no
    [ZeroDivisionError] when the allowance is not negative. *)
Theorem divisions_guarded (self : db) (now : datetime)
    (service usage_type : string) :
  valid_datetime now →
  (∀ month, ∃ statuses, check_free_tier_usage self now month = Ok statuses)
  ∧ (∀ usage_data, ∃ returned self',
       check_free_tier_alerts self now usage_data = (Ok returned, self'))
  ∧ (∀ row, select_month_to_date self service usage_type (strftime_Ym now) = Some row →
       (m_free_tier_limit row = None ∨ ∃ l, m_free_tier_limit row = Some l ∧ l == 0) →
       predict_free_tier_breach self now service usage_type = Ok None)
  ∧ (∀ mtd : Q, Py.truediv mtd (inject_Z (day now)) = Ok (mtd / inject_Z (day now)))
  ∧ ((∀ row l, select_month_to_date self service usage_type (strftime_Ym now) = Some row →
        m_free_tier_limit row = Some l → 0 <= l) →
     predict_free_tier_breach self now service usage_type ≠ Raise ZeroDivisionError)
  ∧ (reachable self →
     predict_free_tier_breach self now service usage_type ≠ Raise ZeroDivisionError).
Proof.
  intros Hnow. pose proof (valid_day_nonzero now Hnow) as Hday.
  assert ((∀ row l,
             select_month_to_date self service usage_type (strftime_Ym now) = Some row →
             m_free_tier_limit row = Some l → 0 <= l) →
          predict_free_tier_breach self now service usage_type
          ≠ Raise ZeroDivisionError) as Hpredict; [| repeat split].
  - intros Hnn.
    destruct (select_month_to_date self service usage_type (strftime_Ym now))
      as [row|] eqn:Hrow; [| by rewrite predict_no_data].
    destruct (Py.truthy_opt (m_free_tier_limit row)) eqn:Ht;
      [| by rewrite (predict_untracked _ _ _ _ _ Hrow Ht)].
    apply truthy_opt_true in Ht as (l & Hl & Hnz).
    pose proof (Hnn row l eq_refl Hl) as Hl0.
    rewrite (predict_tracked _ _ _ _ _ _ Hnow Hrow Hl Hnz).
    destruct (Py.gt _ l) eqn:Hgt; [| done].
    apply gt_true in Hgt. rewrite truediv_nonzero by lra. simpl.
    unfold replace_day. by destruct (_ && _).
  - intros; apply check_free_tier_usage_total.
  - intros usage_data. unfold check_free_tier_alerts.
    destruct (check_free_tier_usage_total self now (Some (strftime_Ym now)))
      as [statuses Hst]. rewrite Hst.
    destruct (check_alerts_loop_stores self now statuses []
                (check_free_tier_usage_wf _ _ _ _ Hst)) as [returned ->].
    by do 2 eexists.
  - intros row Hrow Hz. apply (predict_untracked _ _ _ _ _ Hrow).
    by apply truthy_opt_false.
  - intros mtd. apply truediv_nonzero. lra.
  - exact Hpredict.
  - intros Hr. apply Hpredict. intros row l Hrow Hl.
    destruct (reachable_month_to_date_allowance _ _ _ _ _ Hr Hrow) as [_ Hpos].
    specialize (Hpos l Hl). lra.
Qed.

Lemma divisions_guarded_witness :
  predict_free_tier_breach (Sample.ten_days_of 30) Sample.now Sample.ec2 "t2.micro"
  ≠ Raise ZeroDivisionError.
Proof.
  apply (divisions_guarded (Sample.ten_days_of 30) Sample.now Sample.ec2 "t2.micro"
           sample_now_valid).
  exact (reachable_insert _ _ reachable_init).
Defined.

End breach_claims.

(** * Further properties *)

(** ** The registry *)

Section registry.
Local Open Scope Q_scope.

Lemma populate_other conn seeds k :
  k ∉ (λ row : string * string * Q * string * string, (row.1.1.1.1, row.1.1.1.2)) <$> seeds →
  limits (foldl insert_or_ignore_limit conn seeds) !! k = limits conn !! k.
Proof.
  revert conn. induction seeds as [|[[[[s u] lim] un] de] seeds IH]; intros conn Hk; [done |].
  change (limits (foldl insert_or_ignore_limit
                    (insert_or_ignore_limit conn (s, u, lim, un, de)) seeds) !! k
          = limits conn !! k).
  rewrite fmap_cons in Hk. apply not_elem_of_cons in Hk as [Hne Hk]. simpl in Hne.
  rewrite IH by done. unfold insert_or_ignore_limit.
  destruct (limits conn !! (s, u)); [done |]. simpl. by rewrite lookup_insert_ne.
Qed.

Lemma populate_first conn pre s u lim un de post :
  (s, u) ∉ (λ row : string * string * Q * string * string, (row.1.1.1.1, row.1.1.1.2)) <$> pre →
  limits conn !! (s, u) = None →
  limits (foldl insert_or_ignore_limit conn (pre ++ (s, u, lim, un, de) :: post)) !! (s, u)
  = Some {| monthly_limit := lim; unit_ := un; description := de |}.
Proof.
  intros Hpre Hnone. rewrite foldl_app.
  pose proof (populate_other conn pre (s, u) Hpre) as Hc. rewrite Hnone in Hc.
  set (c := foldl insert_or_ignore_limit conn pre) in *.
  change (limits (foldl insert_or_ignore_limit
                    (insert_or_ignore_limit c (s, u, lim, un, de)) post) !! (s, u)
          = Some {| monthly_limit := lim; unit_ := un; description := de |}).
  apply populate_keeps. unfold insert_or_ignore_limit. rewrite Hc.
  simpl. apply lookup_insert_eq.
Qed.

(** X1: [initialize_tables] only adds to the registry: a limit that is there
    is kept as it is, the usage rows and the alerts are untouched, and a
    second initialisation changes nothing.  Of two seed rows with the same
    (service, usage_type) the first is stored: the registry holds 20000 for
    the requests of S3, the later row with 2000 is dropped. *)
Theorem seeding_only_adds :
  (∀ (self : db) k l,
     limits self !! k = Some l → limits (initialize_tables self) !! k = Some l)
  ∧ (∀ self : db,
       usage (initialize_tables self) = usage self
       ∧ alerts (initialize_tables self) = alerts self
       ∧ initialize_tables (initialize_tables self) = initialize_tables self)
  ∧ (∀ (self : db) pre s u lim un de post,
       free_tier_limits = pre ++ (s, u, lim, un, de) :: post →
       (s, u) ∉ (λ row : string * string * Q * string * string,
                   (row.1.1.1.1, row.1.1.1.2)) <$> pre →
       limits self !! (s, u) = None →
       limits (initialize_tables self) !! (s, u)
       = Some {| monthly_limit := lim; unit_ := un; description := de |})
  ∧ (monthly_limit
     <$> limits (initialize_tables empty_db)
         !! ("Amazon Simple Storage Service", "Requests")%string) = Some (20000 # 1)
  ∧ size (limits (initialize_tables empty_db)) = 15%nat.
Proof.
  split; [| split; [| split; [| split]]].
  - intros self k l. apply populate_keeps.
  - intros self. split; [| split].
    + unfold initialize_tables, _populate_free_tier_limits.
      apply (proj1 (populate_usage self free_tier_limits)).
    + unfold initialize_tables, _populate_free_tier_limits.
      apply (proj2 (populate_usage self free_tier_limits)).
    + apply initialize_tables_idempotent.
  - intros self pre s u lim un de post Heq Hpre Hnone.
    unfold initialize_tables, _populate_free_tier_limits. rewrite Heq.
    by apply populate_first.
  - vm_compute. reflexivity.
  - vm_compute. reflexivity.
Qed.

Lemma seeding_only_adds_witness :
  limits (initialize_tables empty_db) !! ("AWS Lambda", "Duration")%string
  = Some {| monthly_limit := 400000 # 1; unit_ := "GB-seconds";
            description := "Compute time per month" |}.
Proof.
  apply (proj1 (proj2 (proj2 seeding_only_adds)) empty_db
           (firstn 5 free_tier_limits) _ _ _ _ _ (skipn 6 free_tier_limits)).
  - reflexivity.
  - vm_compute. intros H. repeat (apply elem_of_cons in H as [H | H]; [discriminate |]).
    by apply elem_of_nil in H.
  - reflexivity.
Defined.

Lemma reachable_limits conn :
  reachable conn → limits conn = limits (initialize_tables empty_db).
Proof.
  induction 1 as [| conn Hr IH | conn records _ IH | conn now usage_data _ IH].
  - done.
  - unfold initialize_tables at 1, _populate_free_tier_limits.
    rewrite populate_seeded_id; [done |]. apply (reachable_invariant _ Hr).
  - by rewrite (proj1 (insert_usage_data_limits conn records)).
  - by rewrite (proj2 (check_free_tier_alerts_tables conn now usage_data)).
Qed.

(** X2: in every state the program reaches the registry is the seeded one,
    each usage row carries the allowance the registry holds for its service
    and usage type (none when the registry has no row for them), and a
    stored allowance is positive. *)
Theorem stored_allowances_follow_registry (conn : db) :
  reachable conn →
  limits conn = limits (initialize_tables empty_db)
  ∧ ∀ d s u row, usage conn !! (d, s, u) = Some row →
      free_tier_limit row = monthly_limit <$> limits conn !! (s, u)
      ∧ (limits conn !! (s, u) = None → free_tier_limit row = None)
      ∧ ∀ l, free_tier_limit row = Some l → 0 < l.
Proof.
  intros Hr. split; [by apply reachable_limits |].
  intros d s u row Hrow.
  pose proof (reachable_invariant _ Hr) as (_ & _ & Hc).
  split; [by eapply Hc |]. split.
  - intros Hnone. by rewrite (Hc _ _ _ _ Hrow), Hnone.
  - intros l Hl. by eapply reachable_allowance_positive.
Qed.

Lemma stored_allowances_follow_registry_witness :
  ∃ row, usage (Sample.ten_days_of 30) !! ("2024-03-01", Sample.ec2, "t2.micro")%string
         = Some row
    ∧ free_tier_limit row
      = monthly_limit <$> limits (Sample.ten_days_of 30) !! (Sample.ec2, "t2.micro"%string).
Proof.
  assert { row | usage (Sample.ten_days_of 30)
                   !! ("2024-03-01", Sample.ec2, "t2.micro")%string = Some row }
    as [row Hrow] by (eexists; vm_compute; reflexivity).
  exists row. split; [exact Hrow |].
  exact (proj1 (proj2 (stored_allowances_follow_registry (Sample.ten_days_of 30)
           (reachable_insert _ _ reachable_init)) _ _ _ row Hrow)).
Defined.

End registry.

(** ** The ledger: order of a batch *)

Section batch_order.

Lemma filter_key_at_most_one (records : list usage_record) (k : usage_key) :
  NoDup (record_key <$> records) →
  filter (λ r, record_key r = Some k) records = []
  ∨ ∃ r, filter (λ r, record_key r = Some k) records = [r].
Proof.
  induction records as [|r0 records IH]; intros Hnd; [by left |].
  rewrite fmap_cons in Hnd. apply NoDup_cons in Hnd as [Hnot Hnd].
  rewrite filter_cons. destruct (decide (record_key r0 = Some k)) as [Hk | Hk].
  - right. exists r0. f_equal.
    destruct (filter (λ r, record_key r = Some k) records) as [|r1 rest] eqn:E; [done |].
    exfalso. apply Hnot.
    assert (r1 ∈ filter (λ r, record_key r = Some k) records) as Hin by (rewrite E; left).
    apply list_elem_of_filter in Hin as [Hk1 Hin].
    rewrite Hk, <- Hk1. by apply list_elem_of_fmap_2.
  - by apply IH.
Qed.

Lemma last_record_for_permutation (records records' : list usage_record) k :
  records ≡ₚ records' → NoDup (record_key <$> records) →
  last_record_for k records' = last_record_for k records.
Proof.
  intros Hp Hnd. unfold last_record_for.
  assert (filter (λ r, record_key r = Some k) records'
          ≡ₚ filter (λ r, record_key r = Some k) records) as Hf by (by rewrite Hp).
  destruct (filter_key_at_most_one records k Hnd) as [E | [r E]]; rewrite E in Hf |- *.
  - by apply Permutation_nil_r in Hf as ->.
  - by apply Permutation_singleton_r in Hf as ->.
Qed.

(** X3: when no two records of a batch have the same
    (date, service, usage_type), every reordering of the batch gives the
    same result (success, or the same exception with nothing stored) and
    leaves the same columns under every key, the same registry and the same
    alerts.  The row ids the engine assigns, and with them the order of the
    rows in the table, are not part of the state and are not covered. *)
Theorem batch_order_keeps_rows (self : db) (records records' : list usage_record) :
  records ≡ₚ records' → NoDup (record_key <$> records) →
  (insert_usage_data self records').1 = (insert_usage_data self records).1
  ∧ (∀ k, usage (insert_usage_data self records').2 !! k
          = usage (insert_usage_data self records).2 !! k)
  ∧ limits (insert_usage_data self records').2 = limits (insert_usage_data self records).2
  ∧ alerts (insert_usage_data self records').2 = alerts (insert_usage_data self records).2.
Proof.
  intros Hp Hnd. unfold insert_usage_data.
  destruct (records_complete_or_not records) as [Hall | (r & Hin & Hr)].
  - assert (∀ r, r ∈ records' → is_Some (record_key r)) as Hall'.
    { intros r Hr. apply Hall. by rewrite Hp. }
    destruct (insert_usage_loop_complete self records Hall) as (c & -> & Hl & Ha & Hu).
    destruct (insert_usage_loop_complete self records' Hall') as (c' & -> & Hl' & Ha' & Hu').
    simpl. split; [done |]. split; [| split; congruence].
    intros k.
    by rewrite Hu, Hu', (last_record_for_permutation records records' k Hp Hnd).
  - rewrite (insert_usage_loop_incomplete self records) by eauto.
    rewrite (insert_usage_loop_incomplete self records'); [done |].
    exists r. split; [by rewrite <- Hp | done].
Qed.

Lemma batch_order_keeps_rows_witness :
  let ordered := [Sample.record "2024-03-01" 5; Sample.record "2024-03-02" 7] in
  let swapped := [Sample.record "2024-03-02" 7; Sample.record "2024-03-01" 5] in
  usage (insert_usage_data Sample.fresh swapped).2
    !! ("2024-03-01", Sample.ec2, "t2.micro")%string
  = usage (insert_usage_data Sample.fresh ordered).2
      !! ("2024-03-01", Sample.ec2, "t2.micro")%string.
Proof.
  intros ordered swapped.
  refine (proj1 (proj2 (batch_order_keeps_rows Sample.fresh ordered swapped _ _)) _).
  - apply perm_swap.
  - apply NoDup_cons. split; [| apply NoDup_singleton].
    intros H. apply list_elem_of_singleton in H. discriminate H.
Defined.

(** With equal keys the order does matter: the later record stays. *)
Example batch_order_matters_for_equal_keys :
  let a := Sample.record "2024-03-01" 5 in
  let b := Sample.record "2024-03-01" 7 in
  usage_amount <$> usage (insert_usage_data Sample.fresh [a; b]).2
                     !! ("2024-03-01", Sample.ec2, "t2.micro")%string = Some (7 # 1)
  ∧ usage_amount <$> usage (insert_usage_data Sample.fresh [b; a]).2
                       !! ("2024-03-01", Sample.ec2, "t2.micro")%string = Some (5 # 1).
Proof. split; vm_compute; reflexivity. Qed.

End batch_order.

(** ** Cost anomalies *)

Section cost_anomalies.
Local Open Scope Q_scope.

Lemma check_cost_anomalies_app (a b : list cost_record) :
  check_cost_anomalies (a ++ b) = check_cost_anomalies a ++ check_cost_anomalies b.
Proof.
  induction a as [|r a IH]; simpl; [done |].
  destruct (Py.gt _ _); [by rewrite IH | done].
Qed.

(** X4: [check_cost_anomalies] reports, in the order of the input, exactly
    the records whose cost exceeds 0.01, a record without a cost counting as
    0; a report is critical when the cost exceeds 1 and a warning otherwise
    (a cost of exactly 1 is a warning, a cost of exactly 0.01 is not
    reported), its currency is USD unless the record names one, and the
    reports of two lists put together are the reports of each. *)
Theorem cost_anomalies_characterised (cost_data : list cost_record) :
  an_cost <$> check_cost_anomalies cost_data
  = filter (λ c, Is_true (Py.gt c (1 # 100))) ((λ r, default 0 (c_cost r)) <$> cost_data)
  ∧ (∀ an, an ∈ check_cost_anomalies cost_data →
       ∃ record, record ∈ cost_data
         ∧ an_cost an = default 0 (c_cost record)
         ∧ 1 # 100 < an_cost an
         ∧ an_date an = c_date record ∧ an_service an = c_service record
         ∧ an_usage_type an = c_usage_type record
         ∧ an_currency an = default "USD"%string (c_currency record)
         ∧ (1 < an_cost an → an_severity an = "critical"%string)
         ∧ (an_cost an <= 1 → an_severity an = "warning"%string))
  ∧ (∀ record, record ∈ cost_data → 1 # 100 < default 0 (c_cost record) →
       ∃ an, an ∈ check_cost_anomalies cost_data
             ∧ an_cost an = default 0 (c_cost record)
             ∧ an_service an = c_service record ∧ an_date an = c_date record)
  ∧ (∀ more, check_cost_anomalies (cost_data ++ more)
             = check_cost_anomalies cost_data ++ check_cost_anomalies more)
  ∧ ((∀ record, record ∈ cost_data → c_cost record = None) →
     check_cost_anomalies cost_data = []).
Proof.
  split; [| split; [| split; [| split]]].
  - induction cost_data as [|r l IH]; [done |].
    cbn [check_cost_anomalies]. rewrite (fmap_cons _ r l), filter_cons.
    destruct (Py.gt (default 0 (c_cost r)) (1 # 100)) eqn:E.
    + rewrite fmap_cons, IH, decide_True; [done | exact I].
    + rewrite decide_False; [done | by intros []].
  - induction cost_data as [|r l IH]; simpl; intros an Han.
    + by apply elem_of_nil in Han.
    + destruct (Py.gt (default 0 (c_cost r)) (1 # 100)) eqn:E.
      * apply elem_of_cons in Han as [-> | Han].
        -- exists r. simpl. apply gt_true in E.
           split; [left |]. repeat split; try done.
           ++ intros H. by rewrite (proj2 (gt_true _ _) H).
           ++ intros H. by rewrite (proj2 (gt_false _ _) H).
        -- destruct (IH an Han) as (r' & Hin & H). exists r'. split; [by right | done].
      * destruct (IH an Han) as (r' & Hin & H). exists r'. split; [by right | done].
  - induction cost_data as [|r l IH]; intros record Hin Hc.
    + by apply elem_of_nil in Hin.
    + simpl. apply elem_of_cons in Hin as [<- | Hin].
      * rewrite (proj2 (gt_true _ _) Hc). eexists. split; [left | done].
      * destruct (IH record Hin Hc) as (an & Han & H).
        exists an. split; [| done].
        destruct (Py.gt _ _); [by right | done].
  - intros more. apply check_cost_anomalies_app.
  - induction cost_data as [|r l IH]; intros Hnone; simpl; [done |].
    rewrite (Hnone r) by left. simpl.
    apply IH. intros. apply Hnone. by right.
Qed.

Lemma cost_anomalies_characterised_witness :
  let record c :=
    {| c_date := Some "2024-03-01"%string; c_service := Some "AWS Lambda"%string;
       c_usage_type := None; c_cost := c; c_currency := None |} in
  (∃ an, an ∈ check_cost_anomalies [record (Some (5 # 1000)); record (Some (2 # 100))]
         ∧ an_cost an = 2 # 100)
  ∧ check_cost_anomalies [record None; record None] = [].
Proof.
  intros record. split.
  - destruct (proj1 (proj2 (proj2 (cost_anomalies_characterised
        [record (Some (5 # 1000)); record (Some (2 # 100))])))
        (record (Some (2 # 100)))) as (an & Han & Hc & _).
    + right. left.
    + reflexivity.
    + exists an. split; [exact Han | exact Hc].
  - apply (proj2 (proj2 (proj2 (proj2 (cost_anomalies_characterised
             [record None; record None]))))).
    intros r Hr. apply elem_of_cons in Hr as [-> | Hr]; [reflexivity |].
    apply list_elem_of_singleton in Hr as ->. reflexivity.
Defined.

(** The costs 0.005, 0.02 and 1.5 give no report, a warning and a critical
    report; the message shows the cost with two decimals. *)
Example cost_anomaly_levels :
  let record c :=
    {| c_date := Some "2024-03-01"%string; c_service := Some "AWS Lambda"%string;
       c_usage_type := None; c_cost := Some c; c_currency := None |} in
  (λ an, (an_severity an, an_message an))
  <$> check_cost_anomalies [record (5 # 1000); record (2 # 100); record (15 # 10)]
  = [ ("warning", "Unexpected cost of $0.02 detected for AWS Lambda - free tier may be exceeded");
      ("critical", "Unexpected cost of $1.50 detected for AWS Lambda - free tier may be exceeded") ]%string.
Proof. vm_compute. reflexivity. Qed.

End cost_anomalies.

(** ** Recommendations *)

Section recommendations.
Local Open Scope Q_scope.

Lemma recommendations_loop_adds statuses acc :
  Forall (λ s, is_Some (usage_percentage s)) statuses →
  ∃ specific,
    recommendations_loop statuses acc = Ok (acc ++ specific)
    ∧ (length specific ≤ length statuses)%nat
    ∧ ∀ r, r ∈ specific →
        rc_type r = "optimization"%string
        ∧ ∃ s p, s ∈ statuses ∧ usage_percentage s = Some p ∧ 80 <= p
                 ∧ rc_service r = g_service (st_group s).
Proof.
  intros Hall. revert acc.
  induction Hall as [|s statuses [p Hp] _ IH]; intros acc; simpl.
  - exists []. rewrite app_nil_r. split; [done |]. split; [done |].
    intros r Hr. by apply elem_of_nil in Hr.
  - rewrite Hp.
    assert (∀ acc', ∃ specific,
              recommendations_loop statuses acc' = Ok (acc' ++ specific)
              ∧ (length specific ≤ S (length statuses))%nat
              ∧ ∀ r, r ∈ specific →
                  rc_type r = "optimization"%string
                  ∧ ∃ s0 p0, s0 ∈ s :: statuses ∧ usage_percentage s0 = Some p0
                             ∧ 80 <= p0 ∧ rc_service r = g_service (st_group s0)) as Hskip.
    { intros acc'. destruct (IH acc') as (sp & -> & Hlen & Hsp).
      exists sp. split; [done |]. split; [lia |].
      intros r Hr. destruct (Hsp r Hr) as (Ht & s0 & p0 & Hin & H).
      split; [done |]. exists s0, p0. split; [by right | done]. }
    assert (∀ r0, 80 <= p → rc_type r0 = "optimization"%string →
              rc_service r0 = g_service (st_group s) →
              ∃ specific,
                recommendations_loop statuses (acc ++ [r0]) = Ok (acc ++ specific)
                ∧ (length specific ≤ S (length statuses))%nat
                ∧ ∀ r, r ∈ specific →
                    rc_type r = "optimization"%string
                    ∧ ∃ s0 p0, s0 ∈ s :: statuses ∧ usage_percentage s0 = Some p0
                               ∧ 80 <= p0 ∧ rc_service r = g_service (st_group s0)) as Hadd.
    { intros r0 H80 Ht Hsv. destruct (IH (acc ++ [r0])) as (sp & -> & Hlen & Hsp).
      exists (r0 :: sp). rewrite <- app_assoc. split; [done |]. split; [simpl; lia |].
      intros r [-> | Hr]%elem_of_cons.
      - split; [done |]. exists s, p. split; [left | done].
      - destruct (Hsp r Hr) as (Ht' & s0 & p0 & Hin & H).
        split; [done |]. exists s0, p0. split; [by right | done]. }
    destruct (Py.ge p 80) eqn:E; [apply ge_true in E | apply Hskip].
    destruct (_ && _); [by apply Hadd |].
    destruct (PyStr.contains "Simple Storage Service" _); [by apply Hadd |].
    destruct (PyStr.contains "Lambda" _); [by apply Hadd | apply Hskip].
Qed.

Lemma check_free_tier_usage_percentages self now month statuses :
  check_free_tier_usage self now month = Ok statuses →
  Forall (λ s, is_Some (usage_percentage s)) statuses.
Proof.
  intros Hst. apply Forall_forall. intros s Hs.
  destruct (check_free_tier_usage_member _ _ _ _ _ Hst Hs) as [Hc _].
  destruct (classify_row_cases (st_group s)) as [(l & _ & _ & Hc') | [_ Hc']];
    rewrite Hc' in Hc; injection Hc as <-; by eexists.
Qed.

(** X5: [get_service_recommendations] never fails and never returns an
    empty list: its answer ends with the two general recommendations, and
    before them stands at most one optimisation for each standing of the
    month, each for a service whose reported percentage is at least 80; in
    a month without usage the answer is the two general recommendations. *)
Theorem recommendations_end_with_general (self : db) (now : datetime)
    (usage_data : list usage_record) (statuses : list usage_status) :
  check_free_tier_usage self now (Some (strftime_Ym now)) = Ok statuses →
  ∃ specific,
    get_service_recommendations self now usage_data
    = Ok (specific ++ always_on_recommendations)
    ∧ (length specific ≤ length statuses)%nat
    ∧ (∀ r, r ∈ specific →
         rc_type r = "optimization"%string
         ∧ ∃ s p, s ∈ statuses ∧ usage_percentage s = Some p ∧ 80 <= p
                  ∧ rc_service r = g_service (st_group s))
    ∧ (statuses = [] → specific = [])
    ∧ ((∀ s p, s ∈ statuses → usage_percentage s = Some p → p < 80) → specific = []).
Proof.
  intros Hst. unfold get_service_recommendations. rewrite Hst; simpl.
  destruct (recommendations_loop_adds statuses []
              (check_free_tier_usage_percentages _ _ _ _ Hst)) as (sp & -> & Hlen & Hsp).
  exists sp. simpl. split; [done |]. split; [done |]. split; [done |]. split.
  - intros ->. simpl in Hlen. destruct sp; [done | simpl in Hlen; lia].
  - intros Hlow. destruct sp as [|r sp]; [done |].
    destruct (Hsp r) as (_ & s & p & Hin & Hp & H80 & _); [left |].
    specialize (Hlow s p Hin Hp). lra.
Qed.

Lemma recommendations_end_with_general_witness :
  ∃ specific,
    get_service_recommendations (Sample.ten_days_of 70) Sample.now []
    = Ok (specific ++ always_on_recommendations)
    ∧ (length specific ≤ 1)%nat.
Proof.
  assert { statuses |
           check_free_tier_usage (Sample.ten_days_of 70) Sample.now
             (Some (strftime_Ym Sample.now)) = Ok statuses
           ∧ length statuses = 1%nat } as (statuses & Hst & Hlen).
  { eexists. split; [vm_compute; reflexivity | reflexivity]. }
  destruct (recommendations_end_with_general (Sample.ten_days_of 70) Sample.now []
              statuses Hst) as (specific & Hr & Hl & _).
  exists specific. split; [exact Hr |]. rewrite <- Hlen. exact Hl.
Defined.

End recommendations.

(** ** The order of texts *)

Lemma ascii_compare_refl (c : ascii) : Ascii.compare c c = Eq.
Proof. apply N.compare_refl. Qed.

Lemma ascii_compare_lt_trans (a b c : ascii) :
  Ascii.compare a b = Lt → Ascii.compare b c = Lt → Ascii.compare a c = Lt.
Proof.
  unfold Ascii.compare. rewrite !N.compare_lt_iff. lia.
Qed.

Lemma string_compare_refl (s : string) : String.compare s s = Eq.
Proof. induction s as [|c s IH]; [done |]. simpl. by rewrite ascii_compare_refl. Qed.

Lemma string_compare_lt_trans (s1 s2 s3 : string) :
  String.compare s1 s2 = Lt → String.compare s2 s3 = Lt → String.compare s1 s3 = Lt.
Proof.
  revert s2 s3. induction s1 as [|c1 s1 IH]; intros [|c2 s2] [|c3 s3]; simpl; try done.
  destruct (Ascii.compare c1 c2) eqn:E12; [| | done];
    destruct (Ascii.compare c2 c3) eqn:E23; try done.
  - apply Ascii.compare_eq_iff in E12 as ->. rewrite E23. apply IH.
  - apply Ascii.compare_eq_iff in E12 as ->. by rewrite E23.
  - apply Ascii.compare_eq_iff in E23 as <-. by rewrite E12.
  - by rewrite (ascii_compare_lt_trans _ _ _ E12 E23).
Qed.

Lemma string_leb_refl (s : string) : String.leb s s = true.
Proof. unfold String.leb. by rewrite string_compare_refl. Qed.

Lemma string_leb_trans (s1 s2 s3 : string) :
  String.leb s1 s2 = true → String.leb s2 s3 = true → String.leb s1 s3 = true.
Proof.
  unfold String.leb.
  destruct (String.compare s1 s2) eqn:E12; [| | done];
    destruct (String.compare s2 s3) eqn:E23; try done; intros _ _.
  - apply String.compare_eq_iff in E12 as ->. by rewrite E23.
  - apply String.compare_eq_iff in E12 as ->. by rewrite E23.
  - apply String.compare_eq_iff in E23 as <-. by rewrite E12.
  - by rewrite (string_compare_lt_trans _ _ _ E12 E23).
Qed.

#[global] Instance string_leb_total : Total (λ a b : string, Is_true (String.leb a b)).
Proof.
  intros a b. destruct (String.leb_total a b) as [-> | ->]; [by left | by right].
Qed.

#[global] Instance string_leb_transitive :
  Transitive (λ a b : string, Is_true (String.leb a b)).
Proof.
  intros a b c Hab Hbc. apply Is_true_true in Hab, Hbc. apply Is_true_true.
  by eapply string_leb_trans.
Qed.

#[global] Instance group_leb_total : Total (λ a b : limit_key, Is_true (group_leb a b)).
Proof.
  intros [a1 a2] [b1 b2]. unfold group_leb; simpl.
  rewrite (String.compare_antisym b1 a1).
  destruct (String.compare a1 b1); simpl; [| by left | by right].
  apply string_leb_total.
Qed.

#[global] Instance group_leb_transitive :
  Transitive (λ a b : limit_key, Is_true (group_leb a b)).
Proof.
  intros [a1 a2] [b1 b2] [c1 c2]. unfold group_leb; simpl.
  destruct (String.compare a1 b1) eqn:E12; [| | done];
    destruct (String.compare b1 c1) eqn:E23; try done.
  - apply String.compare_eq_iff in E12 as ->. rewrite E23. apply string_leb_transitive.
  - apply String.compare_eq_iff in E12 as ->. by rewrite E23.
  - apply String.compare_eq_iff in E23 as <-. by rewrite E12.
  - by rewrite (string_compare_lt_trans _ _ _ E12 E23).
Qed.

(** ** The groups of the usage check *)

Section usage_groups.
Local Open Scope Q_scope.

Lemma omap_all_some {A B} (f : A → option B) (l : list A) :
  (∀ x, x ∈ l → is_Some (f x)) → Forall2 (λ x y, f x = Some y) l (omap f l).
Proof.
  induction l as [|x l IH]; intros Hall; simpl; [constructor |].
  destruct (Hall x) as [y Hy]; [left |]. rewrite Hy.
  constructor; [done |]. apply IH. intros. apply Hall. by right.
Qed.

Lemma aggregate_group_nonempty rows g :
  g ∈ group_of <$> rows → is_Some (aggregate_group rows g).
Proof.
  intros (kr & -> & Hin)%list_elem_of_fmap. unfold aggregate_group.
  destruct (filter (λ kr0, group_of kr0 = group_of kr) rows) as [|kr0 m] eqn:E; [| by eexists].
  exfalso. assert (kr ∈ filter (λ kr0, group_of kr0 = group_of kr) rows) as H.
  { by apply list_elem_of_filter. }
  rewrite E in H. by apply elem_of_nil in H.
Qed.

Lemma aggregate_group_sums rows g grp :
  aggregate_group rows g = Some grp →
  (g_service grp, g_usage_type grp) = g
  ∧ total_usage grp = Qsum (usage_amount ∘ snd <$> filter (λ kr, group_of kr = g) rows)
  ∧ days_tracked grp = Z.of_nat (length (filter (λ kr, group_of kr = g) rows)).
Proof.
  unfold aggregate_group.
  destruct (filter _ rows) as [|kr members]; [done |].
  intros [= <-]. simpl. by destruct g.
Qed.

(** The groups of the query are the distinct (service, usage_type) pairs of
    the rows of the month, in order. *)
Lemma select_usage_by_group_groups conn month :
  Forall2 (λ g grp, aggregate_group (rows_of_month conn month) g = Some grp)
    (merge_sort (λ a b, Is_true (group_leb a b))
       (remove_dups (group_of <$> rows_of_month conn month)))
    (select_usage_by_group conn month).
Proof.
  unfold select_usage_by_group. apply omap_all_some.
  intros g Hg. apply aggregate_group_nonempty.
  rewrite merge_sort_Permutation, elem_of_remove_dups in Hg. exact Hg.
Qed.

Lemma select_usage_by_group_keys conn month :
  (λ grp, (g_service grp, g_usage_type grp)) <$> select_usage_by_group conn month
  = merge_sort (λ a b, Is_true (group_leb a b))
      (remove_dups (group_of <$> rows_of_month conn month)).
Proof.
  pose proof (select_usage_by_group_groups conn month) as H.
  induction H as [|g grp gs grps Hg _ IH]; [done |].
  rewrite fmap_cons, IH. f_equal. by apply aggregate_group_sums in Hg as [-> _].
Qed.

End usage_groups.

(** ** The rows of the usage check *)

Section usage_check_rows.
Local Open Scope Q_scope.

Lemma classify_rows_groups rows statuses :
  classify_rows rows = Ok statuses → st_group <$> statuses = rows.
Proof.
  revert statuses. induction rows as [|row rows IH]; intros statuses; simpl.
  - by intros [= <-].
  - destruct (classify_row row) as [s0|] eqn:H0; simpl; [| done].
    destruct (classify_rows rows) as [k|]; simpl; [| done].
    intros [= <-]. rewrite fmap_cons, (IH k eq_refl).
    by rewrite (classify_row_group _ _ H0).
Qed.

Lemma rows_of_month_groups conn month s u :
  (s, u) ∈ group_of <$> rows_of_month conn month
  ↔ ∃ d row, usage conn !! (d, s, u) = Some row ∧ Sql.strftime_Ym d = Some month.
Proof.
  rewrite list_elem_of_fmap. unfold rows_of_month. split.
  - intros ([[[d s'] u'] row] & Hg & Hin). apply list_elem_of_filter in Hin as [Hm Hin].
    apply elem_of_map_to_list in Hin. unfold group_of in Hg; simpl in *.
    injection Hg as -> ->. eauto.
  - intros (d & row & Hrow & Hm). exists ((d, s, u), row). split; [done |].
    apply list_elem_of_filter. split; [done |]. by apply elem_of_map_to_list.
Qed.

(** X6: the usage check (given a month) returns at most one entry per
    (service, usage_type), in ascending order of (service, usage_type).
    Every entry belongs to a stored usage row, and every stored row whose
    date SQLite reads as a day of the month has its entry; when all stored
    dates are date texts (a calendar date, with or without a time of day),
    every entry belongs to a stored row of the month. *)
Theorem usage_check_groups self now month statuses :
  month ≠ ""%string →
  check_free_tier_usage self now (Some month) = Ok statuses →
  let keys := (λ s, (g_service (st_group s), g_usage_type (st_group s))) <$> statuses in
  NoDup keys
  ∧ StronglySorted (λ a b, Is_true (group_leb a b)) keys
  ∧ (∀ s u, (s, u) ∈ keys → ∃ d row, usage self !! (d, s, u) = Some row)
  ∧ (∀ d s u row, usage self !! (d, s, u) = Some row →
       Sql.strftime_Ym d = Some month → (s, u) ∈ keys)
  ∧ (date_texts self →
     ∀ s u, (s, u) ∈ keys
            → ∃ d row, usage self !! (d, s, u) = Some row
                       ∧ Sql.strftime_Ym d = Some month).
Proof.
  intros Hmonth Hst keys. unfold check_free_tier_usage in Hst.
  rewrite bool_decide_false in Hst by done.
  apply classify_rows_groups in Hst.
  assert (keys = merge_sort (λ a b, Is_true (group_leb a b))
                   (remove_dups (group_of <$> rows_of_month self month))) as Hkeys.
  { unfold keys. rewrite <- select_usage_by_group_keys, <- Hst.
    by rewrite <- list_fmap_compose. }
  assert (∀ s u, (s, u) ∈ keys
                 ↔ ∃ d row, usage self !! (d, s, u) = Some row
                            ∧ Sql.strftime_Ym d = Some month) as Hmem.
  { intros s u. rewrite Hkeys, merge_sort_Permutation, elem_of_remove_dups.
    apply rows_of_month_groups. }
  split; [rewrite Hkeys, merge_sort_Permutation; apply NoDup_remove_dups |].
  split; [rewrite Hkeys; apply (StronglySorted_merge_sort _) |].
  split; [| split].
  - intros s u (d & row & Hrow & _)%Hmem. eauto.
  - intros d s u row Hrow Hd. apply Hmem. eauto.
  - intros _ s u. apply Hmem.
Qed.

Lemma usage_check_groups_witness :
  ∃ statuses,
    check_free_tier_usage (Sample.ten_days_of 30) Sample.now (Some "2024-03"%string)
    = Ok statuses
    ∧ (Sample.ec2, "t2.micro"%string)
      ∈ (λ s, (g_service (st_group s), g_usage_type (st_group s))) <$> statuses.
Proof.
  assert { statuses |
           check_free_tier_usage (Sample.ten_days_of 30) Sample.now
             (Some "2024-03"%string) = Ok statuses } as [statuses Hst].
  { eexists. vm_compute. reflexivity. }
  assert { row | usage (Sample.ten_days_of 30)
                   !! ("2024-03-01", Sample.ec2, "t2.micro")%string = Some row }
    as [row Hrow] by (eexists; vm_compute; reflexivity).
  assert ("2024-03"%string ≠ ""%string) as Hmonth by discriminate.
  destruct (usage_check_groups (Sample.ten_days_of 30) Sample.now "2024-03" statuses
              Hmonth Hst) as (_ & _ & _ & Hin & _).
  exists statuses. split; [exact Hst |].
  apply (Hin "2024-03-01"%string _ _ row Hrow). vm_compute. reflexivity.
Defined.

(** Two services recorded in descending order come back in ascending order,
    each with the sum of its days. *)
Example usage_check_orders_and_sums :
  let records :=
    [ {| rec_date := Some "2024-03-01"%string; rec_service := Some "b"%string;
         rec_usage_type := Some "x"%string; rec_usage_amount := Some 1;
         rec_usage_unit := None; rec_cost := None |};
      {| rec_date := Some "2024-03-02"%string; rec_service := Some "b"%string;
         rec_usage_type := Some "x"%string; rec_usage_amount := Some 2;
         rec_usage_unit := None; rec_cost := None |};
      {| rec_date := Some "2024-03-01"%string; rec_service := Some "a"%string;
         rec_usage_type := Some "y"%string; rec_usage_amount := Some 5;
         rec_usage_unit := None; rec_cost := None |};
      {| rec_date := Some "2024-04-01"%string; rec_service := Some "a"%string;
         rec_usage_type := Some "y"%string; rec_usage_amount := Some 7;
         rec_usage_unit := None; rec_cost := None |} ] in
  (λ s, (g_service (st_group s), g_usage_type (st_group s), Qred (total_usage (st_group s))))
    <$> default [] (match check_free_tier_usage (insert_usage_data Sample.fresh records).2
                            Sample.now (Some "2024-03"%string) with
                    | Ok l => Some l | Raise _ => None end)
  = [("a", "y", 5); ("b", "x", 3)]%string.
Proof. vm_compute. reflexivity. Qed.

End usage_check_rows.

(** ** What the alert check returns *)

Section alert_check_returns.
Local Open Scope Q_scope.


(** The loop returns, in the order of the statuses, exactly the dicts
    [returned_alert] names, whatever the database holds. *)
Lemma check_alerts_loop_returns self now statuses acc :
  Forall (λ s, classify_row (st_group s) = Ok s) statuses →
  (check_alerts_loop self now statuses acc).1
  = Ok (acc ++ omap (returned_alert now) statuses).
Proof.
  intros Hwf. revert self acc.
  induction Hwf as [|s statuses Hs _ IH]; intros self acc.
  - simpl. by rewrite app_nil_r.
  - cbn [check_alerts_loop omap list_omap]. unfold returned_alert at 1.
    destruct (classify_row_cases (st_group s))
      as [(l & Hl & Hnz & Hc) | [Hf Hc]]; rewrite Hc in Hs; injection Hs as Hs.
    + rewrite (proj2 (truthy_opt_true _)) by eauto.
      set (p := total_usage (st_group s) / l * 100).
      assert (usage_percentage s = Some (Py.round p 2)) as -> by (by rewrite <- Hs).
      rewrite Hl; simpl. rewrite (proj2 (truthy_true l)) by done; simpl.
      unfold _create_alert.
      rewrite (create_free_tier_alert_tracked _ _ _ _ Hl Hnz).
      destruct (Py.ge (Py.round p 2) 90).
      { rewrite IH. by rewrite <- app_assoc. }
      destruct (Py.ge (Py.round p 2) 75).
      { rewrite IH. by rewrite <- app_assoc. }
      apply IH.
    + rewrite Hf.
      assert (match g_free_tier_limit (st_group s) with
              | Some limit =>
                  match usage_percentage s with
                  | Some p0 =>
                      if negb (Py.truthy limit) then None
                      else if Py.ge p0 90 then Some (A:=alert) _
                      else if Py.ge p0 75 then Some _ else None
                  | None => None
                  end
              | None => None
              end = None) as ->; [| apply IH].
      apply truthy_opt_false in Hf as [-> | (l & -> & Hz)]; [done |].
      rewrite (proj2 (truthy_false l)) by done. by destruct (usage_percentage s).
Qed.










(** The second run of the sample month: two equal rows are stored. *)
Example alert_stored_twice :
  let later := {| year := 2024; month := 3; day := 10; clock := "18:30:00" |} in
  let run1 := check_free_tier_alerts (Sample.ten_days_of 70) Sample.now [] in
  let run2 := check_free_tier_alerts run1.2 later [] in
  al_message <$> alerts run2.2
  = [ "CRITICAL: Amazon Elastic Compute Cloud - Compute t2.micro usage at 93.3% of free tier limit";
      "CRITICAL: Amazon Elastic Compute Cloud - Compute t2.micro usage at 93.3% of free tier limit" ]%string.
Proof. vm_compute. reflexivity. Qed.

End alert_check_returns.

(** ** The daily cost trend *)

Section cost_trend.
Local Open Scope Q_scope.

Lemma Qsum_cons (x : Q) (l : list Q) : Qsum (x :: l) = x + Qsum l.
Proof. reflexivity. Qed.

Lemma Qsum_le {A} (f g : A → Q) (l : list A) :
  (∀ x, x ∈ l → f x <= g x) → Qsum (f <$> l) <= Qsum (g <$> l).
Proof.
  induction l as [|x l IH]; intros H; [simpl; lra |].
  pose proof (H x (list_elem_of_here _ _)).
  pose proof (IH (λ y Hy, H y (list_elem_of_further _ _ _ Hy))).
  rewrite !fmap_cons, !Qsum_cons. lra.
Qed.

Lemma Qsum_nonneg {A} (f : A → Q) (l : list A) :
  (∀ x, x ∈ l → 0 <= f x) → 0 <= Qsum (f <$> l).
Proof.
  induction l as [|x l IH]; intros H; [simpl; lra |].
  pose proof (H x (list_elem_of_here _ _)).
  pose proof (IH (λ y Hy, H y (list_elem_of_further _ _ _ Hy))).
  rewrite !fmap_cons, !Qsum_cons. lra.
Qed.

Lemma Qsum_ext {A} (f g : A → Q) (l : list A) :
  (∀ x, x ∈ l → f x == g x) → Qsum (f <$> l) == Qsum (g <$> l).
Proof.
  induction l as [|x l IH]; intros H; [simpl; lra |].
  pose proof (H x (list_elem_of_here _ _)).
  pose proof (IH (λ y Hy, H y (list_elem_of_further _ _ _ Hy))).
  rewrite !fmap_cons, !Qsum_cons. lra.
Qed.

Lemma elem_of_length_pos {A} (x : A) (l : list A) :
  x ∈ l → (1 ≤ Z.of_nat (length l))%Z.
Proof. destruct l; [by intros ?%elem_of_nil | simpl; lia]. Qed.

Lemma paid_part (c : Q) :
  c <= (if Py.gt c 0 then c else 0) ∧ 0 <= (if Py.gt c 0 then c else 0)
  ∧ (0 <= c → (if Py.gt c 0 then c else 0) == c).
Proof.
  destruct (Py.gt c 0) eqn:E; [apply gt_true in E | apply gt_false in E];
    repeat split; intros; lra.
Qed.

Lemma get_cost_trend_dates self utc days :
  ct_date <$> get_cost_trend self utc days
  = merge_sort (λ a b, Is_true (String.leb a b))
      (remove_dups (date_of <$> rows_since self (SqlDate.now_minus_days utc days))).
Proof.
  unfold get_cost_trend. rewrite <- list_fmap_compose. apply list_fmap_id.
Qed.

(** X8: when every stored date is a date text, get_cost_trend returns one
    row per stored date on or after the cut-off [date('now', '-N days')],
    each date once and in ascending order, and no row when the cut-off is
    NULL.  On every day the paid cost is not negative and not below the
    daily cost, at least one service is active, and when no stored cost is
    negative the paid cost equals the daily cost. *)
Theorem cost_trend_days self utc days :
  date_texts self →
  let trend := get_cost_trend self utc days in
  StronglySorted (λ a b, Is_true (String.leb a b)) (ct_date <$> trend)
  ∧ NoDup (ct_date <$> trend)
  ∧ (∀ cutoff, SqlDate.now_minus_days utc days = Some cutoff →
       ∀ d, d ∈ ct_date <$> trend
            ↔ Is_true (String.leb cutoff d)
              ∧ ∃ s u row, usage self !! (d, s, u) = Some row)
  ∧ (SqlDate.now_minus_days utc days = None → trend = [])
  ∧ Forall (λ r, daily_cost r <= paid_cost r ∧ 0 <= paid_cost r
                 ∧ (1 ≤ active_services r)%Z) trend
  ∧ ((∀ k row, usage self !! k = Some row → 0 <= cost row) →
     Forall (λ r, paid_cost r == daily_cost r) trend).
Proof.
  intros _ trend.
  pose proof (get_cost_trend_dates self utc days) as Hdates.
  fold trend in Hdates.
  set (rows := rows_since self (SqlDate.now_minus_days utc days)) in *.
  set (dates := merge_sort (λ a b, Is_true (String.leb a b))
                  (remove_dups (date_of <$> rows))) in *.
  assert (trend = cost_of_day rows <$> dates) as Htrend by done.
  assert (∀ d, d ∈ dates ↔ d ∈ date_of <$> rows) as Hmem.
  { intros d. unfold dates. by rewrite merge_sort_Permutation, elem_of_remove_dups. }
  assert (∀ kr, kr ∈ rows → usage self !! kr.1 = Some kr.2) as Hrows.
  { intros [k row]. unfold rows, rows_since.
    destruct (SqlDate.now_minus_days utc days); [| by intros ?%elem_of_nil].
    intros [_ Hin]%list_elem_of_filter. by apply elem_of_map_to_list in Hin. }
  rewrite Hdates. split; [apply (StronglySorted_merge_sort _) |].
  split; [unfold dates; rewrite merge_sort_Permutation; apply NoDup_remove_dups |].
  split; [| split; [| split]].
  - intros cutoff Hcut d. rewrite Hmem, list_elem_of_fmap.
    unfold rows, rows_since. rewrite Hcut. split.
    + intros ([[[d' s] u] row] & -> & [Hge Hin]%list_elem_of_filter).
      apply elem_of_map_to_list in Hin. split; [exact Hge | eauto].
    + intros (Hge & s & u & row & Hrow). exists ((d, s, u), row). split; [done |].
      apply list_elem_of_filter. split; [exact Hge | by apply elem_of_map_to_list].
  - intros Hcut. rewrite Htrend. unfold dates, rows, rows_since. by rewrite Hcut.
  - rewrite Htrend. apply Forall_fmap, Forall_forall. intros d Hd. simpl.
    split; [| split].
    + apply (Qsum_le (cost ∘ snd)). intros kr _. apply paid_part.
    + apply Qsum_nonneg. intros kr _. apply paid_part.
    + apply Hmem, list_elem_of_fmap in Hd as (kr & -> & Hkr).
      assert (kr.1.1.2 ∈ remove_dups
                ((λ kr0, kr0.1.1.2) <$> filter (λ kr0, date_of kr0 = date_of kr) rows))
        as Hin.
      { apply elem_of_remove_dups, list_elem_of_fmap. exists kr. split; [done |].
        by apply list_elem_of_filter. }
      exact (elem_of_length_pos _ _ Hin).
  - intros Hcost. rewrite Htrend. apply Forall_fmap, Forall_forall. intros d Hd. simpl.
    apply (Qsum_ext _ (cost ∘ snd)). intros [k row] Hkr. simpl. apply paid_part.
    apply list_elem_of_filter in Hkr as [_ Hkr]. apply Hrows in Hkr.
    by eapply Hcost.
Qed.

Lemma sample_date_texts : date_texts (Sample.ten_days_of 30).
Proof.
  unfold date_texts.
  refine (bool_decide_unpack (map_Forall _ (usage (Sample.ten_days_of 30))) _).
  vm_compute. exact I.
Defined.

Lemma cost_trend_days_witness :
  NoDup (ct_date <$> get_cost_trend (Sample.ten_days_of 30) Sample.now 7).
Proof.
  exact (proj1 (proj2 (cost_trend_days (Sample.ten_days_of 30) Sample.now 7
                         sample_date_texts))).
Defined.

(** The trend of the last seven days of the sample month: the cut-off is
    3 March, and eight days are on or after it. *)
Example cost_trend_of_sample :
  SqlDate.now_minus_days Sample.now 7 = Some "2024-03-03"%string
  ∧ ct_date <$> get_cost_trend (Sample.ten_days_of 30) Sample.now 7
    = [ "2024-03-03"; "2024-03-04"; "2024-03-05"; "2024-03-06"; "2024-03-07";
        "2024-03-08"; "2024-03-09"; "2024-03-10" ]%string
  ∧ get_cost_trend (Sample.ten_days_of 30) Sample.now (-1) = [].
Proof. repeat split; vm_compute; reflexivity. Qed.

End cost_trend.

(** ** What the breach predictor returns *)

Section prediction.
Local Open Scope Q_scope.

Lemma int_negative (q : Q) : q < 0 → (Py.int q ≤ 0)%Z.
Proof.
  destruct q as [n d]. unfold Qlt, Py.int; simpl. intros Hn.
  replace n with (- (- n))%Z by lia. rewrite Z.quot_opp_l by lia.
  pose proof (Z.quot_pos (- n) (Z.pos d)). lia.
Qed.

Lemma days_to_breach_below (q : Q) (n : Z) :
  q < inject_Z n → (1 ≤ Z.max 1 (Py.int q) ≤ Z.max 1 (n - 1))%Z.
Proof.
  intros Hq. destruct (Qlt_le_dec q 0) as [Hneg | Hpos].
  - pose proof (int_negative q Hneg). lia.
  - rewrite int_nonneg by done. pose proof (Qfloor_le q) as Hf.
    assert (Qfloor q < n)%Z; [| lia]. rewrite Zlt_Qlt. lra.
Qed.

(** X9: in a reachable state and at a valid date, the breach predictor
    either returns or raises [ValueError] (no other exception), and it
    returns whenever the current month has 31 days.  A prediction it returns
    is for the service and usage type asked for, has a positive limit
    strictly below the projection, a positive daily average with
    [projection = average * 31], at least one day to the breach, and,
    before the 31st, a breach day [day + days_to_breach] of at most 31. *)
Theorem prediction_postcondition self now service usage_type :
  reachable self → valid_datetime now →
  let result := predict_free_tier_breach self now service usage_type in
  (result = Raise ValueError ∨ ∃ r, result = Ok r)
  ∧ (days_in (year now) (month now) = 31%Z → ∃ r, result = Ok r)
  ∧ (∀ p, result = Ok (Some p) →
       p_service p = service ∧ p_usage_type p = usage_type
       ∧ 0 < p_limit p ∧ p_limit p < p_projected_usage p
       ∧ 0 < p_daily_average p
       ∧ p_projected_usage p == p_daily_average p * 31
       ∧ (1 ≤ p_days_to_breach p)%Z
       ∧ (day now < 31 → day now + p_days_to_breach p ≤ 31)%Z).
Proof.
  intros Hr Hnow result. unfold result. clear result.
  pose proof (valid_day_nonzero now Hnow) as Hday.
  destruct (select_month_to_date self service usage_type (strftime_Ym now))
    as [row|] eqn:Hrow;
    [| rewrite (predict_no_data _ _ _ _ Hrow); split; [eauto | split; [eauto | done]]].
  destruct (reachable_month_to_date_allowance _ _ _ _ _ Hr Hrow) as [_ Hpos].
  destruct (m_free_tier_limit row) as [l|] eqn:Hl;
    [| rewrite (predict_untracked _ _ _ _ _ Hrow) by (by rewrite Hl);
       split; [eauto | split; [eauto | done]]].
  specialize (Hpos l eq_refl).
  rewrite (predict_tracked _ _ _ _ _ _ Hnow Hrow Hl) by lra.
  set (mtd := month_to_date_usage row).
  set (avg := mtd / inject_Z (day now)).
  destruct (Py.gt (avg * 31) l) eqn:Hgt;
    [apply gt_true in Hgt | split; [eauto | split; [eauto | done]]].
  assert (0 < avg) as Havg by lra.
  assert (avg * inject_Z (day now) == mtd) as Hmtd.
  { unfold avg. field. lra. }
  rewrite truediv_nonzero by lra.
  set (q := (l - mtd) / avg).
  assert (q < inject_Z (31 - day now)) as Hq.
  { unfold q. apply Qlt_shift_div_r; [done |].
    unfold Zminus. rewrite inject_Z_plus, inject_Z_opp.
    change (inject_Z 31) with 31. nra. }
  pose proof (days_to_breach_below q _ Hq) as Hdtb.
  destruct Hnow as (_ & _ & Hd).
  unfold replace_day. simpl.
  destruct ((1 <=? Z.min 31 (day now + Z.max 1 (Py.int q)))%Z
            && (Z.min 31 (day now + Z.max 1 (Py.int q)) <=? days_in (year now) (month now))%Z)
    eqn:Hreplace; simpl.
  - split; [eauto | split; [eauto |]].
    intros p [= <-]. simpl.
    repeat (split; [done || lra || lia |]). lia.
  - split; [by left | split; [| done]].
    intros H31. exfalso. apply andb_false_iff in Hreplace as [H | H];
      apply Z.leb_gt in H; lia.
Qed.

Lemma prediction_postcondition_witness :
  ∃ r, predict_free_tier_breach (Sample.ten_days_of 30) Sample.now Sample.ec2 "t2.micro"
       = Ok r.
Proof.
  exact (proj1 (proj2 (prediction_postcondition (Sample.ten_days_of 30) Sample.now
                         Sample.ec2 "t2.micro"
                         (reachable_insert _ _ reachable_init) sample_now_valid))
           eq_refl).
Defined.

End prediction.

(** ** The dashboard: the usage table *)

Section usage_table.
Local Open Scope Q_scope.

Lemma title_of_level (row : usage_group) (l : Q) :
  PyStr.title (alert_level (tracked_status row l))
  ∈ ["Critical"; "Warning"; "Info"; "Ok"]%string.
Proof.
  unfold tracked_status; simpl.
  destruct (Py.ge _ 90); [by left |].
  destruct (Py.ge _ 75); [by right; left |].
  destruct (Py.ge _ 50); [by do 2 right; left | by do 3 right; left].
Qed.

(** The row of a standing with an allowance. *)
Lemma table_row_of_tracked (s : usage_status) :
  classify_row (st_group s) = Ok s →
  Py.truthy_opt (g_free_tier_limit (st_group s)) = true →
  ∃ r, table_row_of s = Ok r
       ∧ tr_service r = g_service (st_group s)
       ∧ tr_usage_type r = g_usage_type (st_group s)
       ∧ tr_status r = PyStr.title (alert_level s)
       ∧ tr_status r ∈ ["Critical"; "Warning"; "Info"; "Ok"]%string.
Proof.
  intros Hs Ht.
  destruct (classify_row_cases (st_group s))
    as [(l & Hl & Hnz & Hc) | [Hf Hc]]; [| congruence].
  rewrite Hc in Hs. injection Hs as Hs.
  set (row := st_group s) in *.
  assert (usage_percentage s = Some (Py.round (total_usage row / l * 100) 2)) as Hp
    by (by rewrite <- Hs).
  assert (remaining s = RemainingAmount (Py.max 0 (l - total_usage row))) as Hrem
    by (by rewrite <- Hs).
  unfold table_row_of. fold row. rewrite Hl, Hp, Hrem.
  eexists. split; [reflexivity |]. simpl.
  repeat (split; [done |]). rewrite <- Hs. apply title_of_level.
Qed.

(** A standing without an allowance has no row: a missing allowance cannot
    be formatted, and with a zero allowance the text ['unlimited'] cannot. *)
Lemma table_row_of_untracked (s : usage_status) :
  classify_row (st_group s) = Ok s →
  Py.truthy_opt (g_free_tier_limit (st_group s)) = false →
  (g_free_tier_limit (st_group s) = None ∧ table_row_of s = Raise TypeError)
  ∨ (is_Some (g_free_tier_limit (st_group s)) ∧ table_row_of s = Raise ValueError).
Proof.
  intros Hs Hf.
  destruct (classify_row_cases (st_group s))
    as [(l & Hl & Hnz & Hc) | [_ Hc]].
  { rewrite (proj2 (truthy_opt_true _)) in Hf by eauto. done. }
  rewrite Hc in Hs. injection Hs as Hs.
  unfold table_row_of.
  assert (usage_percentage s = Some 0) as Hp by (by rewrite <- Hs).
  assert (remaining s = RemainingText "unlimited") as Hrem by (by rewrite <- Hs).
  destruct (g_free_tier_limit (st_group s)) as [l|] eqn:Hl; [right | by left].
  split; [by eexists |]. by rewrite Hp, Hrem.
Qed.

Lemma table_rows_tracked (statuses : list usage_status) :
  Forall (λ s, classify_row (st_group s) = Ok s) statuses →
  Forall (λ s, Py.truthy_opt (g_free_tier_limit (st_group s)) = true) statuses →
  ∃ table, table_rows statuses = Ok table
    ∧ Forall2 (λ s r, tr_service r = g_service (st_group s)
                      ∧ tr_usage_type r = g_usage_type (st_group s)
                      ∧ tr_status r = PyStr.title (alert_level s)
                      ∧ tr_status r ∈ ["Critical"; "Warning"; "Info"; "Ok"]%string)
        statuses table.
Proof.
  induction 1 as [|s statuses Hs _ IH]; intros Ht.
  - exists []. split; [done | constructor].
  - apply Forall_cons in Ht as [Ht Hts].
    destruct (table_row_of_tracked s Hs Ht) as (r & Hr & Hfields).
    destruct (IH Hts) as (table & Htable & Hall).
    exists (r :: table). split; [| by constructor].
    cbn [table_rows]. by rewrite Hr; simpl; rewrite Htable.
Qed.

Lemma table_rows_untracked (statuses : list usage_status) :
  Forall (λ s, classify_row (st_group s) = Ok s) statuses →
  Exists (λ s, Py.truthy_opt (g_free_tier_limit (st_group s)) = false) statuses →
  (table_rows statuses = Raise TypeError ∨ table_rows statuses = Raise ValueError)
  ∧ (Forall (λ s, g_free_tier_limit (st_group s) = None
                  ∨ Py.truthy_opt (g_free_tier_limit (st_group s)) = true) statuses →
     table_rows statuses = Raise TypeError).
Proof.
  induction 1 as [|s statuses Hs Hwf IH]; intros Hex; [by apply Exists_nil in Hex |].
  cbn [table_rows].
  destruct (Py.truthy_opt (g_free_tier_limit (st_group s))) eqn:Ht.
  - destruct (table_row_of_tracked s Hs Ht) as (r & -> & _). simpl.
    apply Exists_cons in Hex as [Hex | Hex]; [congruence |].
    destruct (IH Hex) as [Hany Hnone]. split.
    + by destruct Hany as [-> | ->]; [left | right].
    + intros [_ Hall]%Forall_cons. by rewrite (Hnone Hall).
  - destruct (table_row_of_untracked s Hs Ht) as [[Hn ->] | [Hsome ->]]; simpl.
    + split; [by left | done].
    + split; [by right |]. intros [[Hn | Hn] _]%Forall_cons; [| congruence].
      rewrite Hn in Hsome. by destruct Hsome.
Qed.

(** X10: the table of the dashboard can be built only when every standing
    of the month has an allowance.  With no standing it is the text for no
    data; when all standings have an allowance it has one row per standing,
    in their order, with the status Critical, Warning, Info or Ok; a
    standing without an allowance makes the call fail with [TypeError] or
    [ValueError], and in a reachable state, where it means that the
    registry has no limit for a stored (service, usage_type), with
    [TypeError]. *)
Theorem usage_table_needs_allowances self now month statuses :
  check_free_tier_usage self now month = Ok statuses →
  (statuses = [] → create_usage_table statuses = Ok None)
  ∧ (statuses ≠ [] →
     Forall (λ s, Py.truthy_opt (g_free_tier_limit (st_group s)) = true) statuses →
     ∃ table, create_usage_table statuses = Ok (Some table)
       ∧ Forall2 (λ s r, tr_service r = g_service (st_group s)
                         ∧ tr_usage_type r = g_usage_type (st_group s)
                         ∧ tr_status r = PyStr.title (alert_level s)
                         ∧ tr_status r ∈ ["Critical"; "Warning"; "Info"; "Ok"]%string)
           statuses table)
  ∧ (Exists (λ s, Py.truthy_opt (g_free_tier_limit (st_group s)) = false) statuses →
     create_usage_table statuses = Raise TypeError
     ∨ create_usage_table statuses = Raise ValueError)
  ∧ (reachable self →
     (∃ s, s ∈ statuses
           ∧ limits self !! (g_service (st_group s), g_usage_type (st_group s)) = None) →
     create_usage_table statuses = Raise TypeError).
Proof.
  intros Hst. pose proof (check_free_tier_usage_wf _ _ _ _ Hst) as Hwf.
  assert (∀ e, table_rows statuses = Raise e → create_usage_table statuses = Raise e)
    as Hraise.
  { intros e He. unfold create_usage_table. destruct statuses; [done |]. by rewrite He. }
  split; [by intros -> |]. split; [| split].
  - intros Hne Ht. destruct (table_rows_tracked statuses Hwf Ht) as (table & Htable & Hall).
    exists table. split; [| done].
    unfold create_usage_table. destruct statuses; [done |]. by rewrite Htable.
  - intros Hex. destruct (proj1 (table_rows_untracked statuses Hwf Hex)) as [H | H];
      [left | right]; by apply Hraise.
  - intros Hr (s & Hs & Hnone). apply Hraise.
    assert (∀ s', s' ∈ statuses →
              g_free_tier_limit (st_group s')
              = monthly_limit <$> limits self
                  !! (g_service (st_group s'), g_usage_type (st_group s'))
              ∧ ∀ l, g_free_tier_limit (st_group s') = Some l → 0 < l) as Hlim.
    { intros s' Hs'.
      destruct (check_free_tier_usage_member _ _ _ _ _ Hst Hs')
        as (_ & d & row & Hrow & Hl).
      pose proof (reachable_invariant _ Hr) as (_ & _ & Hc).
      rewrite Hl. split; [by eapply Hc |].
      intros l Hrl. by eapply reachable_allowance_positive. }
    apply table_rows_untracked; [done | |].
    + apply Exists_exists. exists s. split; [done |].
      destruct (Hlim s Hs) as [-> _]. by rewrite Hnone.
    + apply Forall_forall. intros s' Hs'.
      destruct (Hlim s' Hs') as [_ Hpos].
      destruct (g_free_tier_limit (st_group s')) as [l|]; [right | by left].
      simpl. apply truthy_true. specialize (Hpos l eq_refl). lra.
Qed.

Lemma usage_table_needs_allowances_witness :
  ∃ statuses,
    check_free_tier_usage SampleUntracked.ledger Sample.now None = Ok statuses
    ∧ create_usage_table statuses = Raise TypeError.
Proof.
  assert { statuses |
           check_free_tier_usage SampleUntracked.ledger Sample.now None = Ok statuses
           ∧ Exists (λ s, limits SampleUntracked.ledger
                            !! (g_service (st_group s), g_usage_type (st_group s)) = None)
               statuses } as (statuses & Hst & Hex).
  { eexists. split; [vm_compute; reflexivity |]. apply Exists_cons_hd. vm_compute. reflexivity. }
  exists statuses. split; [exact Hst |].
  apply (proj2 (proj2 (proj2 (usage_table_needs_allowances SampleUntracked.ledger
                                Sample.now None statuses Hst)))).
  - apply reachable_insert, reachable_init.
  - apply Exists_exists in Hex as (s & Hs & Hnone). eauto.
Defined.

End usage_table.

(** ** The report summary and the overview chart *)

Section report_counts.
Local Open Scope Q_scope.

Lemma ge_chain (p : Q) :
  (Py.ge p 90 = true → Py.ge p 75 = true) ∧ (Py.ge p 75 = true → Py.ge p 50 = true).
Proof.
  split; intros H%ge_true; apply ge_true; lra.
Qed.

(** The three counts of the report and the chart over the same standings. *)
Lemma categorize_counts (statuses : list usage_status) (c0 : category_counts) :
  Forall (λ s, is_Some (usage_percentage s)) statuses →
  ∃ n50 n75 n90 c,
    count_at_least 50 statuses = Ok n50
    ∧ count_at_least 75 statuses = Ok n75
    ∧ count_at_least 90 statuses = Ok n90
    ∧ categorize statuses c0 = Ok c
    ∧ (0 ≤ n90 ≤ n75)%Z ∧ (n75 ≤ n50 ≤ Z.of_nat (length statuses))%Z
    ∧ cat_critical c = (cat_critical c0 + n90)%Z
    ∧ cat_warning c = (cat_warning c0 + (n75 - n90))%Z
    ∧ cat_moderate c = (cat_moderate c0 + (n50 - n75))%Z
    ∧ cat_safe c = (cat_safe c0 + (Z.of_nat (length statuses) - n50))%Z.
Proof.
  intros Hall. revert c0.
  induction Hall as [|s statuses [p Hp] _ IH]; intros c0.
  - exists 0%Z, 0%Z, 0%Z, c0. simpl. repeat split; lia.
  - cbn [count_at_least categorize]. rewrite Hp.
    destruct (ge_chain p) as [H9075 H7550].
    destruct (Py.ge p 90) eqn:E90.
    { rewrite (H9075 eq_refl), (H7550 (H9075 eq_refl)).
      destruct (IH {| cat_safe := cat_safe c0; cat_moderate := cat_moderate c0;
                      cat_warning := cat_warning c0;
                      cat_critical := cat_critical c0 + 1 |})
        as (n50 & n75 & n90 & c & -> & -> & -> & -> & ? & ? & Hc1 & Hc2 & Hc3 & Hc4).
      exists (1 + n50)%Z, (1 + n75)%Z, (1 + n90)%Z, c. simpl in *.
      repeat split; lia. }
    destruct (Py.ge p 75) eqn:E75.
    { rewrite (H7550 eq_refl).
      destruct (IH {| cat_safe := cat_safe c0; cat_moderate := cat_moderate c0;
                      cat_warning := cat_warning c0 + 1;
                      cat_critical := cat_critical c0 |})
        as (n50 & n75 & n90 & c & -> & -> & -> & -> & ? & ? & Hc1 & Hc2 & Hc3 & Hc4).
      exists (1 + n50)%Z, (1 + n75)%Z, n90, c. simpl in *.
      repeat split; lia. }
    destruct (Py.ge p 50) eqn:E50.
    { destruct (IH {| cat_safe := cat_safe c0; cat_moderate := cat_moderate c0 + 1;
                      cat_warning := cat_warning c0;
                      cat_critical := cat_critical c0 |})
        as (n50 & n75 & n90 & c & -> & -> & -> & -> & ? & ? & Hc1 & Hc2 & Hc3 & Hc4).
      exists (1 + n50)%Z, n75, n90, c. simpl in *.
      repeat split; lia. }
    destruct (IH {| cat_safe := cat_safe c0 + 1; cat_moderate := cat_moderate c0;
                    cat_warning := cat_warning c0;
                    cat_critical := cat_critical c0 |})
      as (n50 & n75 & n90 & c & -> & -> & -> & -> & ? & ? & Hc1 & Hc2 & Hc3 & Hc4).
    exists n50, n75, n90, c. simpl in *.
    repeat split; lia.
Qed.

(** The alert of a standing, by its reported percentage. *)
Lemma returned_alert_cases now (s : usage_status) :
  classify_row (st_group s) = Ok s →
  ∃ p, usage_percentage s = Some p
    ∧ ((returned_alert now s = None ∧ Py.ge p 75 = false)
       ∨ ∃ a, returned_alert now s = Some a ∧ Py.ge p 75 = true
              ∧ a_severity a = (if Py.ge p 90 then "critical" else "warning")%string).
Proof.
  intros Hs. unfold returned_alert.
  destruct (classify_row_cases (st_group s))
    as [(l & Hl & Hnz & Hc) | [Hf Hc]]; rewrite Hc in Hs; injection Hs as Hs.
  - set (p := Py.round (total_usage (st_group s) / l * 100) 2).
    assert (usage_percentage s = Some p) as -> by (by rewrite <- Hs).
    exists p. split; [done |]. rewrite Hl. simpl.
    rewrite (proj2 (truthy_true l)) by done. simpl.
    destruct (ge_chain p) as [H9075 _].
    destruct (Py.ge p 90) eqn:E90.
    { right. eexists. split; [reflexivity |]. split; [by apply H9075 | done]. }
    destruct (Py.ge p 75) eqn:E75; [| by left].
    right. eexists. split; [reflexivity |]. done.
  - assert (usage_percentage s = Some 0) as -> by (by rewrite <- Hs).
    exists 0. split; [done |]. left. split; [| done].
    apply truthy_opt_false in Hf as [-> | (l & -> & Hz)]; [done |].
    by rewrite (proj2 (truthy_false l)).
Qed.

(** The standings the report counts as at risk and as critical are the
    ones the alert check returns an alert for. *)
Lemma counts_and_returned now (statuses : list usage_status) :
  Forall (λ s, classify_row (st_group s) = Ok s) statuses →
  count_at_least 75 statuses
  = Ok (Z.of_nat (length (omap (returned_alert now) statuses)))
  ∧ count_at_least 90 statuses
    = Ok (Z.of_nat (length (filter (λ a, a_severity a = "critical"%string)
                              (omap (returned_alert now) statuses)))).
Proof.
  induction 1 as [|s statuses Hs _ [IH75 IH90]]; [done |].
  cbn [count_at_least omap list_omap]. rewrite IH75, IH90.
  destruct (returned_alert_cases now s Hs) as (p & -> & [[-> E75] | (a & -> & E75 & Hsev)]).
  - simpl. rewrite E75.
    destruct (Py.ge p 90) eqn:E90; [| done].
    apply (proj1 (ge_chain p)) in E90. congruence.
  - simpl. rewrite E75, filter_cons.
    destruct (Py.ge p 90) eqn:E90.
    + rewrite decide_True by done. simpl. split; f_equal; lia.
    + rewrite decide_False by (by rewrite Hsev). split; [f_equal; lia | done].
Qed.

(** X11: the summary of the report, the alert check and the overview chart
    count the same standings of the month: the report's services at risk
    are as many as the alerts the alert check returns, its critical services
    as many as the returned critical alerts, and critical is at most at
    risk, at most the services tracked.  The chart, drawn when there is a
    standing, shows the critical services as 'Critical (90%+)', the other
    services at risk as 'Warning (75-90%)', and its four values add up to
    the services tracked. *)
Theorem report_and_chart_counts self now usage_data :
  ∃ statuses summary returned,
    check_free_tier_usage self now (Some (strftime_Ym now)) = Ok statuses
    ∧ export_summary self now = Ok summary
    ∧ (check_free_tier_alerts self now usage_data).1 = Ok returned
    ∧ total_services_tracked summary = Z.of_nat (length statuses)
    ∧ (0 ≤ critical_services summary ≤ at_risk_services summary)%Z
    ∧ (at_risk_services summary ≤ total_services_tracked summary)%Z
    ∧ at_risk_services summary = Z.of_nat (length returned)
    ∧ critical_services summary
      = Z.of_nat (length (filter (λ a, a_severity a = "critical"%string) returned))
    ∧ match create_usage_overview_chart statuses with
      | Ok (Some c) =>
          statuses ≠ []
          ∧ cat_critical c = critical_services summary
          ∧ (cat_critical c + cat_warning c)%Z = at_risk_services summary
          ∧ (cat_safe c + cat_moderate c + cat_warning c + cat_critical c)%Z
            = total_services_tracked summary
      | Ok None => statuses = []
      | Raise _ => False
      end.
Proof.
  destruct (check_free_tier_usage_total self now (Some (strftime_Ym now)))
    as [statuses Hst].
  pose proof (check_free_tier_usage_wf _ _ _ _ Hst) as Hwf.
  assert (Forall (λ s, is_Some (usage_percentage s)) statuses) as Hsome.
  { eapply Forall_impl; [exact Hwf |]. intros s Hs. simpl in Hs.
    destruct (returned_alert_cases now s Hs) as (p & -> & _). by eexists. }
  destruct (categorize_counts statuses
              {| cat_safe := 0; cat_moderate := 0; cat_warning := 0; cat_critical := 0 |}
              Hsome)
    as (n50 & n75 & n90 & c & H50 & H75 & H90 & Hcat & ? & ? & Hcc & Hcw & Hcm & Hcs).
  destruct (counts_and_returned now statuses Hwf) as [Hr75 Hr90].
  exists statuses. eexists. exists (omap (returned_alert now) statuses).
  split; [done |]. split.
  { unfold export_summary. rewrite Hst. simpl. rewrite H75. simpl. rewrite H90. simpl.
    reflexivity. }
  split.
  { unfold check_free_tier_alerts. rewrite Hst.
    rewrite (check_alerts_loop_returns self now statuses [] Hwf). done. }
  simpl. split; [done |]. split; [lia |]. split; [lia |].
  split; [congruence |]. split; [congruence |].
  unfold create_usage_overview_chart. destruct statuses as [|s statuses]; [done |].
  rewrite Hcat. simpl. split; [done |]. simpl in *. repeat split; lia.
Qed.

End report_counts.

(** ** The dashboard: the recommendations *)

Section dashboard_recommendations.
Local Open Scope Q_scope.

Lemma dashboard_recommendations_loop_adds (statuses : list usage_status)
    (acc : list dashboard_recommendation) :
  Forall (λ s, is_Some (usage_percentage s)) statuses →
  ∃ added,
    dashboard_recommendations_loop statuses acc = Ok (acc ++ added)
    ∧ (length added ≤ length statuses)%nat
    ∧ Forall (λ r, dr_title r ∈ ["EC2 Optimization"; "S3 Storage Review";
                                 "Lambda Optimization"]%string) added
    ∧ (Forall (λ s, ∀ p, usage_percentage s = Some p → p < 80) statuses → added = []).
Proof.
  intros Hall. revert acc.
  induction Hall as [|s statuses [p Hp] _ IH]; intros acc.
  - exists []. rewrite app_nil_r. by repeat split.
  - cbn [dashboard_recommendations_loop]. rewrite Hp.
    assert (∀ r, dr_title r ∈ ["EC2 Optimization"; "S3 Storage Review";
                               "Lambda Optimization"]%string →
              Py.ge p 80 = true →
              ∃ added,
                dashboard_recommendations_loop statuses (acc ++ [r]) = Ok (acc ++ added)
                ∧ (length added ≤ S (length statuses))%nat
                ∧ Forall (λ r, dr_title r ∈ ["EC2 Optimization"; "S3 Storage Review";
                                             "Lambda Optimization"]%string) added
                ∧ (Forall (λ s, ∀ p, usage_percentage s = Some p → p < 80)
                     (s :: statuses) → added = [])) as Hadd.
    { intros r Hr Hge. destruct (IH (acc ++ [r])) as (added & -> & Hlen & Htitles & _).
      exists (r :: added). rewrite <- app_assoc. split; [done |].
      split; [simpl; lia |]. split; [by constructor |].
      intros [Hlt _]%Forall_cons. apply ge_true in Hge.
      specialize (Hlt p Hp). lra. }
    assert (∃ added,
              dashboard_recommendations_loop statuses acc = Ok (acc ++ added)
              ∧ (length added ≤ S (length statuses))%nat
              ∧ Forall (λ r, dr_title r ∈ ["EC2 Optimization"; "S3 Storage Review";
                                           "Lambda Optimization"]%string) added
              ∧ (Forall (λ s, ∀ p, usage_percentage s = Some p → p < 80)
                   (s :: statuses) → added = [])) as Hskip.
    { destruct (IH acc) as (added & -> & Hlen & Htitles & Hnone).
      exists added. split; [done |]. split; [lia |]. split; [done |].
      intros [_ Hlt]%Forall_cons. by apply Hnone. }
    destruct (Py.ge p 80) eqn:E80; [| exact Hskip].
    destruct (PyStr.contains "Compute Cloud" _); [apply Hadd; [by left | done] |].
    destruct (PyStr.contains "Storage Service" _);
      [apply Hadd; [by right; left | done] |].
    destruct (PyStr.contains "Lambda" _);
      [apply Hadd; [by do 2 right; left | done] | exact Hskip].
Qed.

(** X12: the recommendations of the dashboard are never empty.  They are
    either the two general ones, or at most one specific recommendation per
    standing of the month (for EC2, S3 or Lambda); the general ones are
    shown only when there is no specific one, as when every reported
    percentage is below 80. *)
Theorem dashboard_recommendations_never_empty self now month statuses :
  check_free_tier_usage self now month = Ok statuses →
  ∃ recommendations,
    create_recommendations_section statuses = Ok recommendations
    ∧ recommendations ≠ []
    ∧ (recommendations = general_recommendations
       ∨ (length recommendations ≤ length statuses)%nat
         ∧ Forall (λ r, dr_title r ∈ ["EC2 Optimization"; "S3 Storage Review";
                                      "Lambda Optimization"]%string) recommendations)
    ∧ (Forall (λ s, ∀ p, usage_percentage s = Some p → p < 80) statuses →
       recommendations = general_recommendations).
Proof.
  intros Hst. pose proof (check_free_tier_usage_wf _ _ _ _ Hst) as Hwf.
  assert (Forall (λ s, is_Some (usage_percentage s)) statuses) as Hsome.
  { eapply Forall_impl; [exact Hwf |]. intros s Hs. simpl in Hs.
    destruct (returned_alert_cases now s Hs) as (p & -> & _). by eexists. }
  destruct (dashboard_recommendations_loop_adds statuses [] Hsome)
    as (added & Hloop & Hlen & Htitles & Hnone).
  unfold create_recommendations_section. rewrite Hloop. simpl.
  destruct added as [|r added].
  - eexists. split; [reflexivity |]. split; [done |]. split; [by left | done].
  - eexists. split; [reflexivity |]. split; [done |]. split; [by right |].
    intros Hlt. by specialize (Hnone Hlt).
Qed.

Lemma dashboard_recommendations_never_empty_witness :
  ∃ statuses recommendations,
    check_free_tier_usage (Sample.ten_days_of 70) Sample.now None = Ok statuses
    ∧ create_recommendations_section statuses = Ok recommendations
    ∧ recommendations ≠ [].
Proof.
  assert { statuses |
           check_free_tier_usage (Sample.ten_days_of 70) Sample.now None = Ok statuses }
    as [statuses Hst] by (eexists; vm_compute; reflexivity).
  destruct (dashboard_recommendations_never_empty (Sample.ten_days_of 70) Sample.now
              None statuses Hst) as (recommendations & Hr & Hne & _).
  exists statuses, recommendations. split; [exact Hst |]. split; [exact Hr | exact Hne].
Defined.

(** The sample month at 93 per cent of the EC2 hours. *)
Example dashboard_recommends_ec2 :
  match check_free_tier_usage (Sample.ten_days_of 70) Sample.now None with
  | Ok statuses =>
      match create_recommendations_section statuses with
      | Ok recommendations => dr_title <$> recommendations = ["EC2 Optimization"%string]
      | Raise _ => False
      end
  | Raise _ => False
  end.
Proof. vm_compute. reflexivity. Qed.

End dashboard_recommendations.
